(** * pw-web-app-tests: a shallow embedding of the suite's glue code

    The repository is a parameterised Playwright suite.  What is its own is
    the tier classifier [getTestType], the [TestType] enum with its two
    helpers, the bounding-box logger and the bodies of the per-case test
    functions.  The browser and the automation client are collaborators:
    they appear below as an interface ([Page]) that the test bodies are
    written against, so that a statement about a test body holds for any
    page, and as one scripted page ([Demo]) on which the bodies are run. *)

From Stdlib Require Import String Ascii List Bool ZArith Lia Permutation.
From Stdlib Require Import DecimalString.
Import ListNotations.
Local Open Scope string_scope.

(** ** JavaScript values, exceptions and string helpers *)

Module Js.

(** What a caller can hand to a function whose parameter is declared
    [string[]]: an array of strings, or anything else an untyped call
    site lets through. *)
Inductive value : Type :=
| Undefined
| Null
| Boolean (b : bool)
| Number (n : Z)
| Str (s : string)
| Object
| Array (elems : list string).

Definition isArray (v : value) : bool :=
  match v with
  | Array _ => true
  | _ => false
  end.

(** The elements read through [.length] and [.map] once [isArray] holds. *)
Definition elements (v : value) : list string :=
  match v with
  | Array elems => elems
  | _ => []
  end.

(** Exceptions: the [TypeError] of the classifier, a failed [expect], and
    an automation action that rejects when its timeout runs out. *)
Inductive exn : Type :=
| TypeError (msg : string)
| ExpectationFailed
| TimeoutError.

Inductive outcome (A : Type) : Type :=
| Returned (a : A)
| Thrown (e : exn).
Arguments Returned {A} a.
Arguments Thrown {A} e.

(** [Array.prototype.join] on an array of strings. *)
Definition join (sep : string) (xs : list string) : string :=
  String.concat sep xs.

(** [String.prototype.startsWith] and [String.prototype.includes]. *)
Fixpoint startsWith (s p : string) : bool :=
  match p, s with
  | EmptyString, _ => true
  | String _ _, EmptyString => false
  | String c p', String d s' => Ascii.eqb c d && startsWith s' p'
  end.

Fixpoint includes (s p : string) : bool :=
  startsWith s p ||
  match s with
  | EmptyString => false
  | String _ s' => includes s' p
  end.

(** The double quote and the line feed, for the log lines that print one. *)
Definition dquote : string := String (ascii_of_nat 34) EmptyString.
Definition newline : string := String (ascii_of_nat 10) EmptyString.

End Js.
Import Js.

(** ** utils/test_type.ts *)

Inductive TestType : Type :=
| Sanity
| Smoke
| Regression.

(** The string each enum member is initialised with. *)
Definition TestType_value (t : TestType) : string :=
  match t with
  | Sanity => "sanity"
  | Smoke => "smoke"
  | Regression => "regression"
  end.

(** [Object.values(TestType)]: a string enum has no reverse mapping, so
    these are the members in declaration order. *)
Definition Object_values_TestType : list TestType :=
  [Sanity; Smoke; Regression].

Module TestTypeDefinition.

Definition is_valid_test_type (type : string) : bool :=
  existsb (fun v => String.eqb (TestType_value v) type)
          Object_values_TestType.

Definition get_test_types : list TestType :=
  Object_values_TestType.

End TestTypeDefinition.

(** ** utils/helper.ts *)

Definition getTestType (t_type : value) : outcome string :=
  if negb (isArray t_type) then
    Thrown (TypeError "t_type must be an array of strings")
  else if (List.length (elements t_type) =? 0)%nat then
    Thrown (TypeError "t_type cannot be an empty array")
  else
    Returned (join "" (map (fun type => "@" ++ type) (elements t_type))).

(** The call sites pass arrays of enum members. *)
Definition tiers (ts : list TestType) : value :=
  Array (map TestType_value ts).

(** What the specification asks of the classifier, in its own words: one
    tag per label, the marker character put in front of it, and the tags
    concatenated in order. *)
Definition spec_tag (label : string) : string := String "@" label.

Fixpoint spec_concat (tags : list string) : string :=
  match tags with
  | [] => ""
  | t :: rest => t ++ spec_concat rest
  end.

(** ** The automation client, as the test bodies use it *)

(** Locators are built, never resolved, by the test code:
    [page.getByRole(role, { name })], [page.getByLabel], [page.getByText],
    [page.locator(selector)] and [parent.locator(selector)]. *)
Inductive Locator : Type :=
| getByRole (role name : string)
| getByLabel (text : string)
| getByText (text : string)
| locator (selector : string)
| locator_in (parent : Locator) (selector : string).

Fixpoint Locator_eqb (a b : Locator) : bool :=
  match a, b with
  | getByRole r n, getByRole r' n' => String.eqb r r' && String.eqb n n'
  | getByLabel t, getByLabel t' => String.eqb t t'
  | getByText t, getByText t' => String.eqb t t'
  | locator s, locator s' => String.eqb s s'
  | locator_in p s, locator_in p' s' => Locator_eqb p p' && String.eqb s s'
  | _, _ => false
  end.

(** JavaScript numbers stay abstract: the suite adds a pixel offset to one
    and prints them with [toFixed], nothing else. *)
Class JsNumber (num : Type) : Type := {
  num_of_Z : Z -> num;
  num_add : num -> num -> num;
  toFixed : num -> nat -> string
}.

(** The [{ x, y, width, height }] objects of [boundingBox()] and of the
    [getBoundingClientRect] callback. *)
Record Rect (num : Type) : Type := mkRect {
  rect_x : num;
  rect_y : num;
  rect_width : num;
  rect_height : num
}.
Arguments mkRect {num} _ _ _ _.
Arguments rect_x {num} _.
Arguments rect_y {num} _.
Arguments rect_width {num} _.
Arguments rect_height {num} _.

(** An element handle, as far as the suite reads it: its [boundingBox()]
    (null when the element is not rendered) and what the
    [getBoundingClientRect] callback evaluates to. *)
Record ElementHandle (num : Type) : Type := mkHandle {
  handle_boundingBox : option (Rect num);
  handle_getBoundingClientRect : Rect num
}.
Arguments mkHandle {num} _ _.
Arguments handle_boundingBox {num} _.
Arguments handle_getBoundingClientRect {num} _.

(** A native dialog: [dialog.type()] and [dialog.message()]. *)
Record Dialog : Type := mkDialog {
  dialog_type : string;
  dialog_message : string
}.

(** How a dialog is closed: [dialog.accept(promptText?)] or
    [dialog.dismiss()]. *)
Inductive DialogDecision : Type :=
| Accept (promptText : option string)
| Dismiss.

(** Everything a test body does that is observable from outside it: log
    lines, actions on the page, expectations, and what a dialog handler
    answers. *)
Inductive Event (num : Type) : Type :=
| Log (line : string)
| Goto (url : string)
| Fill (target : Locator) (text : string)
| Press (key : string)
| DragTo (source target : Locator) (targetPosition : option (num * num))
| Click (target : Locator)
| OnDialog
| Answer (decision : DialogDecision)
| ExpectVisible (target : Locator)
| ExpectText (target : Locator) (expected : string)
| ExpectContainText (target : Locator) (expected : string)
| ExpectToBe (actual expected : string).
Arguments Log {num} line.
Arguments Goto {num} url.
Arguments Fill {num} target text.
Arguments Press {num} key.
Arguments DragTo {num} source target targetPosition.
Arguments Click {num} target.
Arguments OnDialog {num}.
Arguments Answer {num} decision.
Arguments ExpectVisible {num} target.
Arguments ExpectText {num} target expected.
Arguments ExpectContainText {num} target expected.
Arguments ExpectToBe {num} actual expected.

Definition is_expectation {num : Type} (e : Event num) : bool :=
  match e with
  | ExpectVisible _ | ExpectText _ _ | ExpectContainText _ _
  | ExpectToBe _ _ => true
  | _ => false
  end.

Definition is_drag {num : Type} (e : Event num) : bool :=
  match e with
  | DragTo _ _ _ => true
  | _ => false
  end.

(** The page under test.  Actions answer [None] when they reject (the
    element never turns up, the navigation fails); reads answer with the
    type the test code declares for them. *)
Class Page (num P : Type) : Type := {
  goto : string -> P -> option P;
  fill : Locator -> string -> P -> option P;
  press : string -> P -> option P;
  dragTo : Locator -> Locator -> option (num * num) -> P -> option P;
  (** a click may leave a native dialog open *)
  click : Locator -> P -> option (P * option Dialog);
  closeDialog : DialogDecision -> P -> P;
  isVisible : Locator -> P -> bool;
  textContent : Locator -> P -> option string;
  validationMessage : Locator -> P -> string;
  boundingBox : Locator -> P -> option (Rect num);
  elementHandle : Locator -> P -> option (ElementHandle num)
}.

(** A [page.on('dialog', ...)] callback: what it logs and answers. *)
Definition Handler (num : Type) : Type := Dialog -> list (Event num).

Record World (num P : Type) : Type := mkWorld {
  page : P;
  handlers : list (Handler num)
}.
Arguments mkWorld {num P} _ _.
Arguments page {num P} _.
Arguments handlers {num P} _.

(** An [async] body: from the world it starts in to how it ends, the world
    it leaves and the events it produced, in order.  A throw keeps the
    world and the events up to it. *)
Definition M {num P : Type} {PAGE : Page num P} (A : Type) : Type :=
  World num P -> outcome A * World num P * list (Event num).

(** The three components of a finished run. *)
Definition verdict {num P A : Type}
    (r : outcome A * World num P * list (Event num)) : outcome A :=
  fst (fst r).

Definition world_after {num P A : Type}
    (r : outcome A * World num P * list (Event num)) : World num P :=
  snd (fst r).

Definition events_of {num P A : Type}
    (r : outcome A * World num P * list (Event num)) : list (Event num) :=
  snd r.

Section Client.
Context {num : Type} {NUM : JsNumber num} {P : Type} {PAGE : Page num P}.

Definition ret {A : Type} (a : A) : M A :=
  fun w => (Returned a, w, []).

Definition bind {A B : Type} (m : M A) (k : A -> M B) : M B :=
  fun w =>
    match m w with
    | (Returned a, w', evs) =>
        match k a w' with
        | (r, w'', evs') => (r, w'', (evs ++ evs')%list)
        end
    | (Thrown e, w', evs) => (Thrown e, w', evs)
    end.

Definition emit (e : Event num) : M unit :=
  fun w => (Returned tt, w, [e]).

Definition read {A : Type} (f : P -> A) : M A :=
  fun w => (Returned (f (page w)), w, []).

Definition act (e : Event num) (step : P -> option P) : M unit :=
  fun w =>
    match step (page w) with
    | Some p' => (Returned tt, mkWorld p' (handlers w), [e])
    | None => (Thrown TimeoutError, w, [e])
    end.

Definition expect (e : Event num) (holds : P -> bool) : M unit :=
  fun w =>
    if holds (page w) then (Returned tt, w, [e])
    else (Thrown ExpectationFailed, w, [e]).

End Client.

Declare Scope client_scope.
Delimit Scope client_scope with client.
Notation "x <- m ;; k" := (bind m (fun x => k))
  (at level 61, m at next level, right associativity) : client_scope.
Notation "m ;; k" := (bind m (fun _ => k))
  (at level 61, right associativity) : client_scope.
Local Open Scope client_scope.

Section ClientApi.
Context {num : Type} {NUM : JsNumber num} {P : Type} {PAGE : Page num P}.

Definition console_log (line : string) : M unit :=
  emit (Log line : Event num).

(** [test.step(title, body)] runs its body. *)
Definition test_step (title : string) (body : M unit) : M unit := body.

Definition page_goto (url : string) : M unit :=
  act (Goto url) (goto url).

Definition locator_fill (target : Locator) (text : string) : M unit :=
  act (Fill target text) (fill target text).

Definition keyboard_press (key : string) : M unit :=
  act (Press key) (press key).

Definition locator_dragTo (source target : Locator)
    (targetPosition : option (num * num)) : M unit :=
  act (DragTo source target targetPosition)
      (dragTo source target targetPosition).

Definition locator_boundingBox (target : Locator) : M (option (Rect num)) :=
  read (boundingBox target).

Definition locator_elementHandle (target : Locator)
    : M (option (ElementHandle num)) :=
  read (elementHandle target).

Definition locator_textContent (target : Locator) : M (option string) :=
  read (textContent target).

(** [target.evaluate((el: HTMLInputElement) => el.validationMessage)] *)
Definition locator_validationMessage (target : Locator) : M string :=
  read (validationMessage target).

Definition expect_toBeVisible (target : Locator) : M unit :=
  expect (ExpectVisible target) (isVisible target).

Definition expect_toHaveText (target : Locator) (expected : string) : M unit :=
  expect (ExpectText target expected)
         (fun p => match textContent target p with
                   | Some t => String.eqb t expected
                   | None => false
                   end).

Definition expect_toContainText (target : Locator) (expected : string)
    : M unit :=
  expect (ExpectContainText target expected)
         (fun p => match textContent target p with
                   | Some t => includes t expected
                   | None => false
                   end).

(** [expect(actual).toBe(expected)] on two strings. *)
Definition expect_toBe (actual expected : string) : M unit :=
  expect (ExpectToBe actual expected) (fun _ => String.eqb actual expected).

(** [page.on('dialog', handler)] *)
Definition page_on_dialog (handler : Handler num) : M unit :=
  fun w => (Returned tt, mkWorld (page w) (handlers w ++ [handler])%list,
            [OnDialog]).

Fixpoint first_answer (evs : list (Event num)) : option DialogDecision :=
  match evs with
  | [] => None
  | Answer d :: _ => Some d
  | _ :: rest => first_answer rest
  end.

(** A click.  When it opens a dialog the registered callbacks run before the
    click resolves; with no callback registered the client dismisses the
    dialog itself, and a dialog nobody answers keeps the click pending
    until it times out. *)
Definition locator_click (target : Locator) : M unit :=
  fun w =>
    match click target (page w) with
    | None => (Thrown TimeoutError, w, [Click target])
    | Some (p', None) =>
        (Returned tt, mkWorld p' (handlers w), [Click target])
    | Some (p', Some dialog) =>
        let evs := flat_map (fun h : Handler num => h dialog) (handlers w) in
        match handlers w, first_answer evs with
        | [], _ =>
            (Returned tt, mkWorld (closeDialog Dismiss p') [], [Click target])
        | _, Some d =>
            (Returned tt, mkWorld (closeDialog d p') (handlers w),
             Click target :: evs)
        | _, None =>
            (Thrown TimeoutError, mkWorld p' (handlers w), Click target :: evs)
        end
    end.

(** [for (const x of xs) { body }] *)
Fixpoint for_of {A : Type} (xs : list A) (body : A -> M unit) : M unit :=
  match xs with
  | [] => ret tt
  | x :: rest => body x ;; for_of rest body
  end.

(** [for (let i = 0; i <= repeat; i++) { body }]: the values [i] takes. *)
Definition range_le (repeat : Z) : list Z :=
  map Z.of_nat (seq 0 (Z.to_nat (repeat + 1))).

Definition for_i_le (repeat : Z) (body : Z -> M unit) : M unit :=
  for_of (range_le repeat) body.

(** String concatenation with a value that may be [null]. *)
Definition or_null (s : option string) : string :=
  match s with
  | Some t => t
  | None => "null"
  end.

(** [test(title, { tag: [ getTestType(t_type) ] }, body)]: the tag is
    computed while the suite is being defined, so a throw of the
    classifier leaves the test unregistered. *)
Record Test : Type := mkTest {
  title : string;
  tag : list string;
  body : M unit
}.

Definition test (title : string) (t_type : list TestType) (body : M unit)
    : outcome Test :=
  match getTestType (tiers t_type) with
  | Returned tg => Returned (mkTest title [tg] body)
  | Thrown e => Thrown e
  end.

(** [cases.forEach(c => test(...))]: registration stops at the first throw. *)
Fixpoint forEach {A : Type} (cases : list A) (register : A -> outcome Test)
    : outcome (list Test) :=
  match cases with
  | [] => Returned []
  | c :: rest =>
      match register c with
      | Thrown e => Thrown e
      | Returned t =>
          match forEach rest register with
          | Thrown e => Thrown e
          | Returned ts => Returned (t :: ts)
          end
      end
  end.

End ClientApi.

(** ** src/unnamed/part_004: the shared logger, imported by the image suite
    as [./helper.ts] *)

Module DragHelper.
Section Body.
Context {num : Type} {NUM : JsNumber num} {P : Type} {PAGE : Page num P}.

Definition get_bounding_box_info (element : Locator) (label : string)
    : M unit :=
  element_handler <- locator_elementHandle element ;;
  match element_handler with
  | Some element_handler =>
      match handle_boundingBox element_handler with
      | Some element_bb =>
          console_log
            (label ++ " bounding box top left location 1 -> x:"
               ++ toFixed (rect_x element_bb) 1
               ++ " y:" ++ toFixed (rect_y element_bb) 1
               ++ " | dimensions -> width:"
               ++ toFixed (rect_width element_bb) 1
               ++ " height:" ++ toFixed (rect_height element_bb) 1)
      | None =>
          let element_rect := handle_getBoundingClientRect element_handler in
          console_log
            (label ++ " rectangle top left location -> x:"
               ++ toFixed (rect_x element_rect) 1
               ++ " y:" ++ toFixed (rect_y element_rect) 1
               ++ " | dimensions -> width:"
               ++ toFixed (rect_width element_rect) 1
               ++ " height:" ++ toFixed (rect_height element_rect) 1)
      end
  | None => console_log (label ++ " box not found")
  end.

End Body.
End DragHelper.

(** ** src/unnamed/part_003: the drag-and-drop box suite *)

Module DragBoxes.

Definition LABEL_HEADING : string := "Drag-n-drop".
Definition LABEL_DRAG_BOX : string := "Drag me".
Definition LABEL_DROP_BOX : string := "Drop here".
Definition LABEL_BOX_DROPPED : string := "Dropped!".
Definition RECT_DROP_BOX : string := "#rect-droppable".
Definition RECT_DRAG_BOX : string := "#rect-draggable".
Definition LOCATOR_DROP_BOX_TXT : string := "#text-droppable".

Record Case : Type := mkCase {
  t_case : string;
  t_type : list TestType;
  is_positive : bool;
  expected_drop_box_txt : string
}.

Definition cases : list Case :=
  [ mkCase "Drag-me inside Drop-here" [Sanity; Smoke; Regression]
           true LABEL_BOX_DROPPED;
    mkCase "Drag-me outside Drop-here" [Smoke; Regression]
           false LABEL_DROP_BOX ].

Section Body.
Context {num : Type} {NUM : JsNumber num} {P : Type} {PAGE : Page num P}.

Definition X_OFFSET : num := num_of_Z 10.

(** The suite's own copy of the logger; it differs from the shared one in
    the wording of the second line only. *)
Definition get_bounding_box_info (element : Locator) (label : string)
    : M unit :=
  element_handler <- locator_elementHandle element ;;
  match element_handler with
  | Some element_handler =>
      match handle_boundingBox element_handler with
      | Some element_bb =>
          console_log
            (label ++ " bounding box top left location 1 -> x:"
               ++ toFixed (rect_x element_bb) 1
               ++ " y:" ++ toFixed (rect_y element_bb) 1
               ++ " | dimensions -> width:"
               ++ toFixed (rect_width element_bb) 1
               ++ " height:" ++ toFixed (rect_height element_bb) 1)
      | None =>
          let element_rect := handle_getBoundingClientRect element_handler in
          console_log
            (label ++ " rectangle top lect location -> x:"
               ++ toFixed (rect_x element_rect) 1
               ++ " y:" ++ toFixed (rect_y element_rect) 1
               ++ " | dimensions -> width:"
               ++ toFixed (rect_width element_rect) 1
               ++ " height:" ++ toFixed (rect_height element_rect) 1)
      end
  | None => console_log (label ++ " box not found")
  end.

Definition drag_box : Locator := locator RECT_DRAG_BOX.
Definition drop_box : Locator := locator RECT_DROP_BOX.
Definition drop_box_txt : Locator := locator LOCATOR_DROP_BOX_TXT.
Definition content_box : Locator := locator "div.content".

Definition navigate_and_check : M unit :=
  test_step "Navigate to drag and drop boxes page and check elements."
    (page_goto "/elements/dragndrop/boxes" ;;
     console_log "Before drag and drop step:" ;;
     expect_toHaveText (locator "h1") LABEL_HEADING ;;
     expect_toHaveText (locator RECT_DROP_BOX) LABEL_DROP_BOX ;;
     get_bounding_box_info drop_box LABEL_DROP_BOX ;;
     expect_toHaveText (locator RECT_DRAG_BOX) LABEL_DRAG_BOX ;;
     get_bounding_box_info drag_box LABEL_DRAG_BOX).

Definition drag_and_verify (c : Case) : M unit :=
  test_step "Perform drag and drop action and verify result."
    (console_log (newline ++ "After drag and drop step:") ;;
     (if is_positive c then
        locator_dragTo drag_box drop_box None
      else
        drop_box_bb <- locator_boundingBox drop_box ;;
        match drop_box_bb with
        | Some bb =>
            let target_x := num_add (rect_x bb) X_OFFSET in
            let target_y := rect_y bb in
            locator_dragTo drag_box content_box (Some (target_x, target_y))
        | None => ret tt
        end) ;;
     expect_toHaveText drop_box_txt (expected_drop_box_txt c) ;;
     get_bounding_box_info drop_box LABEL_DROP_BOX ;;
     get_bounding_box_info drag_box LABEL_DRAG_BOX).

Definition test_body (c : Case) : M unit :=
  navigate_and_check ;;
  drag_and_verify c.

Definition suite : outcome (list Test) :=
  forEach cases
    (fun c => test ("Drag and drop box test : " ++ t_case c) (t_type c)
                   (test_body c)).

End Body.
End DragBoxes.

(** ** tests/drag_and_drop/image.spec.ts *)

Module DragImages.

Definition LABEL_HEADING : string := "Drag-n-drop".
Definition LABEL_BOX_DROPPED : string := "Dropped!".
Definition RECT_BOX_1 : string := "#rect-droppable1".
Definition RECT_BOX_2 : string := "#rect-droppable2".

Record Case : Type := mkCase {
  t_case : string;
  t_type : list TestType;
  repeat : Z;
  is_loop_back : bool;
  is_positive : bool;
  expected_drop_box_txt : string
}.

Definition cases : list Case :=
  [ mkCase "From Box_1->Box_2" [Sanity; Smoke; Regression]
           0 false true LABEL_BOX_DROPPED;
    mkCase "From Box_1->Box_2->Box_1" [Sanity; Smoke; Regression]
           0 true true LABEL_BOX_DROPPED;
    mkCase "From Box_1->Box_2->Box_1 (1x loop back)" [Smoke; Regression]
           1 true true LABEL_BOX_DROPPED;
    mkCase "From Box_1->Box_2->Box_1 (2x loop back)" [Regression]
           2 true true LABEL_BOX_DROPPED;
    mkCase "From Box_1-> outside Box_2" [Sanity; Smoke; Regression]
           0 false false "";
    mkCase "From Box_1-> outside Box_2->Box_1" [Sanity; Smoke; Regression]
           0 true false "";
    mkCase "From Box_1-> outside Box_2->Box_1 (1x loop back)"
           [Smoke; Regression]
           1 true false "";
    mkCase "From Box_1-> outside Box_2->Box_1 (2x loop back)" [Regression]
           2 true false "" ].

Definition drop_box_1 : Locator := locator RECT_BOX_1.
Definition drop_box_2 : Locator := locator RECT_BOX_2.
Definition content_box : Locator := locator "div.content".
Definition image_in_box_1 : Locator := locator_in drop_box_1 "img".
Definition image_in_box_2 : Locator := locator_in drop_box_2 "img".
Definition image_in_content : Locator := locator_in content_box "img".

Section Body.
Context {num : Type} {NUM : JsNumber num} {P : Type} {PAGE : Page num P}.

Definition X_OFFSET : num := num_of_Z 10.

Definition navigate : M unit :=
  test_step "Navigate to drag and drop image page."
    (page_goto "/elements/dragndrop/images" ;;
     console_log "Before drag and drop step:").

Definition verify_heading : M unit :=
  test_step "Verify page heading"
    (let page_heading := locator "h1" in
     expect_toHaveText page_heading LABEL_HEADING ;;
     heading_text <- locator_textContent page_heading ;;
     console_log (dquote ++ or_null heading_text ++ " text found on page.")).

Definition verify_boxes : M unit :=
  test_step
    "Verify drag and drop boxes presence and print their bounding box info."
    (expect_toBeVisible (locator RECT_BOX_1) ;;
     DragHelper.get_bounding_box_info drop_box_1 RECT_BOX_1 ;;
     expect_toBeVisible (locator RECT_BOX_2) ;;
     DragHelper.get_bounding_box_info drop_box_2 RECT_BOX_2).

Definition locate_image : M unit :=
  test_step "Locate image presence inside box 1"
    (expect_toBeVisible image_in_box_1 ;;
     console_log ("Image found inside " ++ RECT_BOX_1)).

(** One forward drag of the positive branch with its two checks. *)
Definition drag_forward_and_verify (c : Case) : M unit :=
  locator_dragTo image_in_box_1 drop_box_2 None ;;
  console_log ("Dragged image from " ++ RECT_BOX_1 ++ " to " ++ RECT_BOX_2) ;;
  expect_toBeVisible image_in_box_2 ;;
  console_log ("Image found inside " ++ RECT_BOX_2) ;;
  expect_toHaveText drop_box_2 (expected_drop_box_txt c) ;;
  console_log (RECT_BOX_2 ++ " has text: " ++ dquote
                 ++ expected_drop_box_txt c ++ dquote).

(** The forward drag of the negative branch: skipped when the target
    coordinates are still [undefined]. *)
Definition drag_outside (target_x target_y : option num) : M unit :=
  match target_x, target_y with
  | Some tx, Some ty =>
      locator_dragTo image_in_box_1 content_box (Some (tx, ty))
  | _, _ => ret tt
  end ;;
  console_log ("Dragged image from " ++ RECT_BOX_1
                 ++ " and dropped just outside of " ++ RECT_BOX_2).

Definition drag_and_verify (c : Case) : M unit :=
  test_step "Perform drag and drop action and verify result."
    (if is_positive c then
       match is_loop_back c with
       | false => drag_forward_and_verify c
       | true =>
           for_i_le (repeat c) (fun i =>
             drag_forward_and_verify c ;;
             locator_dragTo image_in_box_2 drop_box_1 None ;;
             console_log ("Dragged image back from " ++ RECT_BOX_2
                            ++ " to " ++ RECT_BOX_1) ;;
             expect_toBeVisible image_in_box_1 ;;
             console_log ("Image found inside " ++ RECT_BOX_1))
       end
     else
       console_log "Drop image outside drop box 2 area." ;;
       drop_box_2_bb <- locator_boundingBox drop_box_2 ;;
       let target_x :=
         match drop_box_2_bb with
         | Some bb => Some (num_add (rect_x bb) X_OFFSET)
         | None => None
         end in
       let target_y :=
         match drop_box_2_bb with
         | Some bb => Some (rect_y bb)
         | None => None
         end in
       match is_loop_back c with
       | false => drag_outside target_x target_y
       | true =>
           for_i_le (repeat c) (fun i =>
             drag_outside target_x target_y ;;
             locator_dragTo image_in_content drop_box_1 None ;;
             console_log ("Dragged image back to " ++ RECT_BOX_1))
       end).

Definition test_body (c : Case) : M unit :=
  navigate ;;
  verify_heading ;;
  verify_boxes ;;
  locate_image ;;
  drag_and_verify c.

Definition suite : outcome (list Test) :=
  forEach cases
    (fun c => test ("Drag and drop image test : " ++ t_case c) (t_type c)
                   (test_body c)).

End Body.
End DragImages.

(** ** src/unnamed/part_000: the text input suite *)

Module SimpleInput.

Definition TXT_HEADING : string := "Input Field".
Definition TXT_LABEL : string := "Text string".
Definition TXT_MSG_VALID : string := "Your input was:".
Definition TXT_MSG_MANDATORY : string := "Please fill out this field.".
Definition TXT_MSG_MANDATORY_WEBKIT : string := "Fill out this field".

(** [result_msg] is a string in most rows and an array of strings in two. *)
Inductive ResultMsg : Type :=
| One (msg : string)
| Many (msgs : list string).

Record Case : Type := mkCase {
  t_case : string;
  t_type : list TestType;
  input_str : string;
  is_valid : bool;
  result_msg : ResultMsg
}.

(** The three message literals of the table, which repeats them inline. *)
Definition MSG_MIN : string := "Please enter 2 or more characters".
Definition MSG_MAX : string := "Please enter no more than 25 characters".
Definition MSG_PATTERN : string :=
  "Enter a valid string consisting of letters, numbers, underscores or hyphens".

Definition cases : list Case :=
  [ mkCase "Valid string - normal chars, hypens and underscores"
           [Sanity; Smoke; Regression]
           "This_Is-A_validString-123" true (One TXT_MSG_VALID);
    mkCase "Valid string - normal chars" [Regression]
           "ThisIsValidString123" true (One TXT_MSG_VALID);
    mkCase "Valid string - with underscores" [Regression]
           "This_is_valid_string_123" true (One TXT_MSG_VALID);
    mkCase "Valid string - with hyphens" [Regression]
           "This-is-valid-string-123" true (One TXT_MSG_VALID);
    mkCase "Invalid string - empty" [Sanity; Smoke; Regression]
           "" false (One TXT_MSG_MANDATORY);
    mkCase "Invalid string - single character" [Smoke; Regression]
           "a" false (One MSG_MIN);
    mkCase "Invalid string - single and special character" [Smoke; Regression]
           "@" false (Many [MSG_MIN; MSG_PATTERN]);
    mkCase "Invalid string with whitespaces" [Smoke; Regression]
           "Invalid string w spaces" false (One MSG_PATTERN);
    mkCase "Invalid string with special characters" [Smoke; Regression]
           "Invalid_string_w_special$#@!" false (One MSG_PATTERN);
    mkCase "Invalid string exceeds max chars" [Smoke; Regression]
           "Invalid_string_0123456789-ExceedsMaxChars" false (One MSG_MAX);
    mkCase "Invalid string exceeds max chars and contain special chars"
           [Smoke; Regression]
           "Invalid_string_speci@l_chars!_&_ExceedsMaxChars" false
           (Many [MSG_MAX; MSG_PATTERN]) ].

Definition textbox : Locator := getByRole "textbox" TXT_LABEL.

Section Body.
Context {num : Type} {NUM : JsNumber num} {P : Type} {PAGE : Page num P}.

Definition navigate : M unit :=
  test_step "Navigate to Input Field page and verify elements."
    (page_goto "/elements/input/simple" ;;
     expect_toBeVisible (getByRole "heading" TXT_HEADING) ;;
     expect_toBeVisible (getByLabel TXT_LABEL)).

Definition enter_input (c : Case) : M unit :=
  test_step ("Enter input string: " ++ dquote ++ input_str c ++ dquote
               ++ " and hit Enter key.")
    (locator_fill textbox (input_str c) ;;
     keyboard_press "Enter").

Definition verify_result (browserName : string) (c : Case) : M unit :=
  test_step "Verify result message."
    (match result_msg c with
     | Many msgs =>
         for_of msgs (fun msg => expect_toBeVisible (getByText msg))
     | One msg =>
         if input_str c =? "" then
           let result_msg :=
             if browserName =? "webkit" then TXT_MSG_MANDATORY_WEBKIT
             else msg in
           validationMessage <- locator_validationMessage textbox ;;
           expect_toBe validationMessage result_msg
         else
           expect_toBeVisible (getByText msg)
     end ;;
     if is_valid c then expect_toBeVisible (getByText (input_str c))
     else ret tt).

Definition test_body (browserName : string) (c : Case) : M unit :=
  navigate ;;
  enter_input c ;;
  verify_result browserName c.

Definition suite (browserName : string) : outcome (list Test) :=
  forEach cases
    (fun c => test ("Simple input field : " ++ t_case c) (t_type c)
                   (test_body browserName c)).

End Body.
End SimpleInput.

(** ** src/unnamed/part_001: the email input suite *)

Module EmailInput.

Definition TXT_HEADING : string := "Input Field".
Definition TXT_LABEL : string := "Email".
Definition TXT_MSG_VALID : string := "Your input was:".
Definition TXT_MSG_INVALID : string := "Enter a valid email address.".
Definition TXT_MSG_MANDATORY : string := "Please fill out this field.".
Definition TXT_MSG_MANDATORY_WEBKIT : string := "Fill out this field".

Record Case : Type := mkCase {
  t_case : string;
  t_type : list TestType;
  email_address : string;
  is_valid : bool;
  result_msg : string
}.

Definition cases : list Case :=
  [ mkCase "Valid email - normal characters" [Sanity; Smoke; Regression]
           "josephnepomucin@icloud.com" true TXT_MSG_VALID;
    mkCase "Valid email - normal characters and localhost domain"
           [Smoke; Regression]
           "josephnepomucin@localhost" true TXT_MSG_VALID;
    mkCase "Valid email - normal characters and hypen in domain"
           [Smoke; Regression]
           "josephnepomucin@i-cloud.com" true TXT_MSG_VALID;
    mkCase "Valid email - normal chars with dots" [Regression]
           "joseph.nepomucin@icloud.com" true TXT_MSG_VALID;
    mkCase "Valid email - normal chars with dots and underscore" [Regression]
           "joseph.nepomucin_2025@icloud.com" true TXT_MSG_VALID;
    mkCase "Valid email - normal chars with dots, underscore and hypen"
           [Regression]
           "j-seph.nepomucin_2025@icloud.com" true TXT_MSG_VALID;
    mkCase
      "Valid email - normal chars with dots, underscore, hypen and special char"
           [Regression]
           "j-seph.nepomucin_2025_!@icloud.com" true TXT_MSG_VALID;
    mkCase "Invalid email - empty" [Sanity; Smoke; Regression]
           "" false TXT_MSG_MANDATORY;
    mkCase "Invalid email - single character" [Sanity; Smoke; Regression]
           "a" false TXT_MSG_INVALID;
    mkCase "Invalid email - single and special character" [Smoke; Regression]
           "@" false TXT_MSG_INVALID;
    mkCase "Invalid email with whitespaces" [Smoke; Regression]
           "joseph nepomucin @ icloud . com" false TXT_MSG_INVALID;
    mkCase "Invalid email with special characters" [Smoke; Regression]
           "joseph!nepomucin@ic!loud.com" false TXT_MSG_INVALID;
    mkCase "Invalid email with double @ symbol" [Smoke; Regression]
           "josephnepomucin@@icloud.com" false TXT_MSG_INVALID;
    mkCase "Valid email - normal characters and underscore in domain"
           [Smoke; Regression]
           "josephnepomucin@i_cloud.com" false TXT_MSG_INVALID ].

Definition textbox : Locator := getByRole "textbox" TXT_LABEL.

Section Body.
Context {num : Type} {NUM : JsNumber num} {P : Type} {PAGE : Page num P}.

Definition navigate : M unit :=
  test_step "Navigate to Email Input page and verify elements."
    (page_goto "/elements/input/email" ;;
     expect_toBeVisible (getByRole "heading" TXT_HEADING) ;;
     expect_toBeVisible (getByLabel TXT_LABEL)).

Definition enter_input (c : Case) : M unit :=
  test_step ("Enter email address: " ++ dquote ++ email_address c ++ dquote
               ++ " and hit Enter key.")
    (locator_fill textbox (email_address c) ;;
     keyboard_press "Enter").

Definition verify_result (browserName : string) (c : Case) : M unit :=
  test_step "Verify result message."
    ((if email_address c =? "" then
        let result_msg :=
          if browserName =? "webkit" then TXT_MSG_MANDATORY_WEBKIT
          else result_msg c in
        validationMessage <- locator_validationMessage textbox ;;
        expect_toBe validationMessage result_msg
      else
        expect_toBeVisible (getByText (result_msg c))) ;;
     if is_valid c then expect_toBeVisible (getByText (email_address c))
     else ret tt).

Definition test_body (browserName : string) (c : Case) : M unit :=
  navigate ;;
  enter_input c ;;
  verify_result browserName c.

Definition suite (browserName : string) : outcome (list Test) :=
  forEach cases
    (fun c => test ("Email address input : " ++ t_case c) (t_type c)
                   (test_body browserName c)).

End Body.
End EmailInput.

(** ** src/unnamed/part_002: the password input suite *)

Module PasswordInput.

Definition TXT_HEADING : string := "Input Field".
Definition TXT_LABEL : string := "Password".
Definition TXT_MSG_VALID : string := "Your input was:".
Definition TXT_MSG_INVALID : string := "Low password complexity".
Definition TXT_MSG_MANDATORY : string := "Please fill out this field.".
Definition TXT_MSG_MANDATORY_WEBKIT : string := "Fill out this field".

Record Case : Type := mkCase {
  t_case : string;
  t_type : list TestType;
  password : string;
  is_valid : bool;
  result_msg : string
}.

Definition cases : list Case :=
  [ mkCase "Valid password - short 8 chars only" [Sanity; Smoke; Regression]
           "P@ssw0rd" true TXT_MSG_VALID;
    mkCase "Valid password - long" [Regression]
           "P1e@seLetMeIn12345!^" true TXT_MSG_VALID;
    mkCase "Invalid email - empty" [Sanity; Smoke; Regression]
           "" false TXT_MSG_MANDATORY;
    mkCase "Invalid email - less than 8 chars" [Smoke; Regression]
           "P@sw0rd" false TXT_MSG_INVALID;
    mkCase "Invalid email - no digit" [Smoke; Regression]
           "P@ssword_nodigit" false TXT_MSG_INVALID;
    mkCase "Invalid email - no uppercase character" [Smoke; Regression]
           "p@ssw0rd_no_upcase_char" false TXT_MSG_INVALID;
    mkCase "Invalid email - no lowercase character" [Smoke; Regression]
           "P@SSW0RD_NO_LOWCASE_CHAR" false TXT_MSG_INVALID;
    mkCase "Invalid email - no special character" [Smoke; Regression]
           "PassW0RDnoSpecialChar" false TXT_MSG_INVALID ].

Definition textbox : Locator := getByRole "textbox" TXT_LABEL.

Section Body.
Context {num : Type} {NUM : JsNumber num} {P : Type} {PAGE : Page num P}.

Definition navigate : M unit :=
  test_step "Navigate to Password Input page and verify elements."
    (page_goto "/elements/input/passwd" ;;
     expect_toBeVisible (getByRole "heading" TXT_HEADING) ;;
     expect_toBeVisible (getByLabel TXT_LABEL)).

Definition enter_input (c : Case) : M unit :=
  test_step ("Enter password: " ++ dquote ++ password c ++ dquote
               ++ " and hit Enter key.")
    (locator_fill textbox (password c) ;;
     keyboard_press "Enter").

Definition verify_result (browserName : string) (c : Case) : M unit :=
  test_step "Verify result message."
    ((if password c =? "" then
        let result_msg :=
          if browserName =? "webkit" then TXT_MSG_MANDATORY_WEBKIT
          else result_msg c in
        validationMessage <- locator_validationMessage textbox ;;
        expect_toBe validationMessage result_msg
      else
        expect_toBeVisible (getByText (result_msg c))) ;;
     if is_valid c then expect_toBeVisible (getByText (password c))
     else ret tt).

Definition test_body (browserName : string) (c : Case) : M unit :=
  navigate ;;
  enter_input c ;;
  verify_result browserName c.

Definition suite (browserName : string) : outcome (list Test) :=
  forEach cases
    (fun c => test ("Password input : " ++ t_case c) (t_type c)
                   (test_body browserName c)).

End Body.
End PasswordInput.

(** ** tests/alerts/confirmation.spec.ts: the confirmation suite *)

Module AlertConfirmation.

Definition LABEL_HEADING : string := "Alerts".
Definition LOCATOR_CLICK_BTN_STR : string := "a.a-button".
Definition RESULT_TXT : string := "You selected".

Record Case : Type := mkCase {
  t_case : string;
  t_type : list TestType;
  expected_txt : string
}.

Definition cases : list Case :=
  [ mkCase "Ok" [Sanity; Smoke; Regression] "Ok";
    mkCase "Cancel" [Sanity; Smoke; Regression] "Cancel" ].

Definition click_btn : Locator := locator LOCATOR_CLICK_BTN_STR.
Definition result_text_1 : Locator := locator "div#result".
Definition result_text_2 : Locator :=
  locator_in result_text_1 "p#result-text.result-text".

Section Body.
Context {num : Type} {NUM : JsNumber num} {P : Type} {PAGE : Page num P}.

Definition beforeEach (testInfo_title : string) : M unit :=
  test_step "Navigate to alerts confirmation page."
    (page_goto "/elements/alert/confirm") ;;
  test_step "Check page heading."
    (expect_toHaveText (locator "h1") LABEL_HEADING ;;
     console_log ("Page heading verified: " ++ LABEL_HEADING)) ;;
  test_step "Check presence of click button."
    (expect_toBeVisible click_btn ;;
     console_log "Click button found.") ;;
  console_log ("Starting test: " ++ dquote ++ testInfo_title ++ dquote).

(** The three callbacks the step chooses from. *)
Definition accept_handler : Handler num :=
  fun dialog =>
    [ Log ("Dialog message: " ++ dialog_message dialog);
      Answer (Accept None) ].

Definition dismiss_handler : Handler num :=
  fun dialog =>
    [ Log ("Dialog message: " ++ dialog_message dialog);
      Answer Dismiss ].

Definition fallback_handler : Handler num :=
  fun dialog => [ Answer Dismiss ].

Definition click_and_answer (c : Case) : M unit :=
  test_step "Click button and confirm or cancel."
    (console_log "Click button and confirm or cancel." ;;
     (if t_case c =? "Ok" then
        page_on_dialog accept_handler
      else if t_case c =? "Cancel" then
        page_on_dialog dismiss_handler
      else
        console_log "Unknown test case for dialog handling." ;;
        page_on_dialog fallback_handler) ;;
     locator_click click_btn).

Definition verify_result (c : Case) : M unit :=
  test_step "Verify the result text displayed on the page."
    (expect_toContainText result_text_1 RESULT_TXT ;;
     expect_toContainText result_text_2 (expected_txt c) ;;
     actual_result_txt <- locator_textContent result_text_1 ;;
     console_log ("Result text on page: " ++ or_null actual_result_txt)).

Definition test_body (c : Case) : M unit :=
  click_and_answer c ;;
  verify_result c.

Definition suite : outcome (list Test) :=
  forEach cases
    (fun c => test ("Alert Confirmation test : " ++ t_case c) (t_type c)
                   (test_body c)).

End Body.
End AlertConfirmation.

(** ** tests/alerts/confirmation.spec.ts: the prompt suite *)

Module AlertPrompt.

Definition LABEL_HEADING : string := "Alerts".
Definition LOCATOR_CLICK_BTN_STR : string := "a.a-button".
Definition RESULT_TXT : string := "You entered".
Definition RESULT_TXT_NONE : string := "You entered nothing".
Definition RESULT_TXT_CANCEL : string := "You canceled the prompt".

Record Case : Type := mkCase {
  t_case : string;
  t_type : list TestType;
  prompt_input : string;
  expected_txt : string
}.

Definition cases : list Case :=
  [ mkCase "Ok - with prompt input" [Sanity; Smoke; Regression]
           "This is a test prompt alert input text."
           "This is a test prompt alert input text.";
    mkCase "Ok - without prompt input" [Sanity; Smoke; Regression]
           "" RESULT_TXT_NONE;
    mkCase "Cancel" [Sanity; Smoke; Regression]
           "" RESULT_TXT_CANCEL ].

Definition click_btn : Locator := locator LOCATOR_CLICK_BTN_STR.
Definition result_text_1 : Locator := locator "div#result".
Definition result_text_2 : Locator :=
  locator_in result_text_1 "p#result-text.result-text".

Section Body.
Context {num : Type} {NUM : JsNumber num} {P : Type} {PAGE : Page num P}.

Definition beforeEach (testInfo_title : string) : M unit :=
  test_step "Navigate to alert prompts page."
    (page_goto "/elements/alert/prompt") ;;
  test_step "Check page heading."
    (expect_toHaveText (locator "h1") LABEL_HEADING ;;
     console_log ("Page heading verified: " ++ LABEL_HEADING)) ;;
  test_step "Check presence of click button."
    (expect_toBeVisible click_btn ;;
     console_log "Click button found.") ;;
  console_log ("Starting test: " ++ dquote ++ testInfo_title ++ dquote).

(** The single callback, branching on the case label when a dialog
    surfaces. *)
Definition dialog_handler (c : Case) : Handler num :=
  fun dialog =>
    ([ Log ("Dialog type: " ++ dialog_type dialog);
       Log ("Dialog message: " ++ dialog_message dialog) ]
     ++
     (if includes (t_case c) "Ok" then
        (if negb (prompt_input c =? "") then
           [ Log ("Type prompt input: " ++ prompt_input c);
             Answer (Accept (Some (prompt_input c))) ]
         else
           [ Log "No prompt input text provided.";
             Answer (Accept None) ])
        ++ [ Log "Click confirm." ]
      else if t_case c =? "Cancel" then
        [ Log "Click cancel."; Answer Dismiss ]
      else
        [ Log "Unknown test case for dialog handling."; Answer Dismiss ]))%list.

Definition click_and_answer (c : Case) : M unit :=
  test_step "Click button, type prompt input text and confirm or cancel."
    (console_log "Click button." ;;
     page_on_dialog (dialog_handler c) ;;
     locator_click click_btn).

Definition verify_result (c : Case) : M unit :=
  test_step "Verify the result text displayed on the page."
    ((if t_case c =? "Ok - with prompt input" then
        expect_toContainText result_text_1 RESULT_TXT
      else ret tt) ;;
     expect_toContainText result_text_2 (expected_txt c) ;;
     actual_result_txt <- locator_textContent result_text_1 ;;
     console_log ("Result text on page: " ++ or_null actual_result_txt)).

Definition test_body (c : Case) : M unit :=
  click_and_answer c ;;
  verify_result c.

Definition suite : outcome (list Test) :=
  forEach cases
    (fun c => test ("Alert Prompt test : " ++ t_case c) (t_type c)
                   (test_body c)).

End Body.
End AlertPrompt.

(** ** A scripted page

    The demo site is not part of the repository.  [Demo] is a small page
    that follows the requirement comments at the head of the suites: the
    image moves when it is dropped onto a box and stays where it is when it
    is released elsewhere, box 2 shows its label only while it holds the
    image, and a click on the alert pages opens a dialog.  The test bodies
    are run on it at concrete inputs. *)

Module Demo.

Inductive ImagePlace : Type :=
| InBox1
| InBox2.

Record State : Type := mkState {
  url : string;
  image : ImagePlace;
  (** whether [#rect-droppable2] is rendered *)
  box_2_rendered : bool;
  (** whether the draggable square was dropped onto the drop square *)
  square_dropped : bool;
  (** the form field's native validation message *)
  native_message : string;
  (** the texts the page shows *)
  texts : list string;
  (** how the last dialog was closed *)
  answered : option DialogDecision
}.

Definition start : State :=
  mkState "about:blank" InBox1 true false "" [] None.

Definition is_image (l : Locator) : bool :=
  Locator_eqb l DragImages.image_in_box_1
  || Locator_eqb l DragImages.image_in_box_2
  || Locator_eqb l DragImages.image_in_content.

(** Whether a drag source is on the page. *)
Definition resolves (source : Locator) (s : State) : bool :=
  if Locator_eqb source DragImages.image_in_box_1 then
    match image s with InBox1 => true | InBox2 => false end
  else if Locator_eqb source DragImages.image_in_box_2 then
    match image s with InBox2 => true | InBox1 => false end
  else true.

Definition with_image (s : State) (place : ImagePlace) : State :=
  mkState (url s) place (box_2_rendered s) (square_dropped s)
          (native_message s) (texts s) (answered s).

Definition demo_goto (u : string) (s : State) : option State :=
  Some (mkState u (image s) (box_2_rendered s) (square_dropped s)
                (native_message s) (texts s) (answered s)).

Definition demo_dragTo (source target : Locator)
    (targetPosition : option (Z * Z)) (s : State) : option State :=
  if negb (resolves source s) then None
  else
    match targetPosition with
    | Some _ => Some s
    | None =>
        if is_image source && Locator_eqb target DragImages.drop_box_1 then
          Some (with_image s InBox1)
        else if is_image source && Locator_eqb target DragImages.drop_box_2
                && box_2_rendered s then
          Some (with_image s InBox2)
        else if Locator_eqb source DragBoxes.drag_box
                && Locator_eqb target DragBoxes.drop_box then
          Some (mkState (url s) (image s) (box_2_rendered s) true
                        (native_message s) (texts s) (answered s))
        else Some s
    end.

Definition demo_click (target : Locator) (s : State)
    : option (State * option Dialog) :=
  if url s =? "/elements/alert/confirm" then
    Some (s, Some (mkDialog "confirm" "Select Ok or Cancel"))
  else if url s =? "/elements/alert/prompt" then
    Some (s, Some (mkDialog "prompt" "Please enter some text"))
  else Some (s, None).

Definition demo_closeDialog (d : DialogDecision) (s : State) : State :=
  mkState (url s) (image s) (box_2_rendered s) (square_dropped s)
          (native_message s) (texts s) (Some d).

Definition demo_isVisible (l : Locator) (s : State) : bool :=
  if Locator_eqb l DragImages.image_in_box_1 then
    match image s with InBox1 => true | InBox2 => false end
  else if Locator_eqb l DragImages.image_in_box_2 then
    match image s with InBox2 => true | InBox1 => false end
  else if Locator_eqb l DragImages.drop_box_2 then box_2_rendered s
  else
    match l with
    | getByText t => existsb (String.eqb t) (texts s)
    | _ => true
    end.

(** The text of [p#result-text] once a dialog was closed. *)
Definition answer_text (s : State) : option string :=
  match answered s with
  | None => None
  | Some d =>
      if url s =? "/elements/alert/confirm" then
        Some (match d with Accept _ => "Ok" | Dismiss => "Cancel" end)
      else
        Some (match d with
              | Accept (Some t) => t
              | Accept None => AlertPrompt.RESULT_TXT_NONE
              | Dismiss => AlertPrompt.RESULT_TXT_CANCEL
              end)
  end.

Definition result_line (s : State) : option string :=
  match answer_text s with
  | None => None
  | Some t =>
      if url s =? "/elements/alert/confirm" then
        Some (AlertConfirmation.RESULT_TXT ++ " " ++ t)
      else
        match answered s with
        | Some (Accept (Some _)) => Some (AlertPrompt.RESULT_TXT ++ ": " ++ t)
        | _ => Some t
        end
  end.

Definition demo_textContent (l : Locator) (s : State) : option string :=
  if Locator_eqb l DragImages.drop_box_2 then
    match image s with
    | InBox2 => Some DragImages.LABEL_BOX_DROPPED
    | InBox1 => Some ""
    end
  else if Locator_eqb l DragBoxes.drop_box_txt
          || Locator_eqb l DragBoxes.drop_box then
    Some (if square_dropped s then DragBoxes.LABEL_BOX_DROPPED
          else DragBoxes.LABEL_DROP_BOX)
  else if Locator_eqb l DragBoxes.drag_box then Some DragBoxes.LABEL_DRAG_BOX
  else if Locator_eqb l (locator "h1") then
    Some (if startsWith (url s) "/elements/alert" then "Alerts"
          else "Drag-n-drop")
  else if Locator_eqb l AlertConfirmation.result_text_1 then result_line s
  else if Locator_eqb l AlertConfirmation.result_text_2 then answer_text s
  else None.

Definition demo_rect : Rect Z := mkRect 100%Z 200%Z 150%Z 150%Z.

Definition demo_boundingBox (l : Locator) (s : State) : option (Rect Z) :=
  if Locator_eqb l DragImages.drop_box_2 then
    if box_2_rendered s then Some demo_rect else None
  else Some demo_rect.

Definition demo_elementHandle (l : Locator) (s : State)
    : option (ElementHandle Z) :=
  Some (mkHandle (demo_boundingBox l s) demo_rect).

(** Whole pixels printed with one decimal. *)
Definition demo_toFixed (z : Z) (digits : nat) : string :=
  NilZero.string_of_int (Z.to_int z)
  ++ match digits with
     | O => ""
     | S _ => "." ++ String.concat "" (List.repeat "0" digits)
     end.

#[export] Instance numbers : JsNumber Z := {
  num_of_Z := fun z => z;
  num_add := Z.add;
  toFixed := demo_toFixed
}.

#[export] Instance demo_page : Page Z State := {
  goto := demo_goto;
  fill := fun _ _ s => Some s;
  press := fun _ s => Some s;
  dragTo := demo_dragTo;
  click := demo_click;
  closeDialog := demo_closeDialog;
  isVisible := demo_isVisible;
  textContent := demo_textContent;
  validationMessage := fun _ s => native_message s;
  boundingBox := demo_boundingBox;
  elementHandle := demo_elementHandle
}.

(** A fresh browser context showing page state [s]: no dialog callback is
    registered yet. *)
Definition fresh (s : State) : World Z State := mkWorld s [].

End Demo.

(** ** Vocabulary of the statements *)

(** The native required-field message the specification names per browser
    engine: one literal for WebKit, another for every other engine. *)
Definition spec_required_message (browserName : string) : string :=
  if browserName =? "webkit" then "Fill out this field"
  else "Please fill out this field.".

(** How a rectangle is printed in a log line. *)
Definition spec_geometry {num : Type} {NUM : JsNumber num} (r : Rect num)
    : string :=
  "x:" ++ toFixed (rect_x r) 1 ++ " y:" ++ toFixed (rect_y r) 1
  ++ " | dimensions -> width:" ++ toFixed (rect_width r) 1
  ++ " height:" ++ toFixed (rect_height r) 1.

(** The line either copy of the logger writes on a page, given the wording
    of its second branch. *)
Definition logged_line {num : Type} {NUM : JsNumber num} {P : Type}
    {PAGE : Page num P} (rectangle_wording : string) (element : Locator)
    (label : string) (p : P) : string :=
  match elementHandle element p with
  | None => label ++ " box not found"
  | Some h =>
      match handle_boundingBox h with
      | Some bb =>
          label ++ " bounding box top left location 1 -> " ++ spec_geometry bb
      | None =>
          label ++ rectangle_wording
            ++ spec_geometry (handle_getBoundingClientRect h)
      end
  end.

(** The messages a run gets to check: all of them up to and including the
    first one that is not visible. *)
Fixpoint checked_until_failure {A : Type} (ok : A -> bool) (xs : list A)
    : list A :=
  match xs with
  | [] => []
  | x :: rest => x :: (if ok x then checked_until_failure ok rest else [])
  end.

(** The drags among the events of a run. *)
Definition drags {num : Type} (evs : list (Event num)) : list (Event num) :=
  filter is_drag evs.

(** The expectations among the events of a run. *)
Definition expectations {num : Type} (evs : list (Event num))
    : list (Event num) :=
  filter is_expectation evs.


(** ** Concrete inputs *)

Module Sample.
Import Demo.




(** Cases that are not in the tables: labels the alert suites do not
    recognise. *)
Definition unknown_confirmation : AlertConfirmation.Case :=
  AlertConfirmation.mkCase "Maybe" [Regression] "Maybe".

Definition unknown_prompt : AlertPrompt.Case :=
  AlertPrompt.mkCase "Escape" [Regression] "" "".

(** Page states. *)
Definition images_page : State :=
  mkState "/elements/dragndrop/images" InBox1 true false "" [] None.

Definition images_page_without_box_2 : State :=
  mkState "/elements/dragndrop/images" InBox1 false false "" [] None.


Definition confirm_page : State :=
  mkState "/elements/alert/confirm" InBox1 true false "" [] None.

Definition prompt_page : State :=
  mkState "/elements/alert/prompt" InBox1 true false "" [] None.

End Sample.

(** ** tests/checkbox/multiple_checkbox.spec.ts *)

(** [locator.nth(index)].  The client builds it by appending an [nth=]
    selector to the parent, and that is how it is embedded: distinct
    indices give distinct locators. *)
Definition locator_nth (parent : Locator) (index : nat) : Locator :=
  locator_in parent ("nth=" ++ NilZero.string_of_uint (Nat.to_uint index)).

(** The one read of the checkbox suite that [Page] does not offer:
    [locator.isChecked()]. *)
Class CheckboxPage (num P : Type) {PAGE : Page num P} : Type := {
  isChecked : Locator -> P -> bool
}.

Module Checkboxes.

Definition LABEL_HEADING : string := "Checkboxes".
Definition LABEL_CHKBOX_1 : string := "One".
Definition LABEL_CHKBOX_2 : string := "Two".
Definition LABEL_CHKBOX_3 : string := "Three".
Definition LABEL_NON_SELECTED_CHKBOX : string := "".
Definition RESULT_TXT : string := "Selected checkboxes:".

Definition LOCATOR_CHKBOX_STR : string :=
  "input[type=" ++ dquote ++ "checkbox" ++ dquote ++ "]".
Definition LOCATOR_SUBMIT_BTN_STR : string :=
  "input[type=" ++ dquote ++ "submit" ++ dquote ++ "]".

Record Case : Type := mkCase {
  t_case : string;
  t_type : list TestType;
  chk_box_selected : list string;
  expected_drop_box_txt : string
}.

Definition cases : list Case :=
  [ mkCase "Select none" [Sanity; Smoke; Regression]
           [] LABEL_NON_SELECTED_CHKBOX;
    mkCase "Select one" [Regression]
           [LABEL_CHKBOX_1] "one";
    mkCase "Select one and two" [Smoke; Regression]
           [LABEL_CHKBOX_1; LABEL_CHKBOX_2] "one, two";
    mkCase "Select one and three" [Regression]
           [LABEL_CHKBOX_1; LABEL_CHKBOX_3] "one, three";
    mkCase "Select two and three" [Regression]
           [LABEL_CHKBOX_2; LABEL_CHKBOX_3] "two, three";
    mkCase "Select one, two and three" [Sanity; Smoke; Regression]
           [LABEL_CHKBOX_1; LABEL_CHKBOX_2; LABEL_CHKBOX_3]
           "one, two, three" ].

Definition checkbox_1 : Locator := locator_nth (locator LOCATOR_CHKBOX_STR) 0.
Definition checkbox_2 : Locator := locator_nth (locator LOCATOR_CHKBOX_STR) 1.
Definition checkbox_3 : Locator := locator_nth (locator LOCATOR_CHKBOX_STR) 2.
Definition submit_btn : Locator := locator LOCATOR_SUBMIT_BTN_STR.
Definition result_text_1 : Locator := locator "div#result".
Definition result_text_2 : Locator :=
  locator_in result_text_1 "p#result-text.result-text".

Section Body.
Context {num : Type} {NUM : JsNumber num} {P : Type} {PAGE : Page num P}
        {CHECK : CheckboxPage num P}.

Definition locator_isChecked (target : Locator) : M bool :=
  read (isChecked target).

(** [if (await checkbox.isChecked()) { await checkbox.click(); }] *)
Definition click_if_checked (checkbox : Locator) : M unit :=
  checked <- locator_isChecked checkbox ;;
  if checked then locator_click checkbox else ret tt.

(** The three such statements in a row, as they stand at the start of the
    selection step and in [afterEach]. *)
Definition deselect_all : M unit :=
  click_if_checked checkbox_1 ;;
  click_if_checked checkbox_2 ;;
  click_if_checked checkbox_3.

Definition beforeEach (testInfo_title : string) : M unit :=
  test_step "Navigate to checkbox selection page."
    (page_goto "/elements/checkbox/mult_checkbox") ;;
  test_step "Check page heading."
    (expect_toHaveText (locator "h1") LABEL_HEADING ;;
     console_log ("Page heading verified: " ++ LABEL_HEADING)) ;;
  test_step "Check presence of checkboxes."
    (expect_toBeVisible checkbox_1 ;;
     expect_toBeVisible checkbox_2 ;;
     expect_toBeVisible checkbox_3 ;;
     console_log "Three checkboxes found.") ;;
  test_step "Check presence of submit button."
    (expect_toBeVisible submit_btn ;;
     console_log "Submit button found.") ;;
  console_log ("Starting test: " ++ dquote ++ testInfo_title).

Definition afterEach (testInfo_title testInfo_status : string) : M unit :=
  deselect_all ;;
  console_log ("Finished test: " ++ dquote ++ testInfo_title ++ dquote
                 ++ " [" ++ testInfo_status ++ "]").

Definition afterAll : M unit :=
  console_log "All checkbox tests finished.".

(** The body of the selection loop: a label that is none of the three
    clicks nothing. *)
Definition select_label (label : string) : M unit :=
  if label =? LABEL_CHKBOX_1 then locator_click checkbox_1
  else if label =? LABEL_CHKBOX_2 then locator_click checkbox_2
  else if label =? LABEL_CHKBOX_3 then locator_click checkbox_3
  else ret tt.

Definition select_step (c : Case) : M unit :=
  test_step "Select specified checkboxes."
    (deselect_all ;;
     for_of (chk_box_selected c) select_label ;;
     console_log ("Selected checkboxes: " ++ join ", " (chk_box_selected c))).

Definition submit_and_verify (c : Case) : M unit :=
  test_step "Submit checkbox selection and verify the result."
    (locator_click submit_btn ;;
     console_log "Clicked Submit button." ;;
     if negb (expected_drop_box_txt c =? LABEL_NON_SELECTED_CHKBOX) then
       expect_toContainText result_text_1 RESULT_TXT ;;
       expect_toContainText result_text_2 (expected_drop_box_txt c) ;;
       console_log ("Result text verified: " ++ expected_drop_box_txt c) ;;
       actual_result_txt <- locator_textContent result_text_1 ;;
       console_log ("Result text: " ++ or_null actual_result_txt)
     else ret tt).

Definition test_body (c : Case) : M unit :=
  select_step c ;;
  submit_and_verify c.

Definition suite : outcome (list Test) :=
  forEach cases
    (fun c => test ("Checkbox test : " ++ t_case c) (t_type c) (test_body c)).

End Body.
End Checkboxes.

(** ** Further vocabulary *)

(** A label that does not contain the marker character. *)
Fixpoint no_marker (label : string) : bool :=
  match label with
  | EmptyString => true
  | String c rest => negb (Ascii.eqb c "@") && no_marker rest
  end.

Definition TestType_eqb (a b : TestType) : bool :=
  match a, b with
  | Sanity, Sanity | Smoke, Smoke | Regression, Regression => true
  | _, _ => false
  end.

Definition is_nil {A : Type} (xs : list A) : bool :=
  match xs with
  | [] => true
  | _ :: _ => false
  end.

(** How each alert suite answers a dialog, as a function of the row. *)
Definition spec_confirm_decision (label : string) : DialogDecision :=
  if label =? "Ok" then Accept None else Dismiss.

Definition spec_prompt_decision (label input : string) : DialogDecision :=
  if includes label "Ok" then
    Accept (if input =? "" then None else Some input)
  else Dismiss.

(** The page after the drag of a box case, [None] when the drag rejects:
    the positive case drops the square onto the drop square, the negative
    case releases it at the offset point, and leaves the page alone when
    the drop square cannot be measured. *)
Definition box_after_drag {num : Type} {NUM : JsNumber num} {P : Type}
    {PAGE : Page num P} (c : DragBoxes.Case) (p : P) : option P :=
  if DragBoxes.is_positive c then
    dragTo DragBoxes.drag_box DragBoxes.drop_box None p
  else
    match boundingBox DragBoxes.drop_box p with
    | Some bb =>
        dragTo DragBoxes.drag_box DragBoxes.content_box
               (Some (num_add (rect_x bb) DragBoxes.X_OFFSET, rect_y bb)) p
    | None => Some p
    end.

(** Whether the text of an element is the expected one. *)
Definition has_text {num P : Type} {PAGE : Page num P} (l : Locator)
    (expected : string) (p : P) : bool :=
  match textContent l p with
  | Some t => String.eqb t expected
  | None => false
  end.

(** The labels the selection loop of the checkbox suite acts on. *)
Definition recognised (label : string) : bool :=
  (label =? Checkboxes.LABEL_CHKBOX_1)
  || (label =? Checkboxes.LABEL_CHKBOX_2)
  || (label =? Checkboxes.LABEL_CHKBOX_3).

(** Which of the three checkboxes are checked on a page. *)
Definition checked_boxes {num P : Type} {PAGE : Page num P}
    {CHECK : CheckboxPage num P} (p : P) : bool * bool * bool :=
  (isChecked Checkboxes.checkbox_1 p,
   isChecked Checkboxes.checkbox_2 p,
   isChecked Checkboxes.checkbox_3 p).

(** How often a label occurs in a list. *)
Definition occurrences (label : string) (labels : list string) : nat :=
  count_occ String.string_dec labels label.

(** The state of the three boxes after a click on one of them. *)
Definition toggled (box : Locator) (st : bool * bool * bool)
    : bool * bool * bool :=
  match st with
  | (b1, b2, b3) =>
      (xorb b1 (Locator_eqb Checkboxes.checkbox_1 box),
       xorb b2 (Locator_eqb Checkboxes.checkbox_2 box),
       xorb b3 (Locator_eqb Checkboxes.checkbox_3 box))
  end.

(** The state of the three boxes after the selection loop has run over a
    list of labels. *)
Definition after_label (st : bool * bool * bool) (label : string)
    : bool * bool * bool :=
  match st with
  | (b1, b2, b3) =>
      (xorb b1 (label =? Checkboxes.LABEL_CHKBOX_1),
       xorb b2 (label =? Checkboxes.LABEL_CHKBOX_2),
       xorb b3 (label =? Checkboxes.LABEL_CHKBOX_3))
  end.

(** Whether the text of an element contains the expected one. *)
Definition contains_text {num P : Type} {PAGE : Page num P} (l : Locator)
    (expected : string) (p : P) : bool :=
  match textContent l p with
  | Some t => includes t expected
  | None => false
  end.

(** The page a click leaves when no dialog callback is registered: a
    dialog, if one opened, has been dismissed by the client. *)
Definition after_unhandled_click {num P : Type} {PAGE : Page num P}
    (answer : P * option Dialog) : P :=
  match answer with
  | (p', Some _) => closeDialog Dismiss p'
  | (p', None) => p'
  end.

(** The page a click leaves when the registered callback answers a
    dialog, if one opened, with [d]. *)
Definition after_answered_click {num P : Type} {PAGE : Page num P}
    (d : DialogDecision) (answer : P * option Dialog) : P :=
  match answer with
  | (p', Some _) => closeDialog d p'
  | (p', None) => p'
  end.

(** What a run typed: the fills and key presses among its events. *)
Definition is_entry {num : Type} (e : Event num) : bool :=
  match e with
  | Fill _ _ | Press _ => true
  | _ => false
  end.

Definition entries {num : Type} (evs : list (Event num)) : list (Event num) :=
  filter is_entry evs.

(** ** A scripted checkbox page

    Three checkboxes that toggle on a click and a submit button that
    prints the names of the checked ones, as the requirement comment at
    the head of the checkbox suite describes the page. *)

Module CheckboxDemo.

Record State : Type := mkState {
  one : bool;
  two : bool;
  three : bool;
  (** the text of [p#result-text]; none before a submit and after a
      submit with nothing checked *)
  result : option string
}.

Definition selection (s : State) : list string :=
  ((if one s then ["one"] else [])
   ++ (if two s then ["two"] else [])
   ++ (if three s then ["three"] else []))%list.

Definition demo_click (target : Locator) (s : State)
    : option (State * option Dialog) :=
  if Locator_eqb target Checkboxes.checkbox_1 then
    Some (mkState (negb (one s)) (two s) (three s) (result s), None)
  else if Locator_eqb target Checkboxes.checkbox_2 then
    Some (mkState (one s) (negb (two s)) (three s) (result s), None)
  else if Locator_eqb target Checkboxes.checkbox_3 then
    Some (mkState (one s) (two s) (negb (three s)) (result s), None)
  else if Locator_eqb target Checkboxes.submit_btn then
    Some (mkState (one s) (two s) (three s)
                  (match selection s with
                   | [] => None
                   | names => Some (join ", " names)
                   end),
          None)
  else Some (s, None).

Definition demo_textContent (l : Locator) (s : State) : option string :=
  if Locator_eqb l (locator "h1") then Some Checkboxes.LABEL_HEADING
  else if Locator_eqb l Checkboxes.result_text_1 then
    match result s with
    | Some names => Some (Checkboxes.RESULT_TXT ++ " " ++ names)
    | None => Some ""
    end
  else if Locator_eqb l Checkboxes.result_text_2 then result s
  else None.

Definition demo_isChecked (l : Locator) (s : State) : bool :=
  if Locator_eqb l Checkboxes.checkbox_1 then one s
  else if Locator_eqb l Checkboxes.checkbox_2 then two s
  else if Locator_eqb l Checkboxes.checkbox_3 then three s
  else false.

#[export] Instance checkbox_page : Page Z State := {
  goto := fun _ s => Some s;
  fill := fun _ _ s => Some s;
  press := fun _ s => Some s;
  dragTo := fun _ _ _ s => Some s;
  click := demo_click;
  closeDialog := fun _ s => s;
  isVisible := fun _ _ => true;
  textContent := demo_textContent;
  validationMessage := fun _ _ => "";
  boundingBox := fun _ _ => None;
  elementHandle := fun _ _ => None
}.

#[export] Instance checkbox_reads : CheckboxPage Z State := {
  isChecked := demo_isChecked
}.

Definition fresh (s : State) : World Z State := mkWorld s [].

(** Page states. *)
Definition only_two_checked : State := mkState false true false None.
Definition all_checked : State := mkState true true true None.
Definition one_and_three_checked : State := mkState true false true None.

End CheckboxDemo.

(** ** Further concrete inputs *)

Module MoreSamples.

(** Rows of the tables, by position. *)
Definition single_character_row : SimpleInput.Case :=
  nth 5 SimpleInput.cases
      (SimpleInput.mkCase "" [] "" false (SimpleInput.One "")).

Definition single_character_email_row : EmailInput.Case :=
  nth 8 EmailInput.cases (EmailInput.mkCase "" [] "" false "").

Definition short_password_row : PasswordInput.Case :=
  nth 3 PasswordInput.cases (PasswordInput.mkCase "" [] "" false "").

Definition ok_row : AlertConfirmation.Case :=
  nth 0 AlertConfirmation.cases (AlertConfirmation.mkCase "" [] "").

Definition ok_with_input_row : AlertPrompt.Case :=
  nth 0 AlertPrompt.cases (AlertPrompt.mkCase "" [] "" "").

Definition outside_row : DragImages.Case :=
  nth 4 DragImages.cases (DragImages.mkCase "" [] 0 false false "").

Definition select_one_and_three_row : Checkboxes.Case :=
  nth 3 Checkboxes.cases (Checkboxes.mkCase "" [] [] "").

(** A case that is not in the table: a label listed twice. *)
Definition one_listed_twice : Checkboxes.Case :=
  Checkboxes.mkCase "Select one twice and three" [Regression]
    [Checkboxes.LABEL_CHKBOX_1; Checkboxes.LABEL_CHKBOX_3;
     Checkboxes.LABEL_CHKBOX_1] "three".

(** Page states. *)
Definition invalid_messages_shown : Demo.State :=
  Demo.mkState "/elements/input/simple" Demo.InBox1 true false ""
    [SimpleInput.MSG_MIN; EmailInput.TXT_MSG_INVALID;
     PasswordInput.TXT_MSG_INVALID] None.

End MoreSamples.

(** ** src/unnamed/part_007: the launcher script [run_tests.sh]

    A shell script: its variables are strings, its arguments a list of
    strings, and a run is the list of commands it issues followed by its
    exit status.  The script does not stop on a failing command, so the
    commands it issues depend on the outside world only where it tests
    something: whether the report directory exists, and the status of the
    test run.  Those, the names [mktemp] prints, [$0] and the two
    variables the script reads without initialising them are the
    environment of a run. *)

Module Launcher.

Record Vars : Type := mkVars {
  HEADLESS : string;
  UI_MODE : string;
  TEST_SUITE : string;
  TEST_TYPE : string;
  ORTONI_REPORT : string;
  PROJECT : string;
  WORKERS : string
}.

Record Env : Type := mkEnv {
  (** [$0] *)
  script_name : string;
  (** [PROJECT] and [WORKERS] as inherited, empty when unset *)
  env_PROJECT : string;
  env_WORKERS : string;
  (** [[ -d dir ]] *)
  is_directory : string -> bool;
  (** what the first, second and third call of [mktemp] print *)
  mktemp : nat -> string;
  (** the exit status of [eval $NPX_CMD] *)
  eval_status : string -> nat
}.

(** The default values, and the two variables left as they come. *)
Definition initial (env : Env) : Vars :=
  mkVars "true" "false" "" "sanity_smoke_regression" "false"
         (env_PROJECT env) (env_WORKERS env).

Definition set_HEADLESS (x : string) (v : Vars) : Vars :=
  mkVars x (UI_MODE v) (TEST_SUITE v) (TEST_TYPE v) (ORTONI_REPORT v)
         (PROJECT v) (WORKERS v).

Definition set_UI_MODE (x : string) (v : Vars) : Vars :=
  mkVars (HEADLESS v) x (TEST_SUITE v) (TEST_TYPE v) (ORTONI_REPORT v)
         (PROJECT v) (WORKERS v).

Definition set_TEST_SUITE (x : string) (v : Vars) : Vars :=
  mkVars (HEADLESS v) (UI_MODE v) x (TEST_TYPE v) (ORTONI_REPORT v)
         (PROJECT v) (WORKERS v).

Definition set_TEST_TYPE (x : string) (v : Vars) : Vars :=
  mkVars (HEADLESS v) (UI_MODE v) (TEST_SUITE v) x (ORTONI_REPORT v)
         (PROJECT v) (WORKERS v).

Definition set_ORTONI_REPORT (x : string) (v : Vars) : Vars :=
  mkVars (HEADLESS v) (UI_MODE v) (TEST_SUITE v) (TEST_TYPE v) x
         (PROJECT v) (WORKERS v).

Definition set_PROJECT (x : string) (v : Vars) : Vars :=
  mkVars (HEADLESS v) (UI_MODE v) (TEST_SUITE v) (TEST_TYPE v)
         (ORTONI_REPORT v) x (WORKERS v).

Definition set_WORKERS (x : string) (v : Vars) : Vars :=
  mkVars (HEADLESS v) (UI_MODE v) (TEST_SUITE v) (TEST_TYPE v)
         (ORTONI_REPORT v) (PROJECT v) x.

(** The three tests of the loop on [$2]. *)
Definition type_is_known (t : string) : bool :=
  negb (negb (t =? "sanity") && negb (t =? "regression")
        && negb (t =? "smoke")).

Definition project_is_known (p : string) : bool :=
  negb (negb (p =? "chromium") && negb (p =? "firefox")
        && negb (p =? "webkit")).

Definition is_digit (c : ascii) : bool :=
  (48 <=? nat_of_ascii c)%nat && (nat_of_ascii c <=? 57)%nat.

Fixpoint all_digits (s : string) : bool :=
  match s with
  | EmptyString => true
  | String c rest => is_digit c && all_digits rest
  end.

(** [[[ "$WORKERS" =~ ^[0-9]+$ ]]] *)
Definition is_number (s : string) : bool :=
  negb (s =? "") && all_digits s.

(** What the script prints before each [exit 1]. *)
Definition suite_error : list string :=
  [ "Error: --suite requires a test suite argument" ].

Definition type_error (t : string) : list string :=
  [ "Invalid test type: " ++ t;
    "Valid options are: sanity, regression, smoke" ].

Definition project_error (p : string) : list string :=
  [ "Invalid project name: " ++ p;
    "Valid options are: chromium, firefox, webkit" ].

Definition workers_error (n : string) : list string :=
  [ "Invalid number of workers: " ++ n;
    "Please provide a valid integer." ].

Definition argument_error (script arg : string) : list string :=
  [ "Invalid argument: " ++ arg;
    "Usage: " ++ script
      ++ " [--headless|--headed] [--suite <test-suite>] [--type <test-type>]"
      ++ " [--project <project-name>] [--workers <num-workers>]"
      ++ " [--ortoni-report]" ].

(** How the argument loop ends: past [done], or at an [exit 1] after the
    lines it printed. *)
Inductive Parsed : Type :=
| Done (v : Vars)
| Exit_1 (printed : list string).

(** [while [[ $# -gt 0 ]]; do case $1 in ... esac done].  [$2] is the
    empty string when there is no second argument, and each of the four
    options that read it exits on the empty string, so [shift 2] always
    has two arguments to drop. *)
Fixpoint parse_args (script : string) (args : list string) (v : Vars)
    : Parsed :=
  match args with
  | [] => Done v
  | arg :: rest =>
      if arg =? "--headless" then
        parse_args script rest (set_HEADLESS "true" v)
      else if arg =? "--headed" then
        parse_args script rest (set_HEADLESS "false" v)
      else if arg =? "--ui" then
        parse_args script rest (set_UI_MODE "true" v)
      else if arg =? "--suite" then
        match rest with
        | [] => Exit_1 suite_error
        | value :: rest' =>
            if value =? "" then Exit_1 suite_error
            else parse_args script rest' (set_TEST_SUITE value v)
        end
      else if arg =? "--type" then
        match rest with
        | [] => Exit_1 (type_error "")
        | value :: rest' =>
            if type_is_known value then
              parse_args script rest' (set_TEST_TYPE value v)
            else Exit_1 (type_error value)
        end
      else if arg =? "--project" then
        match rest with
        | [] => Exit_1 (project_error "")
        | value :: rest' =>
            if project_is_known value then
              parse_args script rest' (set_PROJECT value v)
            else Exit_1 (project_error value)
        end
      else if arg =? "--workers" then
        match rest with
        | [] => Exit_1 (workers_error "")
        | value :: rest' =>
            if is_number value then
              parse_args script rest' (set_WORKERS value v)
            else Exit_1 (workers_error value)
        end
      else if arg =? "--ortoni-report" then
        parse_args script rest (set_ORTONI_REPORT "true" v)
      else Exit_1 (argument_error script arg)
  end.

(** [NPX_CMD], built up by six conditional appends. *)
Definition build_command (v : Vars) : string :=
  let cmd := "npx playwright test" in
  let cmd := if HEADLESS v =? "false" then cmd ++ " --headed" else cmd in
  let cmd := if UI_MODE v =? "true" then cmd ++ " --ui" else cmd in
  let cmd :=
    if negb (TEST_SUITE v =? "") then cmd ++ " " ++ TEST_SUITE v else cmd in
  let cmd :=
    if negb (TEST_TYPE v =? "")
       && negb (TEST_TYPE v =? "sanity_smoke_regression")
    then cmd ++ " --grep " ++ TEST_TYPE v else cmd in
  let cmd :=
    if negb (PROJECT v =? "") then cmd ++ " --project=" ++ PROJECT v
    else cmd in
  if negb (WORKERS v =? "") then cmd ++ " --workers=" ++ WORKERS v else cmd.

(** The commands of the script other than assignments and tests. *)
Inductive Command : Type :=
| echo (line : string)
| mkdir_p (dir : string)
| mktemp_file (name : string)
| sed_to (script input output : string)
| mv (source target : string)
| cp (source target : string)
| eval_unquoted (NPX_CMD : string).

Definition ORTONI_CONFIG : string :=
  "./config_files/playwright.config_ortoni.ts".
Definition HTML_CONFIG : string :=
  "./config_files/playwright.config_html.ts".
Definition USED_CONFIG : string := "./playwright.config.ts".

(** [REPORT_DIR] *)
Definition report_dir (v : Vars) : string :=
  if ORTONI_REPORT v =? "true" then
    if negb (TEST_TYPE v =? "sanity_smoke_regression") then
      "ortoni-report" ++ "/" ++ TEST_TYPE v
    else "ortoni-report"
  else "playwright-report".

(** [TEST_TYPE] after the change of case, which only the report branch
    makes. *)
Definition change_case (t : string) : string :=
  if t =? "sanity" then "Sanity"
  else if t =? "regression" then "Regression"
  else if t =? "smoke" then "Smoke"
  else if t =? "sanity_smoke_regression" then "Sanity_Smoke_Regression"
  else t.

Definition shown_type (v : Vars) : string :=
  if ORTONI_REPORT v =? "true" then change_case (TEST_TYPE v)
  else TEST_TYPE v.

(** [TEMP_FILE=$(mktemp); sed "Ns|.*|text|" config > "$TEMP_FILE";
    mv "$TEMP_FILE" config] *)
Definition rewrite_line (env : Env) (call : nat) (line_number text : string)
    : list Command :=
  [ mktemp_file (mktemp env call);
    sed_to (line_number ++ "s|.*|" ++ text ++ "|") ORTONI_CONFIG
           (mktemp env call);
    mv (mktemp env call) ORTONI_CONFIG ].

Definition make_report_dir (env : Env) (v : Vars) : list Command :=
  if negb (is_directory env (report_dir v)) then [mkdir_p (report_dir v)]
  else [].

Definition set_up_report (env : Env) (v : Vars) : list Command :=
  if ORTONI_REPORT v =? "true" then
    (make_report_dir env v
     ++ rewrite_line env 0 "7"
          ("  folderPath: " ++ dquote ++ report_dir v ++ dquote ++ ",")
     ++ rewrite_line env 1 "9"
          ("  title: " ++ dquote ++ shown_type v ++ " Test Report" ++ dquote
             ++ ",")
     ++ rewrite_line env 2 "12"
          ("  testType: " ++ dquote ++ shown_type v ++ " Test" ++ dquote
             ++ ",")
     ++ [cp ORTONI_CONFIG USED_CONFIG])%list
  else
    (make_report_dir env v ++ [cp HTML_CONFIG USED_CONFIG])%list.

Definition SEPARATOR : string := "----------------------------------------".

Definition announce_and_run (env : Env) (v : Vars) : list Command :=
  [ echo SEPARATOR;
    echo ("Running: " ++ build_command v);
    echo ("Test Type: " ++ shown_type v);
    echo ("Report type: "
            ++ (if ORTONI_REPORT v =? "true" then "Ortoni Report"
                else "HTML Report"));
    echo ("Report Directory: ./" ++ report_dir v ++ "/");
    eval_unquoted (build_command v);
    echo (if (eval_status env (build_command v) =? 0)%nat
          then "Tests executed successfully."
          else "There was an error executing the tests.");
    echo SEPARATOR ].

(** The whole script: the commands issued and the exit status. *)
Definition run (env : Env) (args : list string) : list Command * nat :=
  match parse_args (script_name env) args (initial env) with
  | Exit_1 printed => (map echo printed, 1%nat)
  | Done v => ((set_up_report env v ++ announce_and_run env v)%list, 0%nat)
  end.

End Launcher.

(** The argument lists the launcher's loop is written for: a sequence of
    flags and of options followed by a value of their kind. *)
Inductive well_formed_arguments : list string -> Prop :=
| no_argument : well_formed_arguments []
| flag_argument (flag : string) (rest : list string) :
    In flag ["--headless"; "--headed"; "--ui"; "--ortoni-report"] ->
    well_formed_arguments rest ->
    well_formed_arguments (flag :: rest)
| suite_argument (suite : string) (rest : list string) :
    suite <> "" ->
    well_formed_arguments rest ->
    well_formed_arguments ("--suite" :: suite :: rest)
| type_argument (type : string) (rest : list string) :
    TestTypeDefinition.is_valid_test_type type = true ->
    well_formed_arguments rest ->
    well_formed_arguments ("--type" :: type :: rest)
| project_argument (project : string) (rest : list string) :
    In project ["chromium"; "firefox"; "webkit"] ->
    well_formed_arguments rest ->
    well_formed_arguments ("--project" :: project :: rest)
| workers_argument (workers : string) (rest : list string) :
    workers <> "" ->
    (forall c, In c (list_ascii_of_string workers) ->
               In c (list_ascii_of_string "0123456789")) ->
    well_formed_arguments rest ->
    well_formed_arguments ("--workers" :: workers :: rest).



(** A run environment: the process inherited a [PROJECT] the script does
    not know, no report directory exists, and the tests fail. *)
Module LauncherSamples.

Definition inherited_project : Launcher.Env :=
  Launcher.mkEnv "./run_tests.sh" "edge" ""
                 (fun _ => false)
                 (fun call => "/tmp/tmp." ++ NilZero.string_of_uint
                                               (Nat.to_uint call))
                 (fun _ => 1%nat).

End LauncherSamples.

(** * Properties *)

(** ** The tier classifier *)

Section Classifier.

Lemma append_empty_r (s : string) : s ++ "" = s.
Proof.
  induction s as [|c s IH]; simpl; [reflexivity | now rewrite IH].
Qed.

(** Joining on the empty separator is plain concatenation. *)
Lemma join_empty_sep (xs : list string) : join "" xs = spec_concat xs.
Proof.
  unfold join.
  induction xs as [|x [|y rest] IH].
  - reflexivity.
  - simpl. now rewrite append_empty_r.
  - change (String.concat "" (x :: y :: rest))
      with (x ++ "" ++ String.concat "" (y :: rest)).
    rewrite IH. reflexivity.
Qed.

Lemma getTestType_nonempty (first : string) (rest : list string) :
  getTestType (Array (first :: rest))
  = Returned (spec_concat (map spec_tag (first :: rest))).
Proof.
  unfold getTestType. cbn [isArray negb elements List.length Nat.eqb].
  now rewrite join_empty_sep.
Qed.

Lemma spec_concat_app (xs ys : list string) :
  spec_concat (xs ++ ys) = spec_concat xs ++ spec_concat ys.
Proof.
  induction xs as [|x xs IH]; simpl; [reflexivity|].
  rewrite IH. clear IH.
  induction x as [|c x IHx]; simpl; [reflexivity | now rewrite IHx].
Qed.

(** C1.  For every non-empty list [S] of tier labels the classifier returns
    the concatenation, in order, of one tag per element of [S], each tag
    being the marker [@] followed by the label: the tag list has the length
    of [S], its i-th tag comes from the i-th label, nothing is dropped and
    nothing is moved (the result for [S1 ++ S2] is the result for [S1]
    followed by the result for [S2]).  For the three enum tiers the tags
    are [@sanity], [@smoke] and [@regression]. *)
Theorem getTestType_one_tag_per_label_in_order :
  forall S : list string, S <> [] ->
    exists tags : list string,
      getTestType (Array S) = Returned (spec_concat tags)
      /\ List.length tags = List.length S
      /\ (forall i label, nth_error S i = Some label ->
            nth_error tags i = Some (String "@" label))
      /\ (forall S1 S2, S = (S1 ++ S2)%list ->
            spec_concat tags
            = spec_concat (map spec_tag S1) ++ spec_concat (map spec_tag S2))
      /\ map spec_tag (map TestType_value [Sanity; Smoke; Regression])
         = ["@sanity"; "@smoke"; "@regression"]
      /\ getTestType (tiers [Sanity; Smoke; Regression])
         = Returned "@sanity@smoke@regression".
Proof.
  intros S HS. exists (map spec_tag S).
  destruct S as [|first rest]; [contradiction|].
  split; [apply getTestType_nonempty|].
  split; [apply length_map|].
  split.
  - intros i label Hi. rewrite nth_error_map, Hi. reflexivity.
  - split.
    + intros S1 S2 ->. now rewrite map_app, spec_concat_app.
    + split; reflexivity.
Qed.

Lemma getTestType_one_tag_per_label_in_order_witness :
  exists tags : list string,
    getTestType (Array ["smoke"; "smoke"; "sanity"])
    = Returned (spec_concat tags)
    /\ List.length tags = 3%nat
    /\ (forall i label,
          nth_error ["smoke"; "smoke"; "sanity"] i = Some label ->
          nth_error tags i = Some (String "@" label))
    /\ (forall S1 S2, ["smoke"; "smoke"; "sanity"] = (S1 ++ S2)%list ->
          spec_concat tags
          = spec_concat (map spec_tag S1) ++ spec_concat (map spec_tag S2))
    /\ map spec_tag (map TestType_value [Sanity; Smoke; Regression])
       = ["@sanity"; "@smoke"; "@regression"]
    /\ getTestType (tiers [Sanity; Smoke; Regression])
       = Returned "@sanity@smoke@regression".
Proof.
  apply (getTestType_one_tag_per_label_in_order ["smoke"; "smoke"; "sanity"]).
  discriminate.
Defined.

(** C2.  The classifier throws exactly when its precondition is violated:
    it throws a [TypeError] if and only if the argument is not an array or
    is the empty array, and it returns a tag if and only if the argument is
    a non-empty array of strings. *)
Theorem getTestType_throws_iff_precondition_violated :
  forall v : value,
    ((exists msg, getTestType v = Thrown (TypeError msg))
       <-> (isArray v = false \/ v = Array []))
    /\ ((exists tag, getTestType v = Returned tag)
       <-> (exists S, v = Array S /\ S <> [])).
Proof.
  intros v. split; split.
  - intros [msg H].
    destruct v as [| | | | | |[|first rest]]; auto.
    rewrite getTestType_nonempty in H. discriminate.
  - intros [H | ->].
    + destruct v; try discriminate; eexists; reflexivity.
    + eexists; reflexivity.
  - intros [tag H].
    destruct v as [| | | | | |[|first rest]]; try discriminate.
    exists (first :: rest). split; [reflexivity | discriminate].
  - intros [S [-> HS]].
    destruct S as [|first rest]; [contradiction|].
    eexists. apply getTestType_nonempty.
Qed.

(** C9.  The classifier does not look at what the labels are: whatever the
    first label and the labels after it, members of the tier set or not,
    it returns the [@]-prefixed labels concatenated.  [bogus] and the
    empty string are not tiers, and yield [@bogus] and [@]. *)
Theorem getTestType_does_not_validate_labels :
  forall (first : string) (rest : list string),
    getTestType (Array (first :: rest))
    = Returned (spec_concat (map spec_tag (first :: rest)))
    /\ TestTypeDefinition.is_valid_test_type "bogus" = false
    /\ getTestType (Array ["bogus"]) = Returned "@bogus"
    /\ TestTypeDefinition.is_valid_test_type "" = false
    /\ getTestType (Array [""]) = Returned "@".
Proof.
  intros first rest.
  split; [apply getTestType_nonempty|].
  repeat split; reflexivity.
Qed.

(** C10.  [is_valid_test_type s] is true if and only if [s] is one of
    [sanity], [smoke], [regression], and [get_test_types ()] is the three
    members in declaration order. *)
Theorem is_valid_test_type_iff_enum_value :
  forall s : string,
    (TestTypeDefinition.is_valid_test_type s = true
       <-> (s = "sanity" \/ s = "smoke" \/ s = "regression"))
    /\ TestTypeDefinition.get_test_types = [Sanity; Smoke; Regression]
    /\ map TestType_value TestTypeDefinition.get_test_types
       = ["sanity"; "smoke"; "regression"].
Proof.
  intros s. split; [|split; reflexivity].
  unfold TestTypeDefinition.is_valid_test_type, Object_values_TestType.
  cbn [existsb TestType_value].
  rewrite !orb_true_iff, !String.eqb_eq.
  split.
  - intros [H | [H | [H | H]]]; auto; discriminate.
  - intros [H | [H | H]]; auto.
Qed.

End Classifier.

(** ** Running test bodies *)

Section Runs.
Context {num : Type} {NUM : JsNumber num} {P : Type} {PAGE : Page num P}.

Lemma bind_run {A B : Type} (m : M A) (k : A -> M B) (w : World num P) :
  bind m k w
  = match m w with
    | (Returned a, w', evs) =>
        match k a w' with
        | (r, w'', evs') => (r, w'', (evs ++ evs')%list)
        end
    | (Thrown e, w', evs) => (Thrown e, w', evs)
    end.
Proof. reflexivity. Qed.

(** Sequencing is associative, so grouping consecutive statements of a body
    under a name does not change what the body does. *)
Lemma bind_assoc {A B C : Type} (m : M A) (f : A -> M B) (g : B -> M C)
    (w : World num P) :
  bind (bind m f) g w = bind m (fun a => bind (f a) g) w.
Proof.
  rewrite !bind_run.
  destruct (m w) as [[[a|e] w1] evs1]; [|reflexivity].
  rewrite bind_run.
  destruct (f a w1) as [[[b|e] w2] evs2]; [|reflexivity].
  destruct (g b w2) as [[r w3] evs3].
  now rewrite app_assoc.
Qed.

Lemma bind_ret_unit (m : M unit) (w : World num P) :
  bind m (fun _ => ret tt) w = m w.
Proof.
  rewrite bind_run. destruct (m w) as [[[[]|e] w'] evs]; [|reflexivity].
  unfold ret. now rewrite app_nil_r.
Qed.

(** A loop of expectations leaves the world alone, passes when every
    element passes, and checks the elements up to the first failure. *)
Lemma for_of_expect {A : Type} (xs : list A) (ev : A -> Event num)
    (ok : A -> P -> bool) (w : World num P) :
  for_of xs (fun x => expect (ev x) (ok x)) w
  = (if forallb (fun x => ok x (page w)) xs then Returned tt
     else Thrown ExpectationFailed,
     w,
     map ev (checked_until_failure (fun x => ok x (page w)) xs)).
Proof.
  induction xs as [|x rest IH]; [reflexivity|].
  cbn [for_of forallb checked_until_failure map]. rewrite bind_run.
  unfold expect at 1.
  destruct (ok x (page w)); [|reflexivity].
  rewrite IH. reflexivity.
Qed.




(** Every row of the image table names at least one tier, so defining the
    suite registers one test per row, each tagged with the concatenated
    tags of its tiers. *)
Lemma image_suite_registers_every_row :
  exists ts : list Test,
    DragImages.suite = Returned ts
    /\ map title ts
       = map (fun c => "Drag and drop image test : " ++ DragImages.t_case c)
             DragImages.cases
    /\ map tag ts
       = map (fun c =>
                [spec_concat (map spec_tag
                                  (map TestType_value (DragImages.t_type c)))])
             DragImages.cases.
Proof. eexists. repeat split; reflexivity. Qed.

End Runs.

(** ** The bounding-box logger *)

Section Logger.
Context {num : Type} {NUM : JsNumber num} {P : Type} {PAGE : Page num P}.

Lemma shared_logger_run (element : Locator) (label : string)
    (w : World num P) :
  DragHelper.get_bounding_box_info element label w
  = (Returned tt, w,
     [Log (logged_line " rectangle top left location -> " element label
                       (page w))]).
Proof.
  unfold DragHelper.get_bounding_box_info, logged_line.
  rewrite bind_run.
  unfold locator_elementHandle, read, console_log, emit, spec_geometry.
  destruct (elementHandle element (page w)) as [h|]; [|reflexivity].
  destruct (handle_boundingBox h) as [bb|]; reflexivity.
Qed.

Lemma boxes_logger_run (element : Locator) (label : string)
    (w : World num P) :
  DragBoxes.get_bounding_box_info element label w
  = (Returned tt, w,
     [Log (logged_line " rectangle top lect location -> " element label
                       (page w))]).
Proof.
  unfold DragBoxes.get_bounding_box_info, logged_line.
  rewrite bind_run.
  unfold locator_elementHandle, read, console_log, emit, spec_geometry.
  destruct (elementHandle element (page w)) as [h|]; [|reflexivity].
  destruct (handle_boundingBox h) as [bb|]; reflexivity.
Qed.


End Logger.

(** ** The input suites *)

Section Inputs.
Context {num : Type} {NUM : JsNumber num} {P : Type} {PAGE : Page num P}.

(** The empty-input branch shared by the three suites: read the native
    message, compare it with the expected string. *)
Lemma native_message_check (textbox : Locator) (expected : string)
    (w : World num P) :
  bind (locator_validationMessage textbox)
       (fun validationMessage => expect_toBe validationMessage expected) w
  = (if validationMessage textbox (page w) =? expected then Returned tt
     else Thrown ExpectationFailed,
     w,
     [ExpectToBe (validationMessage textbox (page w)) expected]).
Proof.
  rewrite bind_run. unfold locator_validationMessage, read, expect_toBe, expect.
  cbn [page]. destruct (validationMessage textbox (page w) =? expected);
    reflexivity.
Qed.

(** C3.  In each of the text, email and password suites exactly one row
    submits the empty string, and for it the result step depends on the
    browser name only through the expected string: [Fill out this field]
    on [webkit], [Please fill out this field.] on any other engine.  The
    step reads the field's native [validationMessage], makes the single
    comparison of it with that string, and passes exactly when the two are
    equal; it does nothing else. *)
Theorem empty_input_expects_native_message :
  forall (browserName : string) (w : World num P),
    Forall
      (fun c =>
         SimpleInput.verify_result browserName c w
         = (if validationMessage SimpleInput.textbox (page w)
               =? spec_required_message browserName
            then Returned tt else Thrown ExpectationFailed,
            w,
            [ExpectToBe (validationMessage SimpleInput.textbox (page w))
                        (spec_required_message browserName)]))
      (filter (fun c => SimpleInput.input_str c =? "") SimpleInput.cases)
    /\ List.length
         (filter (fun c => SimpleInput.input_str c =? "") SimpleInput.cases)
       = 1%nat
    /\ Forall
         (fun c =>
            EmailInput.verify_result browserName c w
            = (if validationMessage EmailInput.textbox (page w)
                  =? spec_required_message browserName
               then Returned tt else Thrown ExpectationFailed,
               w,
               [ExpectToBe (validationMessage EmailInput.textbox (page w))
                           (spec_required_message browserName)]))
         (filter (fun c => EmailInput.email_address c =? "") EmailInput.cases)
    /\ List.length
         (filter (fun c => EmailInput.email_address c =? "") EmailInput.cases)
       = 1%nat
    /\ Forall
         (fun c =>
            PasswordInput.verify_result browserName c w
            = (if validationMessage PasswordInput.textbox (page w)
                  =? spec_required_message browserName
               then Returned tt else Thrown ExpectationFailed,
               w,
               [ExpectToBe (validationMessage PasswordInput.textbox (page w))
                           (spec_required_message browserName)]))
         (filter (fun c => PasswordInput.password c =? "")
                 PasswordInput.cases)
    /\ List.length
         (filter (fun c => PasswordInput.password c =? "")
                 PasswordInput.cases)
       = 1%nat.
Proof.
  intros browserName w.
  repeat split; try reflexivity.
  - repeat constructor.
    unfold SimpleInput.verify_result, test_step.
    cbn [SimpleInput.result_msg SimpleInput.input_str SimpleInput.is_valid
         String.eqb].
    rewrite bind_ret_unit, native_message_check.
    unfold spec_required_message, SimpleInput.TXT_MSG_MANDATORY_WEBKIT,
      SimpleInput.TXT_MSG_MANDATORY.
    reflexivity.
  - repeat constructor.
    unfold EmailInput.verify_result, test_step.
    cbn [EmailInput.result_msg EmailInput.email_address EmailInput.is_valid
         String.eqb].
    rewrite bind_ret_unit, native_message_check.
    unfold spec_required_message, EmailInput.TXT_MSG_MANDATORY_WEBKIT,
      EmailInput.TXT_MSG_MANDATORY.
    reflexivity.
  - repeat constructor.
    unfold PasswordInput.verify_result, test_step.
    cbn [PasswordInput.result_msg PasswordInput.password
         PasswordInput.is_valid String.eqb].
    rewrite bind_ret_unit, native_message_check.
    unfold spec_required_message, PasswordInput.TXT_MSG_MANDATORY_WEBKIT,
      PasswordInput.TXT_MSG_MANDATORY.
    reflexivity.
Qed.

End Inputs.

Section MultiMessage.
Context {num : Type} {NUM : JsNumber num} {P : Type} {PAGE : Page num P}.



End MultiMessage.

(** ** The alert suites *)

Section Alerts.
Context {num : Type} {NUM : JsNumber num} {P : Type} {PAGE : Page num P}.

(** C7.  Take fresh contexts (no dialog callback registered yet), a
    confirmation case whose label is neither [Ok] nor [Cancel], and a
    prompt case whose label does not contain [Ok] and is not [Cancel].
    In both suites the dialog step logs the line
    [Unknown test case for dialog handling.] and answers the dialog by
    dismissing it; the step returns normally whenever the click itself
    resolves, whether or not a dialog opened, and it never fails an
    expectation.  The confirmation suite logs the warning while it
    registers its callback, the prompt suite inside the callback. *)
Theorem unknown_label_dismisses_and_warns :
  forall (w1 w2 : World num P) (c1 : AlertConfirmation.Case)
         (c2 : AlertPrompt.Case),
    handlers w1 = [] ->
    handlers w2 = [] ->
    AlertConfirmation.t_case c1 <> "Ok" ->
    AlertConfirmation.t_case c1 <> "Cancel" ->
    includes (AlertPrompt.t_case c2) "Ok" = false ->
    AlertPrompt.t_case c2 <> "Cancel" ->
    AlertConfirmation.click_and_answer c1 w1
    = match click AlertConfirmation.click_btn (page w1) with
      | Some (p', Some dialog) =>
          (Returned tt,
           mkWorld (closeDialog Dismiss p')
                   [AlertConfirmation.fallback_handler],
           [Log "Click button and confirm or cancel.";
            Log "Unknown test case for dialog handling.";
            OnDialog;
            Click AlertConfirmation.click_btn;
            Answer Dismiss])
      | Some (p', None) =>
          (Returned tt,
           mkWorld p' [AlertConfirmation.fallback_handler],
           [Log "Click button and confirm or cancel.";
            Log "Unknown test case for dialog handling.";
            OnDialog;
            Click AlertConfirmation.click_btn])
      | None =>
          (Thrown TimeoutError,
           mkWorld (page w1) [AlertConfirmation.fallback_handler],
           [Log "Click button and confirm or cancel.";
            Log "Unknown test case for dialog handling.";
            OnDialog;
            Click AlertConfirmation.click_btn])
      end
    /\ AlertPrompt.click_and_answer c2 w2
       = match click AlertPrompt.click_btn (page w2) with
         | Some (p', Some dialog) =>
             (Returned tt,
              mkWorld (closeDialog Dismiss p') [AlertPrompt.dialog_handler c2],
              [Log "Click button.";
               OnDialog;
               Click AlertPrompt.click_btn;
               Log ("Dialog type: " ++ dialog_type dialog);
               Log ("Dialog message: " ++ dialog_message dialog);
               Log "Unknown test case for dialog handling.";
               Answer Dismiss])
         | Some (p', None) =>
             (Returned tt,
              mkWorld p' [AlertPrompt.dialog_handler c2],
              [Log "Click button."; OnDialog; Click AlertPrompt.click_btn])
         | None =>
             (Thrown TimeoutError,
              mkWorld (page w2) [AlertPrompt.dialog_handler c2],
              [Log "Click button."; OnDialog; Click AlertPrompt.click_btn])
         end.
Proof.
  intros [p1 hs1] [p2 hs2] c1 c2 Hfresh1 Hfresh2 Hok Hcancel Hok2 Hcancel2.
  cbn [handlers] in Hfresh1, Hfresh2. subst hs1 hs2.
  apply String.eqb_neq in Hok, Hcancel, Hcancel2.
  split.
  - unfold AlertConfirmation.click_and_answer, test_step.
    rewrite Hok, Hcancel.
    unfold bind, console_log, emit, page_on_dialog, locator_click.
    cbn [page handlers app].
    destruct (click AlertConfirmation.click_btn p1) as [[p' [dialog|]]|];
      reflexivity.
  - unfold AlertPrompt.click_and_answer, test_step.
    unfold bind, console_log, emit, page_on_dialog, locator_click.
    cbn [page handlers app].
    destruct (click AlertPrompt.click_btn p2) as [[p' [dialog|]]|];
      try reflexivity.
    unfold AlertPrompt.dialog_handler.
    rewrite Hok2, Hcancel2. reflexivity.
Qed.

End Alerts.

(** ** The drag-and-drop image suite *)

Section Loops.
Context {num : Type} {NUM : JsNumber num} {P : Type} {PAGE : Page num P}.

Lemma drags_app (a b : list (Event num)) :
  drags (a ++ b) = (drags a ++ drags b)%list.
Proof. apply filter_app. Qed.

Lemma expectations_app (a b : list (Event num)) :
  expectations (a ++ b) = (expectations a ++ expectations b)%list.
Proof. apply filter_app. Qed.



Lemma for_of_no_expectations {A : Type} (xs : list A) (body : A -> M unit) :
  (forall x w, expectations (events_of (body x w)) = []) ->
  forall w : World num P, expectations (events_of (for_of xs body w)) = [].
Proof.
  intros Hbody. induction xs as [|x rest IH]; intros w; [reflexivity|].
  cbn [for_of]. rewrite bind_run.
  specialize (Hbody x w).
  destruct (body x w) as [[[[]|e] w'] evs]; [|exact Hbody].
  specialize (IH w').
  destruct (for_of rest body w') as [[r w''] evs'].
  unfold events_of in *. cbn [snd] in *.
  now rewrite expectations_app, Hbody, IH.
Qed.

(** A loop whose body returns and restores the world it starts in returns
    and restores it too. *)
Lemma for_of_stable {A : Type} (xs : list A) (body : A -> M unit)
    (w : World num P) :
  (forall x, verdict (body x w) = Returned tt
             /\ world_after (body x w) = w) ->
  verdict (for_of xs body w) = Returned tt
  /\ world_after (for_of xs body w) = w.
Proof.
  intros Hbody. induction xs as [|x rest IH]; [split; reflexivity|].
  cbn [for_of]. rewrite bind_run.
  destruct (Hbody x) as [Hret Hworld].
  destruct (body x w) as [[r w'] evs].
  unfold verdict, world_after in *. cbn [fst snd] in *. subst r w'.
  destruct (for_of rest body w) as [[r w''] evs'].
  exact IH.
Qed.


End Loops.

Section ImageLoops.
Context {num : Type} {NUM : JsNumber num} {P : Type} {PAGE : Page num P}.

(** Unfold one run of a straight-line body down to the answers of the
    page, and split on each answer. *)
Ltac run_body :=
  unfold DragImages.drag_forward_and_verify, DragImages.drag_outside,
    locator_dragTo, act, console_log, emit, expect_toBeVisible,
    expect_toHaveText, expect, bind, ret, verdict, events_of, world_after;
  cbn [page handlers fst snd];
  repeat match goal with
         | |- context [match dragTo ?s ?t ?o ?p with _ => _ end] =>
             let E := fresh "Edrag" in
             destruct (dragTo s t o p) eqn:E; cbn [page handlers fst snd]
         | |- context [if isVisible ?l ?p then _ else _] =>
             let E := fresh "Evis" in
             destruct (isVisible l p) eqn:E; cbn [page handlers fst snd]
         | |- context [match textContent ?l ?p with _ => _ end] =>
             destruct (textContent l p); cbn [page handlers fst snd]
         | |- context [if String.eqb ?a ?b then _ else _] =>
             destruct (String.eqb a b); cbn [page handlers fst snd]
         end.



(** The negative branch makes no expectation, iteration by iteration. *)
Lemma negative_iteration_expects_nothing (target_x target_y : option num)
    (w : World num P) :
  expectations
    (events_of
       ((DragImages.drag_outside target_x target_y ;;
         locator_dragTo DragImages.image_in_content DragImages.drop_box_1
                        None ;;
         console_log ("Dragged image back to " ++ DragImages.RECT_BOX_1)) w))
  = [].
Proof.
  destruct target_x as [tx|], target_y as [ty|]; run_body; reflexivity.
Qed.

Lemma drag_outside_expects_nothing (target_x target_y : option num)
    (w : World num P) :
  expectations (events_of (DragImages.drag_outside target_x target_y w)) = [].
Proof.
  destruct target_x as [tx|], target_y as [ty|]; run_body; reflexivity.
Qed.

(** The negative branch as a whole, with the measurement of box 2 made
    once, before the switch. *)
Lemma drag_and_verify_negative (c : DragImages.Case) (w : World num P) :
  DragImages.is_positive c = false ->
  DragImages.drag_and_verify c w
  = let target_x :=
      match boundingBox DragImages.drop_box_2 (page w) with
      | Some bb => Some (num_add (rect_x bb) DragImages.X_OFFSET)
      | None => None
      end in
    let target_y :=
      match boundingBox DragImages.drop_box_2 (page w) with
      | Some bb => Some (rect_y bb)
      | None => None
      end in
    match
      (if DragImages.is_loop_back c then
         for_i_le (DragImages.repeat c) (fun _ =>
           DragImages.drag_outside target_x target_y ;;
           locator_dragTo DragImages.image_in_content DragImages.drop_box_1
                          None ;;
           console_log ("Dragged image back to " ++ DragImages.RECT_BOX_1))
       else DragImages.drag_outside target_x target_y) w
    with
    | (r, w', evs) =>
        (r, w', Log "Drop image outside drop box 2 area." :: evs)
    end.
Proof.
  intros Hneg. unfold DragImages.drag_and_verify, test_step.
  rewrite Hneg, bind_run.
  unfold console_log at 1, emit at 1. cbv beta iota.
  rewrite bind_run. unfold locator_boundingBox, read. cbv beta iota zeta.
  destruct (DragImages.is_loop_back c); cbn [app];
    match goal with
    | |- context [match ?run with _ => _ end] =>
        destruct run as [[r w'] evs]; reflexivity
    end.
Qed.

(** What the demo site is required to do with a drop onto box 1. *)
Hypothesis drop_onto_box_1_lands :
  forall p p' : P,
    dragTo DragImages.image_in_content DragImages.drop_box_1 None p = Some p' ->
    isVisible DragImages.image_in_box_1 p' = true.


End ImageLoops.

Section LoopBack.
Context {num : Type} {NUM : JsNumber num} {P : Type} {PAGE : Page num P}.

(** The demo site's requirement on a drop onto box 1: the image ends up in
    box 1. *)
Hypothesis drop_onto_box_1_lands :
  forall p p' : P,
    dragTo DragImages.image_in_content DragImages.drop_box_1 None p = Some p' ->
    isVisible DragImages.image_in_box_1 p' = true.




End LoopBack.

Section MissingCheck.
Context {num : Type} {NUM : JsNumber num} {P : Type} {PAGE : Page num P}.

(** C5, at the rows where the code departs from it.  On every page, the
    drag step of each of the four negative rows of the image table makes
    no expectation at all: after a drop outside box 2 nothing compares the
    label of box 2 with anything.  The rows do carry an expected text (the
    empty string); the negative branch never reads it. *)
Theorem image_negative_rows_make_no_expectation :
  forall w : World num P,
    Forall
      (fun c =>
         expectations (events_of (DragImages.drag_and_verify c w)) = [])
      (filter (fun c => negb (DragImages.is_positive c)) DragImages.cases)
    /\ map DragImages.expected_drop_box_txt
           (filter (fun c => negb (DragImages.is_positive c))
                   DragImages.cases)
       = [""; ""; ""; ""].
Proof.
  intros w. split; [|reflexivity].
  apply Forall_forall. intros c Hc.
  apply filter_In in Hc as [_ Hneg]. apply negb_true_iff in Hneg.
  rewrite (drag_and_verify_negative c w Hneg). cbv zeta.
  destruct (DragImages.is_loop_back c).
  - unfold for_i_le.
    match goal with
    | |- context [for_of ?xs ?body w] =>
        pose proof (for_of_no_expectations xs body
                      (fun _ => negative_iteration_expects_nothing _ _) w)
          as Hnone;
        destruct (for_of xs body w) as [[r w'] evs]
    end.
    exact Hnone.
  - match goal with
    | |- context [DragImages.drag_outside ?tx ?ty w] =>
        pose proof (drag_outside_expects_nothing tx ty w) as Hnone;
        destruct (DragImages.drag_outside tx ty w) as [[r w'] evs]
    end.
    exact Hnone.
Qed.

(** The box suite, for comparison: a drag step that completes has compared
    the label of the drop square with the row's expected text, and the
    label had that text. *)
Lemma box_suite_checks_label (c : DragBoxes.Case) (w : World num P) :
  verdict (DragBoxes.drag_and_verify c w) = Returned tt ->
  In (ExpectText DragBoxes.drop_box_txt (DragBoxes.expected_drop_box_txt c))
     (events_of (DragBoxes.drag_and_verify c w))
  /\ textContent DragBoxes.drop_box_txt
       (page (world_after (DragBoxes.drag_and_verify c w)))
     = Some (DragBoxes.expected_drop_box_txt c).
Proof.
  unfold DragBoxes.drag_and_verify, test_step, bind, console_log, emit,
    locator_dragTo, act, locator_boundingBox, read, expect_toHaveText,
    expect, ret, verdict, events_of, world_after.
  cbn [page handlers].
  destruct (DragBoxes.is_positive c);
    repeat match goal with
           | |- context [match dragTo ?s ?t ?o ?p with _ => _ end] =>
               destruct (dragTo s t o p) as [p'|]; cbn [page handlers]
           | |- context [match boundingBox ?l ?p with _ => _ end] =>
               destruct (boundingBox l p) as [bb|]; cbn [page handlers]
           | |- context [match textContent ?l ?p with _ => _ end] =>
               let E := fresh "Etext" in
               destruct (textContent l p) as [t|] eqn:E; cbn [page handlers]
           | |- context [if String.eqb ?a ?b then _ else _] =>
               destruct (String.eqb_spec a b); cbn [page handlers]
           end;
    rewrite ?boxes_logger_run; cbn [fst snd app];
    rewrite ?boxes_logger_run; cbn [fst snd app];
    intros H; try discriminate H; subst;
    (split; [cbn [In]; auto 10 | assumption]).
Qed.

End MissingCheck.

(** ** Runs on the scripted page *)

Section OnDemo.
Import Demo.


(** On the scripted page every looped row completes, whatever its repeat
    count: each iteration finds the image in box 1 and leaves it there. *)
Lemma demo_loop_back_completes (c : DragImages.Case) :
  DragImages.is_loop_back c = true ->
  (DragImages.is_positive c = true ->
   DragImages.expected_drop_box_txt c = DragImages.LABEL_BOX_DROPPED) ->
  verdict (DragImages.drag_and_verify c (fresh Sample.images_page))
  = Returned tt
  /\ page (world_after
             (DragImages.drag_and_verify c (fresh Sample.images_page)))
     = Sample.images_page.
Proof.
  intros Hloop Htext.
  destruct (DragImages.is_positive c) eqn:Hpos.
  - specialize (Htext eq_refl).
    unfold DragImages.drag_and_verify, test_step, for_i_le.
    rewrite Hpos, Hloop.
    match goal with
    | |- context [for_of ?xs ?body ?w] =>
        destruct (for_of_stable xs body w) as [Hret Hworld]
    end.
    + intros i. unfold DragImages.drag_forward_and_verify.
      rewrite Htext. split; reflexivity.
    + rewrite Hret, Hworld. split; reflexivity.
  - rewrite (drag_and_verify_negative c _ Hpos). cbv zeta.
    rewrite Hloop. unfold for_i_le.
    match goal with
    | |- context [for_of ?xs ?body ?w] =>
        destruct (for_of_stable xs body w) as [Hret Hworld];
        [ intros i; split; reflexivity | ];
        destruct (for_of xs body w) as [[r w'] evs]
    end.
    unfold verdict, world_after in *. cbn [fst snd] in *.
    subst r w'. split; reflexivity.
Qed.




Lemma unknown_label_dismisses_and_warns_witness :
  handlers (fresh Sample.confirm_page) = []
  /\ handlers (fresh Sample.prompt_page) = []
  /\ AlertConfirmation.t_case Sample.unknown_confirmation <> "Ok"
  /\ AlertConfirmation.t_case Sample.unknown_confirmation <> "Cancel"
  /\ includes (AlertPrompt.t_case Sample.unknown_prompt) "Ok" = false
  /\ AlertPrompt.t_case Sample.unknown_prompt <> "Cancel"
  /\ events_of (AlertConfirmation.click_and_answer
                  Sample.unknown_confirmation (fresh Sample.confirm_page))
     = [ Log "Click button and confirm or cancel.";
         Log "Unknown test case for dialog handling.";
         OnDialog;
         Click AlertConfirmation.click_btn;
         Answer Dismiss ]
  /\ verdict (AlertConfirmation.click_and_answer
                Sample.unknown_confirmation (fresh Sample.confirm_page))
     = Returned tt
  /\ events_of (AlertPrompt.click_and_answer
                  Sample.unknown_prompt (fresh Sample.prompt_page))
     = [ Log "Click button.";
         OnDialog;
         Click AlertPrompt.click_btn;
         Log "Dialog type: prompt";
         Log "Dialog message: Please enter some text";
         Log "Unknown test case for dialog handling.";
         Answer Dismiss ]
  /\ verdict (AlertPrompt.click_and_answer
                Sample.unknown_prompt (fresh Sample.prompt_page))
     = Returned tt.
Proof.
  assert (H1 : AlertConfirmation.t_case Sample.unknown_confirmation <> "Ok")
    by discriminate.
  assert (H2 : AlertConfirmation.t_case Sample.unknown_confirmation
               <> "Cancel") by discriminate.
  assert (H3 : AlertPrompt.t_case Sample.unknown_prompt <> "Cancel")
    by discriminate.
  destruct (unknown_label_dismisses_and_warns
              (fresh Sample.confirm_page) (fresh Sample.prompt_page)
              Sample.unknown_confirmation Sample.unknown_prompt
              eq_refl eq_refl H1 H2 eq_refl H3) as [Hc Hp].
  split; [reflexivity|]. split; [reflexivity|].
  split; [exact H1|]. split; [exact H2|].
  split; [reflexivity|]. split; [exact H3|].
  rewrite Hc, Hp. cbn. auto.
Defined.

End OnDemo.

(** * Further properties *)

(** ** Tags as the runner's filter sees them *)

Section Tags.

Lemma startsWith_app (p s : string) : startsWith (p ++ s) p = true.
Proof.
  induction p as [|c p IH]; [destruct s; reflexivity|].
  cbn [append startsWith]. now rewrite Ascii.eqb_refl, IH.
Qed.

Lemma startsWith_app_l (a p s : string) :
  startsWith a p = true -> startsWith (a ++ s) p = true.
Proof.
  revert p. induction a as [|c a IH]; intros [|d p] H;
    try reflexivity; try discriminate.
  - destruct s; reflexivity.
  - cbn [append startsWith] in *.
    apply andb_true_iff in H as [Hc Hp]. now rewrite Hc, (IH p Hp).
Qed.

Lemma includes_app_l (a p s : string) :
  includes a p = true -> includes (a ++ s) p = true.
Proof.
  induction a as [|c a IH]; intros H.
  - cbn [includes] in H. rewrite orb_false_r in H.
    destruct p; [|discriminate].
    destruct s; reflexivity.
  - cbn [append includes] in *.
    apply orb_true_iff in H as [H | H].
    + change (String c (a ++ s)) with (String c a ++ s).
      now rewrite (startsWith_app_l _ _ s H).
    + rewrite (IH H). apply orb_true_r.
Qed.

Lemma includes_app_r (a p s : string) :
  includes s p = true -> includes (a ++ s) p = true.
Proof.
  intros H. induction a as [|c a IH]; [exact H|].
  cbn [append includes]. rewrite IH. apply orb_true_r.
Qed.

Lemma includes_prefix (p s : string) : includes (p ++ s) p = true.
Proof.
  destruct (p ++ s) eqn:E; cbn [includes].
  - destruct p; [reflexivity | discriminate].
  - rewrite <- E, startsWith_app. reflexivity.
Qed.

(** X1.  Whenever the classifier returns a tag for a list of labels, the
    tag contains, for every label of the list, the marker followed by that
    label: a filter on [@label] finds the test. *)
Theorem tag_contains_every_label :
  forall (S : list string) (label : string),
    In label S ->
    exists tag,
      getTestType (Array S) = Returned tag
      /\ includes tag (String "@" label) = true.
Proof.
  intros S label Hin.
  destruct S as [|first rest]; [destruct Hin|].
  eexists. split; [apply getTestType_nonempty|].
  induction (first :: rest) as [|l S' IH]; [destruct Hin|].
  cbn [map spec_concat].
  destruct Hin as [-> | Hin].
  - apply includes_prefix.
  - apply includes_app_r. now apply IH.
Qed.

Lemma tag_contains_every_label_witness :
  In "smoke" ["sanity"; "smoke"]
  /\ exists tag,
       getTestType (Array ["sanity"; "smoke"]) = Returned tag
       /\ includes tag "@smoke" = true.
Proof.
  split; [right; left; reflexivity|].
  apply (tag_contains_every_label ["sanity"; "smoke"] "smoke").
  right; left; reflexivity.
Defined.

(** A string that is empty or begins with the marker, as every
    concatenation of tags is. *)
Lemma spec_concat_shape (S : list string) :
  match spec_concat (map spec_tag S) with
  | EmptyString => True
  | String c _ => c = "@"%char
  end.
Proof. destruct S; cbn; auto. Qed.

(** A marker-free label followed by such a string can be read back in one
    way only. *)
Lemma label_then_tags_unique (l1 l2 r1 r2 : string) :
  no_marker l1 = true -> no_marker l2 = true ->
  match r1 with EmptyString => True | String c _ => c = "@"%char end ->
  match r2 with EmptyString => True | String c _ => c = "@"%char end ->
  l1 ++ r1 = l2 ++ r2 -> l1 = l2 /\ r1 = r2.
Proof.
  revert l2. induction l1 as [|c l1 IH]; intros [|d l2] H1 H2 Hr1 Hr2 E;
    cbn [append no_marker] in *.
  - auto.
  - subst r1. subst d. discriminate.
  - subst r2. subst c. discriminate.
  - injection E as -> E.
    apply andb_true_iff in H1 as [_ H1]. apply andb_true_iff in H2 as [_ H2].
    destruct (IH l2 H1 H2 Hr1 Hr2 E) as [-> ->]. auto.
Qed.

Lemma spec_concat_injective (S1 S2 : list string) :
  forallb no_marker S1 = true -> forallb no_marker S2 = true ->
  spec_concat (map spec_tag S1) = spec_concat (map spec_tag S2) -> S1 = S2.
Proof.
  revert S2. induction S1 as [|l1 S1 IH]; intros [|l2 S2] H1 H2 E;
    try reflexivity; try discriminate.
  cbn [map spec_concat forallb] in *. unfold spec_tag in E.
  cbn [append] in E. injection E as E.
  apply andb_true_iff in H1 as [Hl1 H1]. apply andb_true_iff in H2 as [Hl2 H2].
  destruct (label_then_tags_unique l1 l2 _ _ Hl1 Hl2
              (spec_concat_shape S1) (spec_concat_shape S2) E) as [-> E'].
  now rewrite (IH S2 H1 H2 E').
Qed.

(** X2.  On labels that do not contain the marker the classifier loses
    nothing: two arrays of such labels on which it behaves alike (the same
    tag, or the same throw) are the same array.  A label that contains
    the marker breaks this: [a@b] alone and [a] followed by [b] get the
    same tag. *)
Theorem getTestType_injective_on_marker_free_labels :
  forall S1 S2 : list string,
    forallb no_marker S1 = true ->
    forallb no_marker S2 = true ->
    getTestType (Array S1) = getTestType (Array S2) ->
    S1 = S2
    /\ getTestType (Array ["a@b"]) = getTestType (Array ["a"; "b"]).
Proof.
  intros S1 S2 H1 H2 E. split; [|reflexivity].
  destruct S1 as [|a1 r1], S2 as [|a2 r2]; try reflexivity;
    try (rewrite getTestType_nonempty in E; discriminate).
  rewrite !getTestType_nonempty in E.
  apply spec_concat_injective; try assumption. congruence.
Qed.

Lemma getTestType_injective_on_marker_free_labels_witness :
  forallb no_marker ["smoke"; "regression"] = true
  /\ getTestType (Array ["smoke"; "regression"])
     = getTestType (Array ["smoke"; "regression"])
  /\ ["smoke"; "regression"] = ["smoke"; "regression"]
  /\ getTestType (Array ["a@b"]) = getTestType (Array ["a"; "b"]).
Proof.
  split; [reflexivity|]. split; [reflexivity|].
  apply (getTestType_injective_on_marker_free_labels
           ["smoke"; "regression"] ["smoke"; "regression"]);
    reflexivity.
Defined.

(** Looking for a tier name in a tag that begins with one tier tag: the
    name is found in that tag or in what follows, never across the two. *)
Lemma includes_tier_step (t head : TestType) (rest : string) :
  includes (spec_tag (TestType_value head) ++ rest) (TestType_value t)
  = TestType_eqb t head || includes rest (TestType_value t).
Proof.
  assert (Hnil : forall s, startsWith s "" = true) by (intros []; reflexivity).
  destruct t, head; cbn; rewrite ?Hnil; reflexivity.
Qed.

Lemma includes_tier (t : TestType) (ts : list TestType) :
  includes (spec_concat (map spec_tag (map TestType_value ts)))
           (TestType_value t)
  = existsb (TestType_eqb t) ts.
Proof.
  induction ts as [|head ts IH]; [destruct t; reflexivity|].
  cbn [map spec_concat existsb]. now rewrite includes_tier_step, IH.
Qed.

Lemma TestType_eqb_eq (a b : TestType) : TestType_eqb a b = true <-> a = b.
Proof. destruct a, b; split; intros H; try reflexivity; discriminate. Qed.

(** X3.  For tier lists built from the enum, the tag of a registered test
    contains the name of a tier exactly when the tier is in the list: the
    names do not overlap inside or across tags, so a filter on [sanity],
    [smoke] or [regression] selects by membership. *)
Theorem tag_contains_tier_name_iff_member :
  forall (t head : TestType) (tail : list TestType),
    exists tag,
      getTestType (tiers (head :: tail)) = Returned tag
      /\ (includes tag (TestType_value t) = true <-> In t (head :: tail)).
Proof.
  intros t head tail.
  exists (spec_concat (map spec_tag (map TestType_value (head :: tail)))).
  split; [apply (getTestType_nonempty (TestType_value head))|].
  rewrite includes_tier, existsb_exists.
  split.
  - intros [x [Hin Hx]]. apply TestType_eqb_eq in Hx. now subst x.
  - intros Hin. exists t. split; [exact Hin | now apply TestType_eqb_eq].
Qed.

End Tags.

(** ** Defining a suite *)

Section Registration.
Context {num : Type} {NUM : JsNumber num} {P : Type} {PAGE : Page num P}.

(** X4.  Defining a suite from a table is all or nothing.  If some row has
    an empty tier list, the definition ends in the classifier's
    [TypeError] instead of a list of tests, wherever in the table the row
    stands; otherwise it yields one test per row, in table order, each
    with its title, its body and the single tag made of the row's
    tiers. *)
Theorem suite_definition_is_all_or_nothing :
  forall (A : Type) (rows : list A) (title_of : A -> string)
         (tiers_of : A -> list TestType) (body_of : A -> M unit),
    forEach rows (fun c => test (title_of c) (tiers_of c) (body_of c))
    = if existsb (fun c => is_nil (tiers_of c)) rows then
        Thrown (TypeError "t_type cannot be an empty array")
      else
        Returned
          (map (fun c =>
                  mkTest (title_of c)
                         [spec_concat
                            (map spec_tag (map TestType_value (tiers_of c)))]
                         (body_of c))
               rows).
Proof.
  intros A rows title_of tiers_of body_of.
  induction rows as [|c rows IH]; [reflexivity|].
  cbn [forEach existsb map]. unfold test at 1.
  destruct (tiers_of c) as [|t ts] eqn:Htiers; [reflexivity|].
  unfold tiers. cbn [map is_nil orb].
  rewrite (getTestType_nonempty (TestType_value t)), IH.
  destruct (existsb (fun c0 => is_nil (tiers_of c0)) rows); reflexivity.
Qed.

End Registration.

(** ** The input suites on non-empty input *)

Section NonEmptyInput.
Context {num : Type} {NUM : JsNumber num} {P : Type} {PAGE : Page num P}.

(** The message check followed by the echo check of valid rows. *)
Lemma message_then_echo (msg input : string) (valid : bool)
    (w : World num P) :
  bind (expect_toBeVisible (getByText msg))
       (fun _ => if valid then expect_toBeVisible (getByText input)
                 else ret tt) w
  = (if isVisible (getByText msg) (page w)
        && (negb valid || isVisible (getByText input) (page w))
     then Returned tt else Thrown ExpectationFailed,
     w,
     ExpectVisible (getByText msg)
       :: (if isVisible (getByText msg) (page w) && valid
           then [ExpectVisible (getByText input)] else [])).
Proof.
  rewrite bind_run. unfold expect_toBeVisible, expect, ret.
  destruct (isVisible (getByText msg) (page w)); [|reflexivity].
  destruct valid; [|reflexivity].
  cbn [page]. destruct (isVisible (getByText input) (page w)); reflexivity.
Qed.

(** X5.  On a row whose input is not empty, the result step of the text,
    email and password suites does not look at the browser name.  It
    leaves the page as it is and passes exactly when the row's message is
    visible and, for a valid row, the input is visible as well; for an
    invalid row the only expectation made is the one on the message, so
    nothing checks that the input is not echoed. *)
Theorem non_empty_input_checks_message_then_echo :
  forall (browserName : string) (c1 : SimpleInput.Case) (msg : string)
         (c2 : EmailInput.Case) (c3 : PasswordInput.Case) (w : World num P),
    SimpleInput.input_str c1 <> "" ->
    SimpleInput.result_msg c1 = SimpleInput.One msg ->
    EmailInput.email_address c2 <> "" ->
    PasswordInput.password c3 <> "" ->
    SimpleInput.verify_result browserName c1 w
    = (if isVisible (getByText msg) (page w)
          && (negb (SimpleInput.is_valid c1)
              || isVisible (getByText (SimpleInput.input_str c1)) (page w))
       then Returned tt else Thrown ExpectationFailed,
       w,
       ExpectVisible (getByText msg)
         :: (if isVisible (getByText msg) (page w) && SimpleInput.is_valid c1
             then [ExpectVisible (getByText (SimpleInput.input_str c1))]
             else []))
    /\ EmailInput.verify_result browserName c2 w
       = (if isVisible (getByText (EmailInput.result_msg c2)) (page w)
             && (negb (EmailInput.is_valid c2)
                 || isVisible (getByText (EmailInput.email_address c2))
                              (page w))
          then Returned tt else Thrown ExpectationFailed,
          w,
          ExpectVisible (getByText (EmailInput.result_msg c2))
            :: (if isVisible (getByText (EmailInput.result_msg c2)) (page w)
                   && EmailInput.is_valid c2
                then [ExpectVisible (getByText (EmailInput.email_address c2))]
                else []))
    /\ PasswordInput.verify_result browserName c3 w
       = (if isVisible (getByText (PasswordInput.result_msg c3)) (page w)
             && (negb (PasswordInput.is_valid c3)
                 || isVisible (getByText (PasswordInput.password c3))
                              (page w))
          then Returned tt else Thrown ExpectationFailed,
          w,
          ExpectVisible (getByText (PasswordInput.result_msg c3))
            :: (if isVisible (getByText (PasswordInput.result_msg c3))
                             (page w)
                   && PasswordInput.is_valid c3
                then [ExpectVisible (getByText (PasswordInput.password c3))]
                else [])).
Proof.
  intros browserName c1 msg c2 c3 w H1 Hmsg H2 H3.
  apply String.eqb_neq in H1, H2, H3.
  unfold SimpleInput.verify_result, EmailInput.verify_result,
    PasswordInput.verify_result, test_step.
  rewrite Hmsg, H1, H2, H3.
  repeat split; apply message_then_echo.
Qed.

End NonEmptyInput.

(** ** The alert suites, whatever the label *)

Section EveryLabel.
Context {num : Type} {NUM : JsNumber num} {P : Type} {PAGE : Page num P}.

(** With one callback registered, a click on the button ends according to
    the first answer of the callback. *)
Lemma click_with_one_handler (target : Locator) (h : Handler num)
    (p : P) :
  locator_click target (mkWorld p [h])
  = match click target p with
    | None => (Thrown TimeoutError, mkWorld p [h], [Click target])
    | Some (p', None) => (Returned tt, mkWorld p' [h], [Click target])
    | Some (p', Some dialog) =>
        match first_answer (h dialog) with
        | Some d =>
            (Returned tt, mkWorld (closeDialog d p') [h],
             Click target :: h dialog)
        | None =>
            (Thrown TimeoutError, mkWorld p' [h], Click target :: h dialog)
        end
    end.
Proof.
  unfold locator_click. cbn [page handlers flat_map].
  destruct (click target p) as [[p' [dialog|]]|]; try reflexivity.
  rewrite app_nil_r. reflexivity.
Qed.

(** The confirmation step: whichever callback it registers answers with
    the row's decision, and the step ends as the click does. *)
Lemma confirmation_step_run (c : AlertConfirmation.Case) (p : P) :
  exists (h : Handler num) (evs0 : list (Event num)),
    (forall dialog,
        first_answer (h dialog)
        = Some (spec_confirm_decision (AlertConfirmation.t_case c)))
    /\ AlertConfirmation.click_and_answer c (mkWorld p [])
       = match locator_click AlertConfirmation.click_btn (mkWorld p [h]) with
         | (r, w', evs) => (r, w', (evs0 ++ evs)%list)
         end.
Proof.
  unfold AlertConfirmation.click_and_answer, test_step, spec_confirm_decision.
  destruct (AlertConfirmation.t_case c =? "Ok");
    [|destruct (AlertConfirmation.t_case c =? "Cancel")].
  - exists AlertConfirmation.accept_handler.
    exists [Log "Click button and confirm or cancel."; OnDialog].
    split; [reflexivity|]. unfold bind at 1 2. cbn.
    destruct (locator_click _ _) as [[r w'] evs]. reflexivity.
  - exists AlertConfirmation.dismiss_handler.
    exists [Log "Click button and confirm or cancel."; OnDialog].
    split; [reflexivity|]. unfold bind at 1 2. cbn.
    destruct (locator_click _ _) as [[r w'] evs]. reflexivity.
  - exists AlertConfirmation.fallback_handler.
    exists [Log "Click button and confirm or cancel.";
            Log "Unknown test case for dialog handling."; OnDialog].
    split; [reflexivity|]. unfold bind at 1 2 3. cbn.
    destruct (locator_click _ _) as [[r w'] evs]. reflexivity.
Qed.

Lemma prompt_answer (c : AlertPrompt.Case) (dialog : Dialog) :
  first_answer (AlertPrompt.dialog_handler c dialog : list (Event num))
  = Some (spec_prompt_decision (AlertPrompt.t_case c)
                               (AlertPrompt.prompt_input c)).
Proof.
  unfold spec_prompt_decision, AlertPrompt.dialog_handler.
  destruct (includes (AlertPrompt.t_case c) "Ok").
  - destruct (AlertPrompt.prompt_input c =? ""); reflexivity.
  - destruct (AlertPrompt.t_case c =? "Cancel"); reflexivity.
Qed.

Lemma prompt_step_run (c : AlertPrompt.Case) (p : P) :
  AlertPrompt.click_and_answer c (mkWorld p [])
  = match locator_click AlertPrompt.click_btn
            (mkWorld p [AlertPrompt.dialog_handler c]) with
    | (r, w', evs) => (r, w', Log "Click button." :: OnDialog :: evs)
    end.
Proof.
  unfold AlertPrompt.click_and_answer, test_step. unfold bind at 1 2. cbn.
  destruct (locator_click _ _) as [[r w'] evs]. reflexivity.
Qed.

(** X6.  In a fresh context the dialog step of either alert suite answers
    every dialog, whatever the row: the step throws only when the click
    itself rejects, never because a dialog was left open.  The
    confirmation suite accepts exactly on the label [Ok] and dismisses on
    every other label; the prompt suite accepts on every label that
    contains [Ok], passing the prompt text when it is not empty, and
    dismisses otherwise. *)
Theorem dialog_step_answers_every_dialog :
  forall (w1 w2 : World num P) (c1 : AlertConfirmation.Case)
         (c2 : AlertPrompt.Case),
    handlers w1 = [] ->
    handlers w2 = [] ->
    (verdict (AlertConfirmation.click_and_answer c1 w1)
     = match click AlertConfirmation.click_btn (page w1) with
       | Some _ => Returned tt
       | None => Thrown TimeoutError
       end
     /\ page (world_after (AlertConfirmation.click_and_answer c1 w1))
        = match click AlertConfirmation.click_btn (page w1) with
          | Some (p', Some dialog) =>
              closeDialog
                (spec_confirm_decision (AlertConfirmation.t_case c1)) p'
          | Some (p', None) => p'
          | None => page w1
          end)
    /\ (verdict (AlertPrompt.click_and_answer c2 w2)
        = match click AlertPrompt.click_btn (page w2) with
          | Some _ => Returned tt
          | None => Thrown TimeoutError
          end
        /\ page (world_after (AlertPrompt.click_and_answer c2 w2))
           = match click AlertPrompt.click_btn (page w2) with
             | Some (p', Some dialog) =>
                 closeDialog
                   (spec_prompt_decision (AlertPrompt.t_case c2)
                                         (AlertPrompt.prompt_input c2)) p'
             | Some (p', None) => p'
             | None => page w2
             end).
Proof.
  intros [p1 hs1] [p2 hs2] c1 c2 Hfresh1 Hfresh2.
  cbn [handlers] in Hfresh1, Hfresh2. subst hs1 hs2. cbn [page].
  split.
  - destruct (confirmation_step_run c1 p1) as [h [evs0 [Hanswer ->]]].
    rewrite click_with_one_handler.
    destruct (click AlertConfirmation.click_btn p1) as [[p' [dialog|]]|];
      try (split; reflexivity).
    rewrite Hanswer. split; reflexivity.
  - rewrite prompt_step_run, click_with_one_handler.
    destruct (click AlertPrompt.click_btn p2) as [[p' [dialog|]]|];
      try (split; reflexivity).
    rewrite prompt_answer. split; reflexivity.
Qed.

End EveryLabel.

(** ** Reading off a run, component by component *)

Section Projections.
Context {num : Type} {NUM : JsNumber num} {P : Type} {PAGE : Page num P}.

Lemma verdict_bind {A B : Type} (m : M A) (k : A -> M B) (w : World num P) :
  verdict (bind m k w)
  = match verdict (m w) with
    | Returned a => verdict (k a (world_after (m w)))
    | Thrown e => Thrown e
    end.
Proof.
  rewrite bind_run. destruct (m w) as [[[a|e] w1] evs1]; [|reflexivity].
  unfold verdict, world_after. cbn [fst snd].
  destruct (k a w1) as [[r w2] evs2]. reflexivity.
Qed.

Lemma world_after_bind {A B : Type} (m : M A) (k : A -> M B)
    (w : World num P) :
  world_after (bind m k w)
  = match verdict (m w) with
    | Returned a => world_after (k a (world_after (m w)))
    | Thrown e => world_after (m w)
    end.
Proof.
  rewrite bind_run. destruct (m w) as [[[a|e] w1] evs1]; [|reflexivity].
  unfold verdict, world_after. cbn [fst snd].
  destruct (k a w1) as [[r w2] evs2]. reflexivity.
Qed.

Lemma events_of_bind {A B : Type} (m : M A) (k : A -> M B)
    (w : World num P) :
  events_of (bind m k w)
  = (events_of (m w)
     ++ match verdict (m w) with
        | Returned a => events_of (k a (world_after (m w)))
        | Thrown e => []
        end)%list.
Proof.
  rewrite bind_run. destruct (m w) as [[[a|e] w1] evs1].
  - unfold verdict, world_after, events_of. cbn [fst snd].
    destruct (k a w1) as [[r w2] evs2]. reflexivity.
  - unfold events_of, verdict. cbn [fst snd]. now rewrite app_nil_r.
Qed.

Lemma verdict_act (e : Event num) (step : P -> option P) (w : World num P) :
  verdict (act e step w)
  = match step (page w) with
    | Some _ => Returned tt
    | None => Thrown TimeoutError
    end.
Proof. unfold act. destruct (step (page w)); reflexivity. Qed.

Lemma world_after_act (e : Event num) (step : P -> option P)
    (w : World num P) :
  world_after (act e step w)
  = match step (page w) with
    | Some p' => mkWorld p' (handlers w)
    | None => w
    end.
Proof. unfold act. destruct (step (page w)); reflexivity. Qed.

Lemma events_of_act (e : Event num) (step : P -> option P)
    (w : World num P) :
  events_of (act e step w) = [e].
Proof. unfold act. destruct (step (page w)); reflexivity. Qed.

Lemma verdict_expect (e : Event num) (holds : P -> bool) (w : World num P) :
  verdict (expect e holds w)
  = if holds (page w) then Returned tt else Thrown ExpectationFailed.
Proof. unfold expect. destruct (holds (page w)); reflexivity. Qed.

Lemma world_after_expect (e : Event num) (holds : P -> bool)
    (w : World num P) :
  world_after (expect e holds w) = w.
Proof. unfold expect. destruct (holds (page w)); reflexivity. Qed.

Lemma events_of_expect (e : Event num) (holds : P -> bool)
    (w : World num P) :
  events_of (expect e holds w) = [e].
Proof. unfold expect. destruct (holds (page w)); reflexivity. Qed.

Lemma verdict_read {A : Type} (f : P -> A) (w : World num P) :
  verdict (read f w) = Returned (f (page w)).
Proof. reflexivity. Qed.

Lemma world_after_read {A : Type} (f : P -> A) (w : World num P) :
  world_after (read f w) = w.
Proof. reflexivity. Qed.

Lemma events_of_read {A : Type} (f : P -> A) (w : World num P) :
  events_of (read f w) = [].
Proof. reflexivity. Qed.

Lemma verdict_emit (e : Event num) (w : World num P) :
  verdict (emit e w) = Returned tt.
Proof. reflexivity. Qed.

Lemma world_after_emit (e : Event num) (w : World num P) :
  world_after (emit e w) = w.
Proof. reflexivity. Qed.

Lemma events_of_emit (e : Event num) (w : World num P) :
  events_of (emit e w) = [e].
Proof. reflexivity. Qed.

Lemma verdict_ret {A : Type} (a : A) (w : World num P) :
  verdict (ret a w) = Returned a.
Proof. reflexivity. Qed.

Lemma world_after_ret {A : Type} (a : A) (w : World num P) :
  world_after (ret a w) = w.
Proof. reflexivity. Qed.

Lemma events_of_ret {A : Type} (a : A) (w : World num P) :
  events_of (ret a w) = [].
Proof. reflexivity. Qed.

Lemma verdict_shared_logger (element : Locator) (label : string)
    (w : World num P) :
  verdict (DragHelper.get_bounding_box_info element label w) = Returned tt.
Proof. now rewrite shared_logger_run. Qed.

Lemma world_after_shared_logger (element : Locator) (label : string)
    (w : World num P) :
  world_after (DragHelper.get_bounding_box_info element label w) = w.
Proof. now rewrite shared_logger_run. Qed.

Lemma events_of_shared_logger (element : Locator) (label : string)
    (w : World num P) :
  events_of (DragHelper.get_bounding_box_info element label w)
  = [Log (logged_line " rectangle top left location -> " element label
                      (page w))].
Proof. now rewrite shared_logger_run. Qed.

Lemma verdict_boxes_logger (element : Locator) (label : string)
    (w : World num P) :
  verdict (DragBoxes.get_bounding_box_info element label w) = Returned tt.
Proof. now rewrite boxes_logger_run. Qed.

Lemma world_after_boxes_logger (element : Locator) (label : string)
    (w : World num P) :
  world_after (DragBoxes.get_bounding_box_info element label w) = w.
Proof. now rewrite boxes_logger_run. Qed.

Lemma events_of_boxes_logger (element : Locator) (label : string)
    (w : World num P) :
  events_of (DragBoxes.get_bounding_box_info element label w)
  = [Log (logged_line " rectangle top lect location -> " element label
                      (page w))].
Proof. now rewrite boxes_logger_run. Qed.

End Projections.

Create Rewrite HintDb run.
#[export] Hint Rewrite
  @verdict_bind @world_after_bind @events_of_bind
  @verdict_act @world_after_act @events_of_act
  @verdict_expect @world_after_expect @events_of_expect
  @verdict_read @world_after_read @events_of_read
  @verdict_emit @world_after_emit @events_of_emit
  @verdict_ret @world_after_ret @events_of_ret
  @verdict_shared_logger @world_after_shared_logger @events_of_shared_logger
  @verdict_boxes_logger @world_after_boxes_logger @events_of_boxes_logger
  : run.

(** Unfold the client calls of a body down to [act], [expect], [emit],
    [read] and [ret], then read the run off component by component. *)
Ltac read_run :=
  unfold test_step, page_goto, locator_fill, keyboard_press, locator_dragTo,
    expect_toBeVisible, expect_toHaveText, expect_toContainText, expect_toBe,
    console_log, locator_boundingBox, locator_elementHandle,
    locator_textContent, locator_validationMessage;
  repeat (autorewrite with run; cbv beta iota);
  cbn [page handlers].

(** Split on the answers of the page, outermost first: only answers asked
    of a page that is already known are split on. *)
Ltac known_page p :=
  lazymatch p with
  | page ?w => is_var w
  | _ => is_var p
  end.

Ltac split_answers :=
  repeat (cbv beta iota; cbn [page handlers andb orb negb];
          match goal with
          | |- context [match goto ?u ?p with _ => _ end] =>
              known_page p; destruct (goto u p)
          | |- context [match dragTo ?a ?b ?o ?p with _ => _ end] =>
              known_page p; destruct (dragTo a b o p)
          | |- context [match boundingBox ?l ?p with _ => _ end] =>
              known_page p; destruct (boundingBox l p)
          | |- context [match textContent ?l ?p with _ => _ end] =>
              known_page p; destruct (textContent l p)
          | |- context [if isVisible ?l ?p then _ else _] =>
              known_page p; destruct (isVisible l p)
          | |- context [isVisible ?l ?p && _] =>
              known_page p; destruct (isVisible l p)
          | |- context [if String.eqb ?a ?b then _ else _] =>
              destruct (String.eqb a b)
          | |- context [String.eqb ?a ?b && _] =>
              destruct (String.eqb a b)
          end);
  cbv beta iota; cbn [page handlers andb orb negb].

(** ** The logger inside a test, and the drag suites as a whole *)

Section DragSteps.
Context {num : Type} {NUM : JsNumber num} {P : Type} {PAGE : Page num P}.


(** The drag step of the box suite, with its log lines left out. *)
Lemma box_drag_and_verify_run (c : DragBoxes.Case) (w : World num P) :
  verdict (DragBoxes.drag_and_verify c w)
  = match box_after_drag c (page w) with
    | None => Thrown TimeoutError
    | Some p' =>
        if has_text DragBoxes.drop_box_txt (DragBoxes.expected_drop_box_txt c)
                    p'
        then Returned tt else Thrown ExpectationFailed
    end
  /\ page (world_after (DragBoxes.drag_and_verify c w))
     = match box_after_drag c (page w) with
       | None => page w
       | Some p' => p'
       end
  /\ drags (events_of (DragBoxes.drag_and_verify c w))
     = if DragBoxes.is_positive c then
         [DragTo DragBoxes.drag_box DragBoxes.drop_box None]
       else
         match boundingBox DragBoxes.drop_box (page w) with
         | Some bb =>
             [DragTo DragBoxes.drag_box DragBoxes.content_box
                     (Some (num_add (rect_x bb) DragBoxes.X_OFFSET,
                            rect_y bb))]
         | None => []
         end.
Proof.
  unfold DragBoxes.drag_and_verify, box_after_drag, has_text, test_step, bind,
    console_log, emit, locator_dragTo, act, locator_boundingBox, read,
    expect_toHaveText, expect, ret, verdict, events_of, world_after.
  cbn [page handlers].
  destruct (DragBoxes.is_positive c);
    repeat match goal with
           | |- context [match boundingBox ?l ?p with _ => _ end] =>
               destruct (boundingBox l p) as [bb|]; cbn [page handlers]
           | |- context [match dragTo ?s ?t ?o ?p with _ => _ end] =>
               destruct (dragTo s t o p) as [p'|]; cbn [page handlers]
           | |- context [match textContent ?l ?p with _ => _ end] =>
               destruct (textContent l p) as [t|]; cbn [page handlers]
           | |- context [if String.eqb ?a ?b then _ else _] =>
               destruct (String.eqb a b); cbn [page handlers]
           end;
    rewrite ?boxes_logger_run; cbn [fst snd app];
    rewrite ?boxes_logger_run; cbn [fst snd app page];
    repeat split; reflexivity.
Qed.

(** The first step of the box suite: the navigation, then three text
    checks on the page it loaded. *)
Lemma box_navigate_run (w : World num P) :
  verdict (DragBoxes.navigate_and_check w)
  = match goto "/elements/dragndrop/boxes" (page w) with
    | None => Thrown TimeoutError
    | Some p1 =>
        if has_text (locator "h1") DragBoxes.LABEL_HEADING p1
           && has_text DragBoxes.drop_box DragBoxes.LABEL_DROP_BOX p1
           && has_text DragBoxes.drag_box DragBoxes.LABEL_DRAG_BOX p1
        then Returned tt else Thrown ExpectationFailed
    end
  /\ world_after (DragBoxes.navigate_and_check w)
     = match goto "/elements/dragndrop/boxes" (page w) with
       | None => w
       | Some p1 => mkWorld p1 (handlers w)
       end
  /\ drags (events_of (DragBoxes.navigate_and_check w)) = [].
Proof.
  unfold DragBoxes.navigate_and_check, has_text, DragBoxes.drop_box,
    DragBoxes.drag_box.
  read_run.
  destruct (goto "/elements/dragndrop/boxes" (page w)) as [p1|];
    cbn [page handlers]; [|repeat split; reflexivity].
  destruct (textContent (locator "h1") p1) as [t1|];
    [destruct (t1 =? DragBoxes.LABEL_HEADING)|];
    cbn [andb]; try (repeat split; reflexivity).
  destruct (textContent (locator DragBoxes.RECT_DROP_BOX) p1) as [t2|];
    [destruct (t2 =? DragBoxes.LABEL_DROP_BOX)|];
    cbn [andb]; try (repeat split; reflexivity).
  destruct (textContent (locator DragBoxes.RECT_DRAG_BOX) p1) as [t3|];
    [destruct (t3 =? DragBoxes.LABEL_DRAG_BOX)|];
    repeat split; reflexivity.
Qed.

(** X8.  A test of the box suite passes exactly when the navigation
    resolves, the heading, the drop square and the draggable square carry
    their texts on the loaded page, the drag resolves and, after it, the
    text of the drop square is the row's expected text.  The drag is the
    only action after the navigation.  For the negative row it is made
    only when the drop square could be measured: when its bounding box is
    null the test drags nothing and passes on comparing the label of the
    untouched page. *)
Theorem box_test_passes_iff_label_after_drag :
  forall (c : DragBoxes.Case) (w : World num P),
    (verdict (DragBoxes.test_body c w) = Returned tt
     <-> exists p1 p2 : P,
           goto "/elements/dragndrop/boxes" (page w) = Some p1
           /\ has_text (locator "h1") DragBoxes.LABEL_HEADING p1 = true
           /\ has_text DragBoxes.drop_box DragBoxes.LABEL_DROP_BOX p1 = true
           /\ has_text DragBoxes.drag_box DragBoxes.LABEL_DRAG_BOX p1 = true
           /\ box_after_drag c p1 = Some p2
           /\ has_text DragBoxes.drop_box_txt
                       (DragBoxes.expected_drop_box_txt c) p2 = true)
    /\ drags (events_of (DragBoxes.test_body c w))
       = match goto "/elements/dragndrop/boxes" (page w) with
         | None => []
         | Some p1 =>
             if has_text (locator "h1") DragBoxes.LABEL_HEADING p1
                && has_text DragBoxes.drop_box DragBoxes.LABEL_DROP_BOX p1
                && has_text DragBoxes.drag_box DragBoxes.LABEL_DRAG_BOX p1
             then
               if DragBoxes.is_positive c then
                 [DragTo DragBoxes.drag_box DragBoxes.drop_box None]
               else
                 match boundingBox DragBoxes.drop_box p1 with
                 | Some bb =>
                     [DragTo DragBoxes.drag_box DragBoxes.content_box
                             (Some (num_add (rect_x bb) DragBoxes.X_OFFSET,
                                    rect_y bb))]
                 | None => []
                 end
             else []
         end.
Proof.
  intros c w. unfold DragBoxes.test_body. rewrite bind_run.
  destruct (box_navigate_run w) as [Hv [Hw Hd]].
  destruct (DragBoxes.navigate_and_check w) as [[r w1] evs1].
  unfold verdict, world_after, events_of in Hv, Hw, Hd.
  cbn [fst snd] in Hv, Hw, Hd.
  destruct (goto "/elements/dragndrop/boxes" (page w)) as [p1|].
  - destruct (box_drag_and_verify_run c w1) as [Hv2 [_ Hd2]].
    subst w1. cbn [page] in Hv2, Hd2.
    set (ok := has_text (locator "h1") DragBoxes.LABEL_HEADING p1
               && has_text DragBoxes.drop_box DragBoxes.LABEL_DROP_BOX p1
               && has_text DragBoxes.drag_box DragBoxes.LABEL_DRAG_BOX p1)
      in *.
    destruct ok eqn:Hok; subst r.
    + destruct (DragBoxes.drag_and_verify c (mkWorld p1 (handlers w)))
        as [[r2 w2] evs2].
      unfold verdict, events_of in *. cbn [fst snd] in *.
      rewrite drags_app, Hd, Hd2. subst r2. split; [|reflexivity].
      subst ok. apply andb_true_iff in Hok as [Hok H3].
      apply andb_true_iff in Hok as [H1 H2].
      split.
      * intros Hret. exists p1.
        destruct (box_after_drag c p1) as [p2|]; [|discriminate].
        exists p2. repeat split; try assumption; try reflexivity.
        destruct (has_text DragBoxes.drop_box_txt
                    (DragBoxes.expected_drop_box_txt c) p2);
          [reflexivity | discriminate].
      * intros [q1 [p2 [Hgo [_ [_ [_ [Hdrag Htext]]]]]]].
        injection Hgo as <-. now rewrite Hdrag, Htext.
    + unfold verdict, events_of. cbn [fst snd]. split; [|exact Hd].
      split; [discriminate|].
      intros [q1 [p2 [Hgo [H1 [H2 [H3 _]]]]]].
      injection Hgo as <-. subst ok. now rewrite H1, H2, H3 in Hok.
  - subst r. unfold verdict, events_of. cbn [fst snd].
    split; [|exact Hd].
    split; [discriminate|]. intros [q1 [p2 [Hgo _]]]. discriminate.
Qed.

(** A statement that only checks the page, followed by the rest of a
    body: the rest runs, from the same world, exactly when the check
    holds, and the check drags nothing. *)
Lemma check_then (m : M unit) (cond : P -> bool) (rest : M unit)
    (w : World num P) :
  verdict (m w)
  = (if cond (page w) then Returned tt else Thrown ExpectationFailed) ->
  world_after (m w) = w ->
  drags (events_of (m w)) = [] ->
  verdict (bind m (fun _ => rest) w)
  = (if cond (page w) then verdict (rest w) else Thrown ExpectationFailed)
  /\ drags (events_of (bind m (fun _ => rest) w))
     = (if cond (page w) then drags (events_of (rest w)) else []).
Proof.
  intros Hv Hw Hd.
  rewrite verdict_bind, events_of_bind, drags_app, Hv, Hw, Hd.
  destruct (cond (page w)); split; reflexivity.
Qed.

(** A test of the image suite, read off up to its drag step. *)
Lemma image_test_run (c : DragImages.Case) (w : World num P) :
  verdict (DragImages.test_body c w)
  = match goto "/elements/dragndrop/images" (page w) with
    | None => Thrown TimeoutError
    | Some p1 =>
        if has_text (locator "h1") DragImages.LABEL_HEADING p1
           && isVisible DragImages.drop_box_1 p1
           && isVisible DragImages.drop_box_2 p1
           && isVisible DragImages.image_in_box_1 p1
        then verdict (DragImages.drag_and_verify c (mkWorld p1 (handlers w)))
        else Thrown ExpectationFailed
    end
  /\ drags (events_of (DragImages.test_body c w))
     = match goto "/elements/dragndrop/images" (page w) with
       | None => []
       | Some p1 =>
           if has_text (locator "h1") DragImages.LABEL_HEADING p1
              && isVisible DragImages.drop_box_1 p1
              && isVisible DragImages.drop_box_2 p1
              && isVisible DragImages.image_in_box_1 p1
           then drags (events_of (DragImages.drag_and_verify c
                                    (mkWorld p1 (handlers w))))
           else []
       end.
Proof.
  unfold DragImages.test_body.
  rewrite verdict_bind, events_of_bind, drags_app.
  assert (Hnav :
            verdict (DragImages.navigate w)
            = match goto "/elements/dragndrop/images" (page w) with
              | Some _ => Returned tt
              | None => Thrown TimeoutError
              end
            /\ world_after (DragImages.navigate w)
               = match goto "/elements/dragndrop/images" (page w) with
                 | Some p1 => mkWorld p1 (handlers w)
                 | None => w
                 end
            /\ drags (events_of (DragImages.navigate w)) = []).
  { unfold DragImages.navigate. read_run.
    destruct (goto "/elements/dragndrop/images" (page w));
      repeat split; reflexivity. }
  destruct Hnav as [-> [-> ->]].
  destruct (goto "/elements/dragndrop/images" (page w)) as [p1|];
    [|split; reflexivity].
  cbv beta iota. cbn [app].
  set (w1 := mkWorld p1 (handlers w)).
  destruct (check_then DragImages.verify_heading
              (has_text (locator "h1") DragImages.LABEL_HEADING)
              (DragImages.verify_boxes ;; DragImages.locate_image ;;
               DragImages.drag_and_verify c) w1) as [-> ->];
    [unfold DragImages.verify_heading, has_text; read_run;
     destruct (textContent (locator "h1") (page w1)) as [t|];
     [destruct (t =? DragImages.LABEL_HEADING)|]; reflexivity ..|].
  destruct (check_then DragImages.verify_boxes
              (fun p => isVisible DragImages.drop_box_1 p
                        && isVisible DragImages.drop_box_2 p)
              (DragImages.locate_image ;; DragImages.drag_and_verify c) w1)
    as [-> ->];
    [unfold DragImages.verify_boxes, DragImages.drop_box_1,
       DragImages.drop_box_2; read_run;
     destruct (isVisible (locator DragImages.RECT_BOX_1) (page w1));
     [destruct (isVisible (locator DragImages.RECT_BOX_2) (page w1))|];
     reflexivity ..|].
  destruct (check_then DragImages.locate_image
              (isVisible DragImages.image_in_box_1)
              (DragImages.drag_and_verify c) w1) as [-> ->];
    [unfold DragImages.locate_image; read_run;
     destruct (isVisible DragImages.image_in_box_1 (page w1));
     reflexivity ..|].
  subst w1. cbn [page].
  destruct (has_text (locator "h1") DragImages.LABEL_HEADING p1);
    [|split; reflexivity].
  destruct (isVisible DragImages.drop_box_1 p1); [|split; reflexivity].
  destruct (isVisible DragImages.drop_box_2 p1); [|split; reflexivity].
  destruct (isVisible DragImages.image_in_box_1 p1); split; reflexivity.
Qed.

(** X9.  A test of the image suite passes exactly when the navigation
    resolves, the loaded page carries the heading text and shows box 1,
    box 2 and the image inside box 1, and the drag step passes when
    started from that loaded page.  The four checks read one and the same
    page state, and nothing is dragged before the drag step. *)
Theorem image_test_passes_iff_preconditions_and_drag_step :
  forall (c : DragImages.Case) (w : World num P),
    (verdict (DragImages.test_body c w) = Returned tt
     <-> exists p1 : P,
           goto "/elements/dragndrop/images" (page w) = Some p1
           /\ has_text (locator "h1") DragImages.LABEL_HEADING p1 = true
           /\ isVisible DragImages.drop_box_1 p1 = true
           /\ isVisible DragImages.drop_box_2 p1 = true
           /\ isVisible DragImages.image_in_box_1 p1 = true
           /\ verdict (DragImages.drag_and_verify c
                         (mkWorld p1 (handlers w))) = Returned tt)
    /\ (forall p1 : P,
          goto "/elements/dragndrop/images" (page w) = Some p1 ->
          drags (events_of (DragImages.test_body c w))
          = if has_text (locator "h1") DragImages.LABEL_HEADING p1
               && isVisible DragImages.drop_box_1 p1
               && isVisible DragImages.drop_box_2 p1
               && isVisible DragImages.image_in_box_1 p1
            then drags (events_of (DragImages.drag_and_verify c
                                     (mkWorld p1 (handlers w))))
            else []).
Proof.
  intros c w. destruct (image_test_run c w) as [-> ->].
  destruct (goto "/elements/dragndrop/images" (page w)) as [p1|].
  - set (ok := has_text (locator "h1") DragImages.LABEL_HEADING p1
               && isVisible DragImages.drop_box_1 p1
               && isVisible DragImages.drop_box_2 p1
               && isVisible DragImages.image_in_box_1 p1).
    split.
    + split.
      * intros Hret. exists p1.
        destruct ok eqn:Hok; [|discriminate]. subst ok.
        apply andb_true_iff in Hok as [Hok H4].
        apply andb_true_iff in Hok as [Hok H3].
        apply andb_true_iff in Hok as [H1 H2].
        repeat split; assumption.
      * intros [q1 [Hgo [H1 [H2 [H3 [H4 Hstep]]]]]].
        injection Hgo as <-. subst ok. now rewrite H1, H2, H3, H4.
    + intros q1 Hgo. injection Hgo as <-. reflexivity.
  - split.
    + split; [discriminate|]. intros [q1 [Hgo _]]. discriminate.
    + intros q1 Hgo. discriminate.
Qed.

(** X10.  A single-drag row of the image suite ends as follows.  The
    positive row times out when the drag onto box 2 rejects, and otherwise
    passes exactly when the image is then visible in box 2 and box 2 has
    the row's expected text.  The negative row cannot fail an
    expectation: it times out only when its drag rejects, and when box 2
    has no bounding box it drags nothing, leaves the page untouched and
    passes. *)
Theorem image_single_drag_row_outcome :
  forall (c : DragImages.Case) (w : World num P),
    DragImages.is_loop_back c = false ->
    verdict (DragImages.drag_and_verify c w)
    = (if DragImages.is_positive c then
         match dragTo DragImages.image_in_box_1 DragImages.drop_box_2 None
                      (page w) with
         | None => Thrown TimeoutError
         | Some p' =>
             if isVisible DragImages.image_in_box_2 p'
                && has_text DragImages.drop_box_2
                            (DragImages.expected_drop_box_txt c) p'
             then Returned tt else Thrown ExpectationFailed
         end
       else
         match boundingBox DragImages.drop_box_2 (page w) with
         | None => Returned tt
         | Some bb =>
             match dragTo DragImages.image_in_box_1 DragImages.content_box
                          (Some (num_add (rect_x bb) DragImages.X_OFFSET,
                                 rect_y bb)) (page w) with
             | None => Thrown TimeoutError
             | Some _ => Returned tt
             end
         end)
    /\ (DragImages.is_positive c = false ->
        boundingBox DragImages.drop_box_2 (page w) = None ->
        world_after (DragImages.drag_and_verify c w) = w
        /\ drags (events_of (DragImages.drag_and_verify c w)) = []).
Proof.
  intros c w Hsingle.
  unfold DragImages.drag_and_verify, DragImages.drag_forward_and_verify,
    DragImages.drag_outside, has_text.
  rewrite Hsingle.
  destruct (DragImages.is_positive c).
  - split; [|discriminate]. read_run.
    destruct (dragTo DragImages.image_in_box_1 DragImages.drop_box_2 None
                     (page w)) as [p'|]; [|reflexivity].
    cbn [page handlers].
    destruct (isVisible DragImages.image_in_box_2 p'); [|reflexivity].
    cbn [andb].
    destruct (textContent DragImages.drop_box_2 p') as [t|]; [|reflexivity].
    destruct (t =? DragImages.expected_drop_box_txt c); reflexivity.
  - split.
    + read_run.
      destruct (boundingBox DragImages.drop_box_2 (page w)) as [bb|];
        [|reflexivity].
      read_run.
      match goal with
      | |- context [dragTo ?s ?t ?o (page w)] =>
          destruct (dragTo s t o (page w)); reflexivity
      end.
    + intros _ Hnone. read_run. rewrite Hnone. split; reflexivity.
Qed.

End DragSteps.

(** ** The checkbox suite *)

Section SelectionLoop.
Context {num : Type} {NUM : JsNumber num} {P : Type} {PAGE : Page num P}
        {CHECK : CheckboxPage num P}.

(** A label that is none of the three leaves no trace. *)
Lemma select_label_unrecognised (label : string) (w : World num P) :
  recognised label = false ->
  Checkboxes.select_label label w = (Returned tt, w, []).
Proof.
  unfold recognised, Checkboxes.select_label. intros H.
  apply orb_false_iff in H as [H H3]. apply orb_false_iff in H as [H1 H2].
  now rewrite H1, H2, H3.
Qed.

Lemma select_loop_skips_unrecognised (labels : list string)
    (w : World num P) :
  for_of labels Checkboxes.select_label w
  = for_of (filter recognised labels) Checkboxes.select_label w.
Proof.
  revert w. induction labels as [|label rest IH]; intros w; [reflexivity|].
  cbn [filter]. destruct (recognised label) eqn:Hrec.
  - cbn [for_of]. rewrite !bind_run.
    destruct (Checkboxes.select_label label w) as [[[[]|e] w'] evs];
      [|reflexivity].
    now rewrite IH.
  - cbn [for_of]. rewrite bind_run, (select_label_unrecognised _ _ Hrec).
    rewrite IH.
    destruct (for_of (filter recognised rest) Checkboxes.select_label w)
      as [[r w'] evs]. reflexivity.
Qed.

(** X11.  The selection step ignores every label that is not one of
    [One], [Two], [Three]: on any page, a row behaves like the row with
    those labels removed from its selection list.  The two runs end alike,
    leave the same world, and make the same clicks and reads; only the
    final log line, which prints the list as given, can differ. *)
Theorem selection_ignores_unrecognised_labels :
  forall (c : Checkboxes.Case) (w : World num P),
    verdict (Checkboxes.select_step c w)
    = verdict (Checkboxes.select_step
                 (Checkboxes.mkCase
                    (Checkboxes.t_case c) (Checkboxes.t_type c)
                    (filter recognised (Checkboxes.chk_box_selected c))
                    (Checkboxes.expected_drop_box_txt c)) w)
    /\ world_after (Checkboxes.select_step c w)
       = world_after (Checkboxes.select_step
                        (Checkboxes.mkCase
                           (Checkboxes.t_case c) (Checkboxes.t_type c)
                           (filter recognised (Checkboxes.chk_box_selected c))
                           (Checkboxes.expected_drop_box_txt c)) w)
    /\ filter (fun e => match e with Log _ => false | _ => true end)
              (events_of (Checkboxes.select_step c w))
       = filter (fun e => match e with Log _ => false | _ => true end)
                (events_of
                   (Checkboxes.select_step
                      (Checkboxes.mkCase
                         (Checkboxes.t_case c) (Checkboxes.t_type c)
                         (filter recognised (Checkboxes.chk_box_selected c))
                         (Checkboxes.expected_drop_box_txt c)) w)).
Proof.
  intros c w. unfold Checkboxes.select_step.
  cbn [Checkboxes.chk_box_selected]. read_run.
  rewrite <- !select_loop_skips_unrecognised.
  destruct (verdict (Checkboxes.deselect_all w)) as [[]|e];
    [|repeat split; reflexivity].
  destruct (verdict (for_of (Checkboxes.chk_box_selected c)
                       Checkboxes.select_label
                       (world_after (Checkboxes.deselect_all w))))
    as [[]|e]; [|repeat split; reflexivity].
  repeat split. rewrite !filter_app. cbn [filter]. reflexivity.
Qed.

End SelectionLoop.

Section TogglingPage.
Context {num : Type} {NUM : JsNumber num} {P : Type} {PAGE : Page num P}
        {CHECK : CheckboxPage num P}.

(** What the page is required to do with a click on one of its three
    checkboxes: no dialog opens, the clicked box changes state and the
    other two keep theirs. *)
Hypothesis click_toggles :
  forall (box : Locator) (p : P),
    In box [Checkboxes.checkbox_1; Checkboxes.checkbox_2;
            Checkboxes.checkbox_3] ->
    exists p' : P,
      click box p = Some (p', None)
      /\ forall other : Locator,
           In other [Checkboxes.checkbox_1; Checkboxes.checkbox_2;
                     Checkboxes.checkbox_3] ->
           isChecked other p'
           = if Locator_eqb other box then negb (isChecked other p)
             else isChecked other p.

Lemma click_box_run (box : Locator) (w : World num P) :
  In box [Checkboxes.checkbox_1; Checkboxes.checkbox_2;
          Checkboxes.checkbox_3] ->
  verdict (locator_click box w) = Returned tt
  /\ checked_boxes (page (world_after (locator_click box w)))
     = toggled box (checked_boxes (page w)).
Proof.
  intros Hbox. destruct (click_toggles box (page w) Hbox) as [p' [Hclick Hst]].
  unfold locator_click. rewrite Hclick.
  unfold verdict, world_after, checked_boxes, toggled. cbn [fst snd page].
  split; [reflexivity|].
  rewrite !Hst by (cbn; auto).
  repeat match goal with
         | |- context [Locator_eqb ?a box] => destruct (Locator_eqb a box)
         end;
    repeat match goal with
           | |- context [isChecked ?a (page w)] =>
               destruct (isChecked a (page w))
           end; reflexivity.
Qed.

Lemma click_if_checked_run (box : Locator) (w : World num P) :
  In box [Checkboxes.checkbox_1; Checkboxes.checkbox_2;
          Checkboxes.checkbox_3] ->
  verdict (Checkboxes.click_if_checked box w) = Returned tt
  /\ checked_boxes (page (world_after (Checkboxes.click_if_checked box w)))
     = (if isChecked box (page w) then toggled box (checked_boxes (page w))
        else checked_boxes (page w)).
Proof.
  intros Hbox. unfold Checkboxes.click_if_checked, Checkboxes.locator_isChecked.
  rewrite verdict_bind, world_after_bind, verdict_read, world_after_read.
  destruct (isChecked box (page w)); [now apply click_box_run|].
  split; reflexivity.
Qed.

Lemma toggled_boxes (st : bool * bool * bool) :
  toggled Checkboxes.checkbox_1 st
  = (negb (fst (fst st)), snd (fst st), snd st)
  /\ toggled Checkboxes.checkbox_2 st
     = (fst (fst st), negb (snd (fst st)), snd st)
  /\ toggled Checkboxes.checkbox_3 st
     = (fst (fst st), snd (fst st), negb (snd st)).
Proof. destruct st as [[[] []] []]; repeat split; reflexivity. Qed.

(** The three conditional clicks leave all three boxes unchecked. *)
Lemma deselect_all_run (w : World num P) :
  verdict (Checkboxes.deselect_all w) = Returned tt
  /\ checked_boxes (page (world_after (Checkboxes.deselect_all w)))
     = (false, false, false).
Proof.
  unfold Checkboxes.deselect_all.
  destruct (click_if_checked_run Checkboxes.checkbox_1 w) as [Hv1 Hs1];
    [cbn; auto|].
  rewrite verdict_bind, world_after_bind, Hv1. cbv beta iota.
  set (w1 := world_after (Checkboxes.click_if_checked Checkboxes.checkbox_1 w))
    in *.
  destruct (click_if_checked_run Checkboxes.checkbox_2 w1) as [Hv2 Hs2];
    [cbn; auto|].
  rewrite verdict_bind, world_after_bind, Hv2. cbv beta iota.
  set (w2 := world_after
               (Checkboxes.click_if_checked Checkboxes.checkbox_2 w1)) in *.
  destruct (click_if_checked_run Checkboxes.checkbox_3 w2) as [Hv3 Hs3];
    [cbn; auto|].
  split; [exact Hv3|]. rewrite Hs3.
  change (isChecked Checkboxes.checkbox_3 (page w2))
    with (snd (checked_boxes (page w2))).
  rewrite Hs2.
  change (isChecked Checkboxes.checkbox_2 (page w1))
    with (snd (fst (checked_boxes (page w1)))).
  rewrite Hs1.
  change (isChecked Checkboxes.checkbox_1 (page w))
    with (fst (fst (checked_boxes (page w)))).
  destruct (checked_boxes (page w)) as [[[] []] []]; reflexivity.
Qed.

End TogglingPage.

Section SelectionOnTogglingPage.
Context {num : Type} {NUM : JsNumber num} {P : Type} {PAGE : Page num P}
        {CHECK : CheckboxPage num P}.

Hypothesis click_toggles :
  forall (box : Locator) (p : P),
    In box [Checkboxes.checkbox_1; Checkboxes.checkbox_2;
            Checkboxes.checkbox_3] ->
    exists p' : P,
      click box p = Some (p', None)
      /\ forall other : Locator,
           In other [Checkboxes.checkbox_1; Checkboxes.checkbox_2;
                     Checkboxes.checkbox_3] ->
           isChecked other p'
           = if Locator_eqb other box then negb (isChecked other p)
             else isChecked other p.

Lemma select_label_run (label : string) (w : World num P) :
  verdict (Checkboxes.select_label label w) = Returned tt
  /\ checked_boxes (page (world_after (Checkboxes.select_label label w)))
     = after_label (checked_boxes (page w)) label.
Proof.
  unfold Checkboxes.select_label, after_label.
  destruct (String.eqb_spec label Checkboxes.LABEL_CHKBOX_1) as [->|_].
  - destruct (click_box_run click_toggles Checkboxes.checkbox_1 w) as [-> ->];
      [cbn; auto|].
    split; [reflexivity|].
    destruct (checked_boxes (page w)) as [[[] []] []]; reflexivity.
  - destruct (String.eqb_spec label Checkboxes.LABEL_CHKBOX_2) as [->|_].
    + destruct (click_box_run click_toggles Checkboxes.checkbox_2 w)
        as [-> ->]; [cbn; auto|].
      split; [reflexivity|].
      destruct (checked_boxes (page w)) as [[[] []] []]; reflexivity.
    + destruct (String.eqb_spec label Checkboxes.LABEL_CHKBOX_3) as [->|_].
      * destruct (click_box_run click_toggles Checkboxes.checkbox_3 w)
          as [-> ->]; [cbn; auto|].
        split; [reflexivity|].
        destruct (checked_boxes (page w)) as [[[] []] []]; reflexivity.
      * split; [reflexivity|]. cbn [ret world_after fst snd].
        destruct (checked_boxes (page w)) as [[[] []] []]; reflexivity.
Qed.

Lemma select_loop_run (labels : list string) (w : World num P) :
  verdict (for_of labels Checkboxes.select_label w) = Returned tt
  /\ checked_boxes
       (page (world_after (for_of labels Checkboxes.select_label w)))
     = fold_left after_label labels (checked_boxes (page w)).
Proof.
  revert w. induction labels as [|label rest IH]; intros w;
    [split; reflexivity|].
  cbn [for_of fold_left]. rewrite verdict_bind, world_after_bind.
  destruct (select_label_run label w) as [-> <-]. cbv beta iota.
  apply IH.
Qed.

Lemma odd_occurrences_cons (label l : string) (rest : list string) :
  Nat.odd (occurrences label (l :: rest))
  = xorb (l =? label) (Nat.odd (occurrences label rest)).
Proof.
  unfold occurrences. cbn [count_occ].
  destruct (String.string_dec l label) as [->|Hne].
  - rewrite String.eqb_refl, Nat.odd_succ, <- Nat.negb_odd. reflexivity.
  - apply String.eqb_neq in Hne. now rewrite Hne.
Qed.

Lemma select_loop_state (labels : list string) (b1 b2 b3 : bool) :
  fold_left after_label labels (b1, b2, b3)
  = (xorb b1 (Nat.odd (occurrences Checkboxes.LABEL_CHKBOX_1 labels)),
     xorb b2 (Nat.odd (occurrences Checkboxes.LABEL_CHKBOX_2 labels)),
     xorb b3 (Nat.odd (occurrences Checkboxes.LABEL_CHKBOX_3 labels))).
Proof.
  revert b1 b2 b3. induction labels as [|l rest IH]; intros b1 b2 b3.
  - cbn. now rewrite !xorb_false_r.
  - cbn [fold_left after_label]. rewrite IH, !odd_occurrences_cons.
    now rewrite !xorb_assoc_reverse.
Qed.

Lemma odd_occurrences_listed (label : string) (labels : list string) :
  NoDup labels ->
  Nat.odd (occurrences label labels) = existsb (String.eqb label) labels.
Proof.
  induction 1 as [|l rest Hnotin _ IH]; [reflexivity|].
  rewrite odd_occurrences_cons. cbn [existsb]. rewrite IH, String.eqb_sym.
  destruct (String.eqb_spec label l) as [->|_]; [|reflexivity].
  destruct (existsb (String.eqb l) rest) eqn:Hex; [|reflexivity].
  apply existsb_exists in Hex as [x [Hin Hx]].
  apply String.eqb_eq in Hx. subst x. contradiction.
Qed.

(** X12.  On a page whose checkboxes toggle on a click, the selection step
    always completes, whatever was checked before and whatever the row
    lists: afterwards a box is checked exactly when its label occurs an
    odd number of times in the row's selection list.  A label listed
    twice is clicked twice and ends unchecked; for a list without
    repetition the checked boxes are exactly the listed ones. *)
Theorem selection_checks_labels_listed_odd_times :
  forall (c : Checkboxes.Case) (w : World num P),
    verdict (Checkboxes.select_step c w) = Returned tt
    /\ checked_boxes (page (world_after (Checkboxes.select_step c w)))
       = (Nat.odd (occurrences Checkboxes.LABEL_CHKBOX_1
                               (Checkboxes.chk_box_selected c)),
          Nat.odd (occurrences Checkboxes.LABEL_CHKBOX_2
                               (Checkboxes.chk_box_selected c)),
          Nat.odd (occurrences Checkboxes.LABEL_CHKBOX_3
                               (Checkboxes.chk_box_selected c)))
    /\ (NoDup (Checkboxes.chk_box_selected c) ->
        checked_boxes (page (world_after (Checkboxes.select_step c w)))
        = (existsb (String.eqb Checkboxes.LABEL_CHKBOX_1)
                   (Checkboxes.chk_box_selected c),
           existsb (String.eqb Checkboxes.LABEL_CHKBOX_2)
                   (Checkboxes.chk_box_selected c),
           existsb (String.eqb Checkboxes.LABEL_CHKBOX_3)
                   (Checkboxes.chk_box_selected c))).
Proof.
  intros c w. unfold Checkboxes.select_step. read_run.
  destruct (deselect_all_run click_toggles w) as [Hv Hclear].
  rewrite Hv. cbv beta iota.
  destruct (select_loop_run (Checkboxes.chk_box_selected c)
              (world_after (Checkboxes.deselect_all w))) as [Hv2 Hst].
  rewrite Hv2. cbv beta iota. rewrite Hst, Hclear, select_loop_state.
  split; [reflexivity|]. split; [reflexivity|].
  intros Hnodup. now rewrite !(odd_occurrences_listed _ _ Hnodup).
Qed.

(** X13.  On such a page [afterEach] always completes and leaves all three
    checkboxes unchecked, whatever the test left checked. *)
Theorem afterEach_unchecks_every_box :
  forall (testInfo_title testInfo_status : string) (w : World num P),
    verdict (Checkboxes.afterEach testInfo_title testInfo_status w)
    = Returned tt
    /\ checked_boxes
         (page (world_after
                  (Checkboxes.afterEach testInfo_title testInfo_status w)))
       = (false, false, false).
Proof.
  intros title status w. unfold Checkboxes.afterEach. read_run.
  destruct (deselect_all_run click_toggles w) as [Hv Hclear].
  rewrite Hv. cbv beta iota. exact (conj eq_refl Hclear).
Qed.

End SelectionOnTogglingPage.

Section SubmitStep.
Context {num : Type} {NUM : JsNumber num} {P : Type} {PAGE : Page num P}
        {CHECK : CheckboxPage num P}.

(** X14.  In a fresh context the submit step of the checkbox suite times
    out when the click on the submit button rejects.  Otherwise, for a row
    whose expected text is empty it passes without making any
    expectation: nothing checks that no result is shown.  For any other
    row it passes exactly when the result block contains
    [Selected checkboxes:] and the result text contains the row's expected
    text. *)
Theorem submit_step_checks_result_unless_expected_is_empty :
  forall (c : Checkboxes.Case) (w : World num P),
    handlers w = [] ->
    verdict (Checkboxes.submit_and_verify c w)
    = match click Checkboxes.submit_btn (page w) with
      | None => Thrown TimeoutError
      | Some answer =>
          if Checkboxes.expected_drop_box_txt c =? "" then Returned tt
          else if contains_text Checkboxes.result_text_1 Checkboxes.RESULT_TXT
                                (after_unhandled_click answer)
                  && contains_text Checkboxes.result_text_2
                                   (Checkboxes.expected_drop_box_txt c)
                                   (after_unhandled_click answer)
               then Returned tt else Thrown ExpectationFailed
      end
    /\ (Checkboxes.expected_drop_box_txt c = "" ->
        expectations (events_of (Checkboxes.submit_and_verify c w)) = []).
Proof.
  intros c [p hs] Hfresh. cbn [handlers] in Hfresh. subst hs.
  assert (Hclick :
            locator_click Checkboxes.submit_btn (mkWorld p [])
            = match click Checkboxes.submit_btn p with
              | None =>
                  (Thrown TimeoutError, mkWorld p [],
                   [Click Checkboxes.submit_btn])
              | Some answer =>
                  (Returned tt, mkWorld (after_unhandled_click answer) [],
                   [Click Checkboxes.submit_btn])
              end).
  { unfold locator_click, after_unhandled_click. cbn [page handlers].
    destruct (click Checkboxes.submit_btn p) as [[p' [d|]]|]; reflexivity. }
  unfold Checkboxes.submit_and_verify, contains_text,
    Checkboxes.LABEL_NON_SELECTED_CHKBOX.
  cbn [page].
  destruct (Checkboxes.expected_drop_box_txt c =? "") eqn:Hempty;
    cbn [negb]; read_run; rewrite Hclick;
    destruct (click Checkboxes.submit_btn p) as [answer|];
    cbn [verdict world_after events_of fst snd page handlers app].
  - split; [reflexivity|]. intros _. reflexivity.
  - split; [reflexivity|]. intros _. reflexivity.
  - split.
    + destruct (textContent Checkboxes.result_text_1
                  (after_unhandled_click answer)) as [t1|]; [|reflexivity].
      destruct (includes t1 Checkboxes.RESULT_TXT); [|reflexivity].
      cbn [andb].
      destruct (textContent Checkboxes.result_text_2
                  (after_unhandled_click answer)) as [t2|]; [|reflexivity].
      destruct (includes t2 (Checkboxes.expected_drop_box_txt c));
        reflexivity.
    + intros Hexp. rewrite Hexp in Hempty. discriminate.
  - split; [reflexivity|].
    intros Hexp. rewrite Hexp in Hempty. discriminate.
Qed.

End SubmitStep.

(** ** The alert suites, test by test *)

Section AlertTests.
Context {num : Type} {NUM : JsNumber num} {P : Type} {PAGE : Page num P}.

Lemma verify_confirmation_run (c : AlertConfirmation.Case)
    (w : World num P) :
  verdict (AlertConfirmation.verify_result c w)
  = if contains_text AlertConfirmation.result_text_1
                     AlertConfirmation.RESULT_TXT (page w)
       && contains_text AlertConfirmation.result_text_2
                        (AlertConfirmation.expected_txt c) (page w)
    then Returned tt else Thrown ExpectationFailed.
Proof.
  unfold AlertConfirmation.verify_result, contains_text. read_run.
  destruct (textContent AlertConfirmation.result_text_1 (page w)) as [t1|];
    [|reflexivity].
  destruct (includes t1 AlertConfirmation.RESULT_TXT); [|reflexivity].
  cbn [andb].
  destruct (textContent AlertConfirmation.result_text_2 (page w)) as [t2|];
    [|reflexivity].
  destruct (includes t2 (AlertConfirmation.expected_txt c)); reflexivity.
Qed.

Lemma verify_prompt_run (c : AlertPrompt.Case) (w : World num P) :
  verdict (AlertPrompt.verify_result c w)
  = if (negb (AlertPrompt.t_case c =? "Ok - with prompt input")
        || contains_text AlertPrompt.result_text_1 AlertPrompt.RESULT_TXT
                         (page w))
       && contains_text AlertPrompt.result_text_2
                        (AlertPrompt.expected_txt c) (page w)
    then Returned tt else Thrown ExpectationFailed.
Proof.
  unfold AlertPrompt.verify_result, contains_text.
  destruct (AlertPrompt.t_case c =? "Ok - with prompt input");
    cbn [negb orb]; read_run.
  - destruct (textContent AlertPrompt.result_text_1 (page w)) as [t1|];
      [|reflexivity].
    destruct (includes t1 AlertPrompt.RESULT_TXT); [|reflexivity].
    cbn [andb].
    destruct (textContent AlertPrompt.result_text_2 (page w)) as [t2|];
      [|reflexivity].
    destruct (includes t2 (AlertPrompt.expected_txt c)); reflexivity.
  - destruct (textContent AlertPrompt.result_text_2 (page w)) as [t2|];
      [|reflexivity].
    destruct (includes t2 (AlertPrompt.expected_txt c)); reflexivity.
Qed.

(** X15.  In a fresh context a test of either alert suite times out when
    the click rejects, and otherwise passes exactly when the result texts
    match on the page left by the row's answer to the dialog.  The
    confirmation suite always requires the result block to contain
    [You selected] and the result text to contain the row's expected text.
    The prompt suite requires the result block to contain [You entered]
    only for the label [Ok - with prompt input]; for every other label it
    compares the result text alone. *)
Theorem alert_test_passes_iff_result_matches_after_answer :
  forall (w1 w2 : World num P) (c1 : AlertConfirmation.Case)
         (c2 : AlertPrompt.Case),
    handlers w1 = [] ->
    handlers w2 = [] ->
    verdict (AlertConfirmation.test_body c1 w1)
    = match click AlertConfirmation.click_btn (page w1) with
      | None => Thrown TimeoutError
      | Some answer =>
          if contains_text AlertConfirmation.result_text_1
               AlertConfirmation.RESULT_TXT
               (after_answered_click
                  (spec_confirm_decision (AlertConfirmation.t_case c1))
                  answer)
             && contains_text AlertConfirmation.result_text_2
                  (AlertConfirmation.expected_txt c1)
                  (after_answered_click
                     (spec_confirm_decision (AlertConfirmation.t_case c1))
                     answer)
          then Returned tt else Thrown ExpectationFailed
      end
    /\ verdict (AlertPrompt.test_body c2 w2)
       = match click AlertPrompt.click_btn (page w2) with
         | None => Thrown TimeoutError
         | Some answer =>
             if (negb (AlertPrompt.t_case c2 =? "Ok - with prompt input")
                 || contains_text AlertPrompt.result_text_1
                      AlertPrompt.RESULT_TXT
                      (after_answered_click
                         (spec_prompt_decision (AlertPrompt.t_case c2)
                                               (AlertPrompt.prompt_input c2))
                         answer))
                && contains_text AlertPrompt.result_text_2
                     (AlertPrompt.expected_txt c2)
                     (after_answered_click
                        (spec_prompt_decision (AlertPrompt.t_case c2)
                                              (AlertPrompt.prompt_input c2))
                        answer)
             then Returned tt else Thrown ExpectationFailed
         end.
Proof.
  intros [p1 hs1] [p2 hs2] c1 c2 Hfresh1 Hfresh2.
  cbn [handlers] in Hfresh1, Hfresh2. subst hs1 hs2. cbn [page].
  unfold AlertConfirmation.test_body, AlertPrompt.test_body.
  rewrite !verdict_bind. split.
  - destruct (confirmation_step_run c1 p1) as [h [evs0 [Hanswer ->]]].
    rewrite click_with_one_handler.
    destruct (click AlertConfirmation.click_btn p1) as [[p' [dialog|]]|];
      [rewrite Hanswer| |]; cbn [verdict world_after fst snd];
      try reflexivity; apply verify_confirmation_run.
  - rewrite prompt_step_run, click_with_one_handler.
    destruct (click AlertPrompt.click_btn p2) as [[p' [dialog|]]|];
      [rewrite prompt_answer| |]; cbn [verdict world_after fst snd];
      try reflexivity; apply verify_prompt_run.
Qed.

End AlertTests.

(** ** The input suites, test by test *)

Section InputTests.
Context {num : Type} {NUM : JsNumber num} {P : Type} {PAGE : Page num P}.

(** The two steps the three suites share, up to their literals: load the
    page, see the heading and the label, fill the field, press Enter. *)
Lemma entry_then (url : string) (heading label textbox : Locator)
    (input : string) (k : M unit) (w : World num P) :
  verdict
    (((page_goto url ;;
       expect_toBeVisible heading ;;
       expect_toBeVisible label) ;;
      (locator_fill textbox input ;;
       keyboard_press "Enter") ;;
      k) w)
  = match goto url (page w) with
    | None => Thrown TimeoutError
    | Some p1 =>
        if isVisible heading p1 && isVisible label p1 then
          match fill textbox input p1 with
          | None => Thrown TimeoutError
          | Some p2 =>
              match press "Enter" p2 with
              | None => Thrown TimeoutError
              | Some p3 => verdict (k (mkWorld p3 (handlers w)))
              end
          end
        else Thrown ExpectationFailed
    end
  /\ (forall p1 p2 p3 : P,
        goto url (page w) = Some p1 ->
        isVisible heading p1 && isVisible label p1 = true ->
        fill textbox input p1 = Some p2 ->
        press "Enter" p2 = Some p3 ->
        entries
          (events_of
             (((page_goto url ;;
                expect_toBeVisible heading ;;
                expect_toBeVisible label) ;;
               (locator_fill textbox input ;;
                keyboard_press "Enter") ;;
               k) w))
        = Fill textbox input :: Press "Enter"
            :: entries (events_of (k (mkWorld p3 (handlers w))))).
Proof.
  unfold bind, page_goto, expect_toBeVisible, locator_fill, keyboard_press,
    act, expect, verdict, events_of.
  destruct (goto url (page w)) as [p1|];
    [|split; [reflexivity | intros ? ? ? H; discriminate H]].
  cbn.
  destruct (isVisible heading p1) eqn:Hh;
    [|split; [reflexivity|];
      intros q1 ? ? H1 H; injection H1 as <-; rewrite Hh in H;
      discriminate H].
  cbn.
  destruct (isVisible label p1) eqn:Hl;
    [|split; [reflexivity|];
      intros q1 ? ? H1 H; injection H1 as <-; rewrite Hh, Hl in H;
      discriminate H].
  cbn.
  destruct (fill textbox input p1) as [p2|] eqn:Hf;
    [|split; [reflexivity|];
      intros q1 ? ? H1 _ H; injection H1 as <-; rewrite Hf in H;
      discriminate H].
  cbn.
  destruct (press "Enter" p2) as [p3|] eqn:Hp;
    [|split; [reflexivity|];
      intros q1 q2 ? H1 _ H2 H3; injection H1 as <-; rewrite Hf in H2;
      injection H2 as <-; rewrite Hp in H3; discriminate H3].
  cbn.
  destruct (k (mkWorld p3 (handlers w))) as [[r w'] evs] eqn:Hk.
  split; [reflexivity|].
  intros q1 q2 q3 H1 _ H2 H3.
  injection H1 as <-. rewrite Hf in H2. injection H2 as <-.
  rewrite Hp in H3. injection H3 as <-. rewrite Hk. reflexivity.
Qed.

(** The result steps type nothing. *)
Lemma echo_check_types_nothing (first : M unit) (valid : bool)
    (input : string) (w : World num P) :
  entries (events_of (first w)) = [] ->
  entries
    (events_of
       (bind first
             (fun _ => if valid then expect_toBeVisible (getByText input)
                       else ret tt) w))
  = [].
Proof.
  intros H. rewrite events_of_bind. unfold entries in *.
  rewrite filter_app, H.
  destruct (verdict (first w)) as [[]|e]; [|reflexivity].
  destruct valid; [|reflexivity].
  unfold expect_toBeVisible, expect.
  destruct (isVisible (getByText input) (page (world_after (first w))));
    reflexivity.
Qed.

Lemma message_check_types_nothing (textbox : Locator) (input msg msg' : string)
    (w : World num P) :
  entries
    (events_of
       ((if input =? "" then
           validationMessage <- locator_validationMessage textbox ;;
           expect_toBe validationMessage msg'
         else expect_toBeVisible (getByText msg)) w))
  = [].
Proof.
  destruct (input =? "").
  - rewrite native_message_check. reflexivity.
  - unfold expect_toBeVisible, expect.
    destruct (isVisible (getByText msg) (page w)); reflexivity.
Qed.

Lemma result_steps_type_nothing (browserName : string)
    (c1 : SimpleInput.Case) (c2 : EmailInput.Case) (c3 : PasswordInput.Case)
    (w : World num P) :
  entries (events_of (SimpleInput.verify_result browserName c1 w)) = []
  /\ entries (events_of (EmailInput.verify_result browserName c2 w)) = []
  /\ entries (events_of (PasswordInput.verify_result browserName c3 w)) = [].
Proof.
  unfold SimpleInput.verify_result, EmailInput.verify_result,
    PasswordInput.verify_result, test_step.
  split; [|split].
  - apply echo_check_types_nothing.
    destruct (SimpleInput.result_msg c1) as [msg|msgs].
    + apply message_check_types_nothing.
    + unfold expect_toBeVisible. rewrite for_of_expect.
      unfold events_of. cbn [snd].
      induction (checked_until_failure
                   (fun x => isVisible (getByText x) (page w)) msgs)
        as [|m rest IH]; [reflexivity | exact IH].
  - apply echo_check_types_nothing. apply message_check_types_nothing.
  - apply echo_check_types_nothing. apply message_check_types_nothing.
Qed.

(** X16.  A test of the text, email or password suite passes exactly when
    its page loads, the heading and the field's label are visible on the
    loaded page, filling the row's input into the field and pressing Enter
    both resolve, and the result step passes on the page the key press
    leaves.  In that case the row's input is the only text the test typed
    and Enter the only key it pressed, once each and in that order. *)
Theorem input_test_passes_iff_result_step_after_entry :
  forall (browserName : string) (c1 : SimpleInput.Case)
         (c2 : EmailInput.Case) (c3 : PasswordInput.Case) (w : World num P),
    (verdict (SimpleInput.test_body browserName c1 w) = Returned tt
     <-> exists p1 p2 p3 : P,
           goto "/elements/input/simple" (page w) = Some p1
           /\ isVisible (getByRole "heading" SimpleInput.TXT_HEADING) p1 = true
           /\ isVisible (getByLabel SimpleInput.TXT_LABEL) p1 = true
           /\ fill SimpleInput.textbox (SimpleInput.input_str c1) p1 = Some p2
           /\ press "Enter" p2 = Some p3
           /\ verdict (SimpleInput.verify_result browserName c1
                         (mkWorld p3 (handlers w))) = Returned tt)
    /\ (verdict (EmailInput.test_body browserName c2 w) = Returned tt
        <-> exists p1 p2 p3 : P,
              goto "/elements/input/email" (page w) = Some p1
              /\ isVisible (getByRole "heading" EmailInput.TXT_HEADING) p1
                 = true
              /\ isVisible (getByLabel EmailInput.TXT_LABEL) p1 = true
              /\ fill EmailInput.textbox (EmailInput.email_address c2) p1
                 = Some p2
              /\ press "Enter" p2 = Some p3
              /\ verdict (EmailInput.verify_result browserName c2
                            (mkWorld p3 (handlers w))) = Returned tt)
    /\ (verdict (PasswordInput.test_body browserName c3 w) = Returned tt
        <-> exists p1 p2 p3 : P,
              goto "/elements/input/passwd" (page w) = Some p1
              /\ isVisible (getByRole "heading" PasswordInput.TXT_HEADING) p1
                 = true
              /\ isVisible (getByLabel PasswordInput.TXT_LABEL) p1 = true
              /\ fill PasswordInput.textbox (PasswordInput.password c3) p1
                 = Some p2
              /\ press "Enter" p2 = Some p3
              /\ verdict (PasswordInput.verify_result browserName c3
                            (mkWorld p3 (handlers w))) = Returned tt)
    /\ (verdict (SimpleInput.test_body browserName c1 w) = Returned tt ->
        entries (events_of (SimpleInput.test_body browserName c1 w))
        = [Fill SimpleInput.textbox (SimpleInput.input_str c1);
           Press "Enter"])
    /\ (verdict (EmailInput.test_body browserName c2 w) = Returned tt ->
        entries (events_of (EmailInput.test_body browserName c2 w))
        = [Fill EmailInput.textbox (EmailInput.email_address c2);
           Press "Enter"])
    /\ (verdict (PasswordInput.test_body browserName c3 w) = Returned tt ->
        entries (events_of (PasswordInput.test_body browserName c3 w))
        = [Fill PasswordInput.textbox (PasswordInput.password c3);
           Press "Enter"]).
Proof.
  intros browserName c1 c2 c3 w.
  assert (Hshape :
            forall (url : string) (heading label textbox : Locator)
                   (input : string) (k : M unit),
              (forall w', entries (events_of (k w')) = []) ->
              let run :=
                ((page_goto url ;;
                  expect_toBeVisible heading ;;
                  expect_toBeVisible label) ;;
                 (locator_fill textbox input ;;
                  keyboard_press "Enter") ;;
                 k) w in
              (verdict run = Returned tt
               <-> exists p1 p2 p3 : P,
                     goto url (page w) = Some p1
                     /\ isVisible heading p1 = true
                     /\ isVisible label p1 = true
                     /\ fill textbox input p1 = Some p2
                     /\ press "Enter" p2 = Some p3
                     /\ verdict (k (mkWorld p3 (handlers w))) = Returned tt)
              /\ (verdict run = Returned tt ->
                  entries (events_of run)
                  = [Fill textbox input; Press "Enter"])).
  { intros url heading label textbox input k Hk run. subst run.
    destruct (entry_then url heading label textbox input k w) as [Hv Hev].
    rewrite Hv.
    destruct (goto url (page w)) as [p1|] eqn:Hg.
    - destruct (isVisible heading p1 && isVisible label p1) eqn:Hok.
      + destruct (fill textbox input p1) as [p2|] eqn:Hf.
        * destruct (press "Enter" p2) as [p3|] eqn:Hp.
          -- split.
             ++ split.
                ** intros Hret. exists p1, p2, p3.
                   apply andb_true_iff in Hok as [Hh Hl].
                   split; [reflexivity|]. split; [exact Hh|].
                   split; [exact Hl|]. split; [exact Hf|].
                   split; [exact Hp | exact Hret].
                ** intros [q1 [q2 [q3 [H1 [_ [_ [H2 [H3 H4]]]]]]]].
                   injection H1 as <-. rewrite Hf in H2. injection H2 as <-.
                   rewrite Hp in H3. injection H3 as <-. exact H4.
             ++ intros _.
                rewrite (Hev p1 p2 p3 eq_refl Hok Hf Hp), Hk.
                reflexivity.
          -- split; [split|]; try discriminate.
             intros [q1 [q2 [q3 [H1 [_ [_ [H2 [H3 _]]]]]]]].
             injection H1 as <-. rewrite Hf in H2. injection H2 as <-.
             rewrite Hp in H3. discriminate.
        * split; [split|]; try discriminate.
          intros [q1 [q2 [q3 [H1 [_ [_ [H2 _]]]]]]].
          injection H1 as <-. rewrite Hf in H2. discriminate.
      + split; [split|]; try discriminate.
        intros [q1 [q2 [q3 [H1 [Hh [Hl _]]]]]].
        injection H1 as <-. rewrite Hh, Hl in Hok. discriminate.
    - split; [split|]; try discriminate.
      intros [q1 [q2 [q3 [H1 _]]]]. discriminate. }
  pose proof (fun w' => proj1 (result_steps_type_nothing browserName c1 c2 c3 w'))
    as Hk1.
  pose proof (fun w' =>
                proj1 (proj2 (result_steps_type_nothing browserName c1 c2 c3 w')))
    as Hk2.
  pose proof (fun w' =>
                proj2 (proj2 (result_steps_type_nothing browserName c1 c2 c3 w')))
    as Hk3.
  destruct (Hshape "/elements/input/simple"
              (getByRole "heading" SimpleInput.TXT_HEADING)
              (getByLabel SimpleInput.TXT_LABEL) SimpleInput.textbox
              (SimpleInput.input_str c1)
              (SimpleInput.verify_result browserName c1) Hk1) as [Hi1 He1].
  destruct (Hshape "/elements/input/email"
              (getByRole "heading" EmailInput.TXT_HEADING)
              (getByLabel EmailInput.TXT_LABEL) EmailInput.textbox
              (EmailInput.email_address c2)
              (EmailInput.verify_result browserName c2) Hk2) as [Hi2 He2].
  destruct (Hshape "/elements/input/passwd"
              (getByRole "heading" PasswordInput.TXT_HEADING)
              (getByLabel PasswordInput.TXT_LABEL) PasswordInput.textbox
              (PasswordInput.password c3)
              (PasswordInput.verify_result browserName c3) Hk3) as [Hi3 He3].
  repeat split; first [ apply Hi1 | apply Hi2 | apply Hi3
                      | exact He1 | exact He2 | exact He3 ].
Qed.

End InputTests.

(** ** The launcher script *)

Section LauncherScript.
Import Launcher.

(** The loop drops one or two arguments at a time. *)
Lemma by_length {A : Type} (Q : list A -> Prop) :
  (forall l, (forall l', length l' < length l -> Q l') -> Q l) ->
  forall l, Q l.
Proof.
  intros Hstep l.
  assert (H : forall n l', length l' < n -> Q l').
  { induction n as [|n IH]; intros l' Hlen; [lia|].
    apply Hstep. intros l'' Hlen'. apply IH. lia. }
  apply (H (S (length l))). lia.
Qed.

(** Split on which option an argument is: the first argument of the goal's
    list is compared with each option in turn. *)
Ltac split_argument :=
  cbn [parse_args];
  repeat (cbv iota;
          match goal with
          | |- context [if ?a =? ?s then _ else _] =>
              is_var a; destruct (String.eqb_spec a s) as [->|?]
          end).

Lemma type_is_known_valid (t : string) :
  type_is_known t = TestTypeDefinition.is_valid_test_type t.
Proof.
  unfold type_is_known, TestTypeDefinition.is_valid_test_type,
    Object_values_TestType.
  cbn [existsb TestType_value].
  rewrite (String.eqb_sym "sanity"), (String.eqb_sym "smoke"),
    (String.eqb_sym "regression").
  destruct (t =? "sanity"), (t =? "regression"), (t =? "smoke"); reflexivity.
Qed.

Lemma project_is_known_in (p : string) :
  project_is_known p = true <-> In p ["chromium"; "firefox"; "webkit"].
Proof.
  unfold project_is_known. split.
  - destruct (String.eqb_spec p "chromium") as [->|_]; [cbn; auto|].
    destruct (String.eqb_spec p "firefox") as [->|_]; [cbn; auto|].
    destruct (String.eqb_spec p "webkit") as [->|_]; [cbn; auto|].
    discriminate.
  - intros [<-|[<-|[<-|[]]]]; reflexivity.
Qed.

Lemma is_digit_in (c : ascii) :
  is_digit c = true <-> In c (list_ascii_of_string "0123456789").
Proof.
  split.
  - destruct c as [[] [] [] [] [] [] [] []]; vm_compute; intros H;
      try discriminate H; tauto.
  - intros H. cbn in H.
    repeat (destruct H as [<-|H]; [reflexivity|]). destruct H.
Qed.

Lemma is_number_digits (s : string) :
  is_number s = true
  <-> s <> ""
      /\ forall c, In c (list_ascii_of_string s) ->
                   In c (list_ascii_of_string "0123456789").
Proof.
  unfold is_number. rewrite andb_true_iff, negb_true_iff, String.eqb_neq.
  apply and_iff_compat_l.
  induction s as [|c s IH]; cbn [all_digits list_ascii_of_string].
  - split; [intros _ c [] | reflexivity].
  - rewrite andb_true_iff, IH, is_digit_in. split.
    + intros [Hc Hs] d [<-|Hd]; [exact Hc | now apply Hs].
    + intros H. split; [apply H; now left|].
      intros d Hd. apply H. now right.
Qed.

Lemma well_formed_parses (script : string) (args : list string) :
  well_formed_arguments args ->
  forall v, exists v', parse_args script args v = Done v'.
Proof.
  induction 1 as [|flag rest Hflag _ IH|suite rest Hsuite _ IH
                  |type rest Htype _ IH|project rest Hproject _ IH
                  |workers rest Hne Hdigits _ IH]; intros v.
  - now exists v.
  - destruct Hflag as [<-|[<-|[<-|[<-|[]]]]]; cbn; apply IH.
  - apply String.eqb_neq in Hsuite. cbn. rewrite Hsuite. apply IH.
  - cbn. rewrite type_is_known_valid, Htype. apply IH.
  - apply project_is_known_in in Hproject. cbn.
    rewrite Hproject. apply IH.
  - assert (Hnum : is_number workers = true)
      by (apply is_number_digits; split; assumption).
    cbn. rewrite Hnum. apply IH.
Qed.

Lemma parses_well_formed (script : string) :
  forall (args : list string) (v v' : Vars),
    parse_args script args v = Done v' -> well_formed_arguments args.
Proof.
  apply (by_length
           (fun args => forall v v',
                parse_args script args v = Done v' ->
                well_formed_arguments args)).
  intros [|arg rest] IH v v'; [constructor|].
  assert (IH1 : forall v0, parse_args script rest v0 = Done v' ->
                           well_formed_arguments rest).
  { intros v0. apply IH. cbn [length]. lia. }
  split_argument;
    try (intros H; apply flag_argument; [cbn [In]; tauto | exact (IH1 _ H)]);
    try discriminate;
    destruct rest as [|value rest']; try discriminate;
    assert (IH2 : forall v0, parse_args script rest' v0 = Done v' ->
                             well_formed_arguments rest')
      by (intros v0; apply IH; cbn [length]; lia).
  - split_argument; [discriminate|]. intros H.
    apply suite_argument; [assumption | exact (IH2 _ H)].
  - destruct (type_is_known value) eqn:Hknown; [|discriminate]. intros H.
    apply type_argument; [| exact (IH2 _ H)].
    now rewrite <- type_is_known_valid.
  - destruct (project_is_known value) eqn:Hknown; [|discriminate]. intros H.
    apply project_argument; [| exact (IH2 _ H)].
    now apply project_is_known_in.
  - destruct (is_number value) eqn:Hnum; [|discriminate]. intros H.
    apply is_number_digits in Hnum as [Hne Hdigits].
    apply workers_argument; [assumption | assumption | exact (IH2 _ H)].
Qed.

(** X17.  The launcher gets past its argument loop exactly on the argument
    lists made of the flags [--headless], [--headed], [--ui],
    [--ortoni-report] and of the options [--suite] with a non-empty value,
    [--type] with a value the suite's own [is_valid_test_type] accepts,
    [--project] with one of the three browsers and [--workers] with a
    non-empty string of decimal digits.  Whether it does depends neither
    on the values its variables start with nor on the script's name. *)
Theorem launcher_accepts_exactly_well_formed_arguments :
  forall (script : string) (args : list string) (v : Vars),
    (exists v', parse_args script args v = Done v')
    <-> well_formed_arguments args.
Proof.
  intros script args v. split.
  - intros [v' H]. exact (parses_well_formed script args v v' H).
  - intros H. exact (well_formed_parses script args H v).
Qed.

(** Reading a variable after an assignment. *)
Ltac read_vars :=
  cbn [set_HEADLESS set_UI_MODE set_TEST_SUITE set_TEST_TYPE
       set_ORTONI_REPORT set_PROJECT set_WORKERS
       HEADLESS UI_MODE TEST_SUITE TEST_TYPE ORTONI_REPORT PROJECT WORKERS
       In] in *.

(** The property holds after an assignment because it held before, or
    because of the value assigned. *)
Ltac keep_or_set :=
  intros; read_vars;
  first [ assumption
        | left; reflexivity
        | right; left; reflexivity
        | right; assumption ].

(** A property of the variables that every assignment of the loop keeps
    holds when the loop is done. *)
Lemma parse_invariant (script : string) (I : Vars -> Prop) :
  (forall v, I v -> I (set_HEADLESS "true" v)) ->
  (forall v, I v -> I (set_HEADLESS "false" v)) ->
  (forall v, I v -> I (set_UI_MODE "true" v)) ->
  (forall v x, x <> "" -> I v -> I (set_TEST_SUITE x v)) ->
  (forall v x, TestTypeDefinition.is_valid_test_type x = true ->
               I v -> I (set_TEST_TYPE x v)) ->
  (forall v x, In x ["chromium"; "firefox"; "webkit"] ->
               I v -> I (set_PROJECT x v)) ->
  (forall v x, is_number x = true -> I v -> I (set_WORKERS x v)) ->
  (forall v, I v -> I (set_ORTONI_REPORT "true" v)) ->
  forall (args : list string) (v v' : Vars),
    I v -> parse_args script args v = Done v' -> I v'.
Proof.
  intros Hh1 Hh2 Hui Hsuite Htype Hproject Hworkers Hreport.
  apply (by_length
           (fun args => forall v v',
                I v -> parse_args script args v = Done v' -> I v')).
  intros [|arg rest] IH v v' Hv.
  { intros H. injection H as <-. exact Hv. }
  split_argument; try discriminate;
    try (intros H; apply IH in H; [exact H | cbn [length]; lia | auto]);
    destruct rest as [|value rest']; try discriminate.
  - split_argument; [discriminate|]. intros H.
    apply IH in H; [exact H | cbn [length]; lia | auto].
  - destruct (type_is_known value) eqn:Hknown; [|discriminate]. intros H.
    rewrite type_is_known_valid in Hknown.
    apply IH in H; [exact H | cbn [length]; lia | auto].
  - destruct (project_is_known value) eqn:Hknown; [|discriminate]. intros H.
    apply project_is_known_in in Hknown.
    apply IH in H; [exact H | cbn [length]; lia | auto].
  - destruct (is_number value) eqn:Hnum; [|discriminate]. intros H.
    apply IH in H; [exact H | cbn [length]; lia | auto].
Qed.

(** An option that is not among the arguments leaves its variable alone. *)
Lemma parse_leaves_unnamed (script : string) :
  forall (args : list string) (v0 v : Vars),
    parse_args script args v0 = Done v ->
    (~ In "--suite" args -> TEST_SUITE v = TEST_SUITE v0)
    /\ (~ In "--type" args -> TEST_TYPE v = TEST_TYPE v0)
    /\ (~ In "--project" args -> PROJECT v = PROJECT v0)
    /\ (~ In "--workers" args -> WORKERS v = WORKERS v0).
Proof.
  apply (by_length
           (fun args => forall v0 v,
                parse_args script args v0 = Done v -> _)).
  intros [|arg rest] IH v0 v.
  { intros H. injection H as <-. tauto. }
  split_argument; try discriminate;
    try (intros H; apply IH in H; [|cbn [length]; lia]; read_vars; tauto);
    destruct rest as [|value rest']; try discriminate.
  - split_argument; [discriminate|]. intros H.
    apply IH in H; [|cbn [length]; lia]. read_vars. tauto.
  - destruct (type_is_known value) eqn:Hknown; [|discriminate]. intros H.
    apply IH in H; [|cbn [length]; lia]. read_vars. tauto.
  - destruct (project_is_known value) eqn:Hknown; [|discriminate]. intros H.
    apply IH in H; [|cbn [length]; lia]. read_vars. tauto.
  - destruct (is_number value) eqn:Hnum; [|discriminate]. intros H.
    apply IH in H; [|cbn [length]; lia]. read_vars. tauto.
Qed.

(** X18.  When the argument loop is done, the three switches hold [true]
    or [false], the test type is the default or a value of the suite's
    tier enum, the project is one of the three browsers or what the
    environment held, and the worker count is a decimal number or what
    the environment held.  The script never initialises [PROJECT] and
    [WORKERS]: when no option names them they are the environment's,
    whatever it holds, and no test is applied to them. *)
Theorem launcher_variables_are_validated_or_inherited :
  forall (env : Env) (args : list string) (v : Vars),
    parse_args (script_name env) args (initial env) = Done v ->
    In (HEADLESS v) ["true"; "false"]
    /\ In (UI_MODE v) ["true"; "false"]
    /\ In (ORTONI_REPORT v) ["true"; "false"]
    /\ (TEST_TYPE v = "sanity_smoke_regression"
        \/ TestTypeDefinition.is_valid_test_type (TEST_TYPE v) = true)
    /\ (PROJECT v = env_PROJECT env
        \/ In (PROJECT v) ["chromium"; "firefox"; "webkit"])
    /\ (WORKERS v = env_WORKERS env \/ is_number (WORKERS v) = true)
    /\ (~ In "--suite" args -> TEST_SUITE v = "")
    /\ (~ In "--type" args -> TEST_TYPE v = "sanity_smoke_regression")
    /\ (~ In "--project" args -> PROJECT v = env_PROJECT env)
    /\ (~ In "--workers" args -> WORKERS v = env_WORKERS env).
Proof.
  intros env args v H.
  pose proof (parse_leaves_unnamed _ _ _ _ H) as [Hs [Ht [Hp Hw]]].
  repeat match goal with
         | |- _ /\ _ => split
         end; try assumption.
  - revert H.
    apply (parse_invariant (script_name env)
             (fun v => In (HEADLESS v) ["true"; "false"]));
      keep_or_set.
  - revert H.
    apply (parse_invariant (script_name env)
             (fun v => In (UI_MODE v) ["true"; "false"]));
      keep_or_set.
  - revert H.
    apply (parse_invariant (script_name env)
             (fun v => In (ORTONI_REPORT v) ["true"; "false"]));
      keep_or_set.
  - revert H.
    apply (parse_invariant (script_name env)
             (fun v => TEST_TYPE v = "sanity_smoke_regression"
                       \/ TestTypeDefinition.is_valid_test_type (TEST_TYPE v)
                          = true));
      keep_or_set.
  - revert H.
    apply (parse_invariant (script_name env)
             (fun v => PROJECT v = env_PROJECT env
                       \/ In (PROJECT v) ["chromium"; "firefox"; "webkit"]));
      keep_or_set.
  - revert H.
    apply (parse_invariant (script_name env)
             (fun v => WORKERS v = env_WORKERS env
                       \/ is_number (WORKERS v) = true));
      keep_or_set.
Qed.

(** X19.  Arguments are read left to right and independently of what
    follows: once the loop is done with a list of arguments, running it on
    that list followed by more arguments is running it on the additional
    arguments from the variables the first list left.  So a later option
    overrides an earlier one, and an error in a later argument is
    reported as it would be alone. *)
Theorem launcher_reads_arguments_left_to_right :
  forall (script : string) (first more : list string) (v v' : Vars),
    parse_args script first v = Done v' ->
    parse_args script (first ++ more) v = parse_args script more v'.
Proof.
  intros script first more.
  apply (by_length
           (fun first => forall v v',
                parse_args script first v = Done v' ->
                parse_args script (first ++ more) v
                = parse_args script more v')).
  clear first. intros [|arg rest] IH v v'.
  { intros H. injection H as <-. reflexivity. }
  cbn [app]. split_argument; try discriminate;
    try (intros H; apply IH; [cbn [length]; lia | exact H]);
    destruct rest as [|value rest']; try discriminate; cbn [app].
  - split_argument; [discriminate|]. intros H.
    apply IH; [cbn [length]; lia | exact H].
  - destruct (type_is_known value); [|discriminate]. intros H.
    apply IH; [cbn [length]; lia | exact H].
  - destruct (project_is_known value); [|discriminate]. intros H.
    apply IH; [cbn [length]; lia | exact H].
  - destruct (is_number value); [|discriminate]. intros H.
    apply IH; [cbn [length]; lia | exact H].
Qed.

Lemma includes_refl (s : string) : includes s s = true.
Proof.
  rewrite <- (append_empty_r s) at 1. apply includes_prefix.
Qed.

Lemma valid_type_is_tier (x : string) :
  TestTypeDefinition.is_valid_test_type x = true ->
  exists t : TestType, x = TestType_value t.
Proof.
  unfold TestTypeDefinition.is_valid_test_type. intros H.
  apply existsb_exists in H as [t [_ Ht]].
  apply String.eqb_eq in Ht. now exists t.
Qed.


Lemma grep_in_command (v : Vars) (t : TestType) :
  TEST_TYPE v = TestType_value t ->
  includes (build_command v) (" --grep " ++ TestType_value t) = true.
Proof.
  intros Ht. unfold build_command. cbv zeta. rewrite Ht.
  replace (negb (TestType_value t =? "")
           && negb (TestType_value t =? "sanity_smoke_regression"))
    with true by (destruct t; reflexivity).
  destruct (negb (WORKERS v =? "")); destruct (negb (PROJECT v =? ""));
    [ do 2 apply includes_app_l | apply includes_app_l
    | apply includes_app_l | idtac ];
    apply includes_app_r; apply includes_refl.
Qed.


(** X21.  Whenever the launcher filters at all, it filters on the value of
    a tier of the suite's enum: if the test type it is left with is not
    the default, the command contains [--grep] followed by the value of
    some tier, and the tag the classifier gives a test contains that
    value exactly when the test lists the tier. *)
Theorem launcher_filter_matches_tier_tags :
  forall (env : Env) (args : list string) (v : Vars),
    parse_args (script_name env) args (initial env) = Done v ->
    TEST_TYPE v <> "sanity_smoke_regression" ->
    exists t : TestType,
      TEST_TYPE v = TestType_value t
      /\ includes (build_command v) (" --grep " ++ TestType_value t) = true
      /\ forall (head : TestType) (tail : list TestType),
           exists tag : string,
             getTestType (tiers (head :: tail)) = Returned tag
             /\ (includes tag (TestType_value t) = true
                 <-> In t (head :: tail)).
Proof.
  intros env args v Hparse Hfilter.
  assert (Hvalid : TEST_TYPE v = "sanity_smoke_regression"
                   \/ TestTypeDefinition.is_valid_test_type (TEST_TYPE v)
                      = true).
  { revert Hparse.
    apply (parse_invariant (script_name env)
             (fun v => TEST_TYPE v = "sanity_smoke_regression"
                       \/ TestTypeDefinition.is_valid_test_type (TEST_TYPE v)
                          = true));
      keep_or_set. }
  destruct Hvalid as [Hdefault | Hvalid]; [contradiction|].
  destruct (valid_type_is_tier _ Hvalid) as [t Ht].
  exists t. split; [exact Ht|]. split; [now apply grep_in_command|].
  intros head tail.
  exists (spec_concat (map spec_tag (map TestType_value (head :: tail)))).
  split; [apply (getTestType_nonempty (TestType_value head))|].
  rewrite includes_tier, existsb_exists. split.
  - intros [x [Hin Hx]]. apply TestType_eqb_eq in Hx. now subst x.
  - intros Hin. exists t. split; [exact Hin | now apply TestType_eqb_eq].
Qed.

End LauncherScript.

(** ** Runs on the scripted pages and in a sample environment *)

Section OnScriptedPages.
Import Demo.
Import CheckboxDemo.

Lemma non_empty_input_checks_message_then_echo_witness :
  SimpleInput.input_str MoreSamples.single_character_row <> ""
  /\ SimpleInput.result_msg MoreSamples.single_character_row
     = SimpleInput.One SimpleInput.MSG_MIN
  /\ EmailInput.email_address MoreSamples.single_character_email_row <> ""
  /\ PasswordInput.password MoreSamples.short_password_row <> ""
  /\ SimpleInput.verify_result "webkit" MoreSamples.single_character_row
       (Demo.fresh MoreSamples.invalid_messages_shown)
     = (Returned tt, Demo.fresh MoreSamples.invalid_messages_shown,
        [ExpectVisible (getByText SimpleInput.MSG_MIN)])
  /\ EmailInput.verify_result "webkit" MoreSamples.single_character_email_row
       (Demo.fresh MoreSamples.invalid_messages_shown)
     = (Returned tt, Demo.fresh MoreSamples.invalid_messages_shown,
        [ExpectVisible (getByText EmailInput.TXT_MSG_INVALID)])
  /\ PasswordInput.verify_result "webkit" MoreSamples.short_password_row
       (Demo.fresh MoreSamples.invalid_messages_shown)
     = (Returned tt, Demo.fresh MoreSamples.invalid_messages_shown,
        [ExpectVisible (getByText PasswordInput.TXT_MSG_INVALID)]).
Proof.
  assert (H1 : SimpleInput.input_str MoreSamples.single_character_row <> "")
    by discriminate.
  assert (H2 : EmailInput.email_address
                 MoreSamples.single_character_email_row <> "")
    by discriminate.
  assert (H3 : PasswordInput.password MoreSamples.short_password_row <> "")
    by discriminate.
  destruct (non_empty_input_checks_message_then_echo
              "webkit" MoreSamples.single_character_row SimpleInput.MSG_MIN
              MoreSamples.single_character_email_row
              MoreSamples.short_password_row
              (Demo.fresh MoreSamples.invalid_messages_shown)
              H1 eq_refl H2 H3) as [Ht [He Hp]].
  split; [exact H1|]. split; [reflexivity|].
  split; [exact H2|]. split; [exact H3|].
  rewrite Ht, He, Hp. split; [reflexivity|]. split; reflexivity.
Defined.

Lemma dialog_step_answers_every_dialog_witness :
  handlers (Demo.fresh Sample.confirm_page) = []
  /\ handlers (Demo.fresh Sample.prompt_page) = []
  /\ verdict (AlertConfirmation.click_and_answer MoreSamples.ok_row
                (Demo.fresh Sample.confirm_page)) = Returned tt
  /\ Demo.answered
       (page (world_after
                (AlertConfirmation.click_and_answer MoreSamples.ok_row
                   (Demo.fresh Sample.confirm_page))))
     = Some (Accept None)
  /\ verdict (AlertPrompt.click_and_answer MoreSamples.ok_with_input_row
                (Demo.fresh Sample.prompt_page)) = Returned tt
  /\ Demo.answered
       (page (world_after
                (AlertPrompt.click_and_answer MoreSamples.ok_with_input_row
                   (Demo.fresh Sample.prompt_page))))
     = Some (Accept (Some "This is a test prompt alert input text.")).
Proof.
  destruct (dialog_step_answers_every_dialog
              (Demo.fresh Sample.confirm_page) (Demo.fresh Sample.prompt_page)
              MoreSamples.ok_row MoreSamples.ok_with_input_row
              eq_refl eq_refl) as [[Hv1 Hp1] [Hv2 Hp2]].
  split; [reflexivity|]. split; [reflexivity|].
  rewrite Hv1, Hp1, Hv2, Hp2.
  split; [reflexivity|]. split; [reflexivity|].
  split; reflexivity.
Defined.

Lemma image_single_drag_row_outcome_witness :
  DragImages.is_loop_back MoreSamples.outside_row = false
  /\ DragImages.is_positive MoreSamples.outside_row = false
  /\ boundingBox DragImages.drop_box_2 Sample.images_page_without_box_2 = None
  /\ verdict (DragImages.drag_and_verify MoreSamples.outside_row
                (Demo.fresh Sample.images_page_without_box_2)) = Returned tt
  /\ world_after (DragImages.drag_and_verify MoreSamples.outside_row
                    (Demo.fresh Sample.images_page_without_box_2))
     = Demo.fresh Sample.images_page_without_box_2
  /\ drags (events_of (DragImages.drag_and_verify MoreSamples.outside_row
                         (Demo.fresh Sample.images_page_without_box_2)))
     = [].
Proof.
  destruct (image_single_drag_row_outcome MoreSamples.outside_row
              (Demo.fresh Sample.images_page_without_box_2) eq_refl)
    as [Hv Hskip].
  destruct (Hskip eq_refl eq_refl) as [Hw Hd].
  split; [reflexivity|]. split; [reflexivity|]. split; [reflexivity|].
  rewrite Hv, Hw, Hd. split; [reflexivity|]. split; reflexivity.
Defined.

(** The scripted checkbox page toggles. *)
Lemma checkbox_demo_click_toggles :
  forall (box : Locator) (p : CheckboxDemo.State),
    In box [Checkboxes.checkbox_1; Checkboxes.checkbox_2;
            Checkboxes.checkbox_3] ->
    exists p' : CheckboxDemo.State,
      click box p = Some (p', None)
      /\ forall other : Locator,
           In other [Checkboxes.checkbox_1; Checkboxes.checkbox_2;
                     Checkboxes.checkbox_3] ->
           isChecked other p'
           = if Locator_eqb other box then negb (isChecked other p)
             else isChecked other p.
Proof.
  intros box p [<-|[<-|[<-|[]]]]; eexists; (split; [reflexivity|]);
    intros other [<-|[<-|[<-|[]]]]; reflexivity.
Qed.

Lemma selection_checks_labels_listed_odd_times_witness :
  verdict (Checkboxes.select_step MoreSamples.one_listed_twice
             (CheckboxDemo.fresh CheckboxDemo.only_two_checked))
  = Returned tt
  /\ checked_boxes
       (page (world_after
                (Checkboxes.select_step MoreSamples.one_listed_twice
                   (CheckboxDemo.fresh CheckboxDemo.only_two_checked))))
     = (false, false, true)
  /\ NoDup (Checkboxes.chk_box_selected MoreSamples.select_one_and_three_row)
  /\ checked_boxes
       (page (world_after
                (Checkboxes.select_step MoreSamples.select_one_and_three_row
                   (CheckboxDemo.fresh CheckboxDemo.only_two_checked))))
     = (true, false, true).
Proof.
  destruct (selection_checks_labels_listed_odd_times
              checkbox_demo_click_toggles MoreSamples.one_listed_twice
              (CheckboxDemo.fresh CheckboxDemo.only_two_checked))
    as [Hv [Hst _]].
  assert (Hnodup : NoDup (Checkboxes.chk_box_selected
                            MoreSamples.select_one_and_three_row)).
  { repeat constructor; cbn; intuition discriminate. }
  destruct (selection_checks_labels_listed_odd_times
              checkbox_demo_click_toggles MoreSamples.select_one_and_three_row
              (CheckboxDemo.fresh CheckboxDemo.only_two_checked))
    as [_ [_ Hlisted]].
  rewrite Hv, Hst, (Hlisted Hnodup).
  split; [reflexivity|]. split; [reflexivity|].
  split; [exact Hnodup | reflexivity].
Defined.

Lemma afterEach_unchecks_every_box_witness :
  verdict (Checkboxes.afterEach "Checkbox test : Select one, two and three"
             "passed" (CheckboxDemo.fresh CheckboxDemo.all_checked))
  = Returned tt
  /\ checked_boxes
       (page (world_after
                (Checkboxes.afterEach
                   "Checkbox test : Select one, two and three" "passed"
                   (CheckboxDemo.fresh CheckboxDemo.all_checked))))
     = (false, false, false).
Proof.
  exact (afterEach_unchecks_every_box checkbox_demo_click_toggles
           "Checkbox test : Select one, two and three" "passed"
           (CheckboxDemo.fresh CheckboxDemo.all_checked)).
Defined.

Lemma submit_step_checks_result_unless_expected_is_empty_witness :
  handlers (CheckboxDemo.fresh CheckboxDemo.one_and_three_checked) = []
  /\ verdict (Checkboxes.submit_and_verify
                MoreSamples.select_one_and_three_row
                (CheckboxDemo.fresh CheckboxDemo.one_and_three_checked))
     = Returned tt
  /\ verdict (Checkboxes.submit_and_verify
                MoreSamples.select_one_and_three_row
                (CheckboxDemo.fresh CheckboxDemo.only_two_checked))
     = Thrown ExpectationFailed.
Proof.
  destruct (submit_step_checks_result_unless_expected_is_empty
              MoreSamples.select_one_and_three_row
              (CheckboxDemo.fresh CheckboxDemo.one_and_three_checked) eq_refl)
    as [Hpass _].
  destruct (submit_step_checks_result_unless_expected_is_empty
              MoreSamples.select_one_and_three_row
              (CheckboxDemo.fresh CheckboxDemo.only_two_checked) eq_refl)
    as [Hfail _].
  rewrite Hpass, Hfail.
  split; [reflexivity|]. split; reflexivity.
Defined.

Lemma alert_test_passes_iff_result_matches_after_answer_witness :
  handlers (Demo.fresh Sample.confirm_page) = []
  /\ handlers (Demo.fresh Sample.prompt_page) = []
  /\ verdict (AlertConfirmation.test_body MoreSamples.ok_row
                (Demo.fresh Sample.confirm_page)) = Returned tt
  /\ verdict (AlertPrompt.test_body MoreSamples.ok_with_input_row
                (Demo.fresh Sample.prompt_page)) = Returned tt.
Proof.
  destruct (alert_test_passes_iff_result_matches_after_answer
              (Demo.fresh Sample.confirm_page) (Demo.fresh Sample.prompt_page)
              MoreSamples.ok_row MoreSamples.ok_with_input_row
              eq_refl eq_refl) as [Hc Hp].
  split; [reflexivity|]. split; [reflexivity|].
  rewrite Hc, Hp. split; reflexivity.
Defined.

Lemma launcher_variables_are_validated_or_inherited_witness :
  Launcher.parse_args
    (Launcher.script_name LauncherSamples.inherited_project)
    ["--headed"; "--type"; "smoke"]
    (Launcher.initial LauncherSamples.inherited_project)
  = Launcher.Done (Launcher.mkVars "false" "false" "" "smoke" "false"
                                   "edge" "")
  /\ ~ In "--project" ["--headed"; "--type"; "smoke"]
  /\ Launcher.PROJECT (Launcher.mkVars "false" "false" "" "smoke" "false"
                                       "edge" "")
     = Launcher.env_PROJECT LauncherSamples.inherited_project
  /\ Launcher.build_command (Launcher.mkVars "false" "false" "" "smoke"
                                             "false" "edge" "")
     = "npx playwright test --headed --grep smoke --project=edge".
Proof.
  assert (Hparse :
            Launcher.parse_args
              (Launcher.script_name LauncherSamples.inherited_project)
              ["--headed"; "--type"; "smoke"]
              (Launcher.initial LauncherSamples.inherited_project)
            = Launcher.Done (Launcher.mkVars "false" "false" "" "smoke"
                                             "false" "edge" ""))
    by reflexivity.
  assert (Hnot : ~ In "--project" ["--headed"; "--type"; "smoke"])
    by (intros [H|[H|[H|[]]]]; discriminate H).
  destruct (launcher_variables_are_validated_or_inherited
              LauncherSamples.inherited_project
              ["--headed"; "--type"; "smoke"] _ Hparse)
    as [_ [_ [_ [_ [_ [_ [_ [_ [Hproject _]]]]]]]]].
  split; [exact Hparse|]. split; [exact Hnot|].
  split; [exact (Hproject Hnot) | reflexivity].
Defined.

Lemma launcher_reads_arguments_left_to_right_witness :
  Launcher.parse_args "./run_tests.sh" ["--type"; "smoke"]
    (Launcher.initial LauncherSamples.inherited_project)
  = Launcher.Done (Launcher.mkVars "true" "false" "" "smoke" "false"
                                   "edge" "")
  /\ Launcher.parse_args "./run_tests.sh"
       (["--type"; "smoke"] ++ ["--type"; "sanity"; "--workers"; "many"])
       (Launcher.initial LauncherSamples.inherited_project)
     = Launcher.Exit_1 (Launcher.workers_error "many").
Proof.
  split; [reflexivity|].
  rewrite (launcher_reads_arguments_left_to_right
             "./run_tests.sh" ["--type"; "smoke"]
             ["--type"; "sanity"; "--workers"; "many"]
             (Launcher.initial LauncherSamples.inherited_project)
             (Launcher.mkVars "true" "false" "" "smoke" "false" "edge" "")
             eq_refl).
  reflexivity.
Defined.

Lemma launcher_filter_matches_tier_tags_witness :
  Launcher.parse_args
    (Launcher.script_name LauncherSamples.inherited_project)
    ["--type"; "smoke"]
    (Launcher.initial LauncherSamples.inherited_project)
  = Launcher.Done (Launcher.mkVars "true" "false" "" "smoke" "false"
                                   "edge" "")
  /\ Launcher.TEST_TYPE (Launcher.mkVars "true" "false" "" "smoke" "false"
                                         "edge" "")
     <> "sanity_smoke_regression"
  /\ exists t : TestType,
       Launcher.TEST_TYPE (Launcher.mkVars "true" "false" "" "smoke" "false"
                                           "edge" "")
       = TestType_value t
       /\ includes
            (Launcher.build_command
               (Launcher.mkVars "true" "false" "" "smoke" "false" "edge" ""))
            (" --grep " ++ TestType_value t) = true
       /\ forall (head : TestType) (tail : list TestType),
            exists tag : string,
              getTestType (tiers (head :: tail)) = Returned tag
              /\ (includes tag (TestType_value t) = true
                  <-> In t (head :: tail)).
Proof.
  split; [reflexivity|]. split; [discriminate|].
  apply (launcher_filter_matches_tier_tags
           LauncherSamples.inherited_project ["--type"; "smoke"]);
    [reflexivity | discriminate].
Defined.

End OnScriptedPages.
